(** * LLM evaluation pipeline: dashboard aggregation, policy loading and
      provider probes

    A shallow embedding of the Python sources

      - [guardrails-dashboard/dashboard.py]  (class [GuardrailsHandler])
      - [llm-evals-cli/evals/policy.py]
      - [llm-evals-cli/evals/providers.py]

    The Python values that flow through this code all come out of
    [json.load]/[json.loads], so the embedding works on a JSON value type.
    Python exceptions are results of an error monad.  Integers stay integers,
    as in Python.  A float is the rational number it stands for ([Qc],
    rationals in lowest terms, so that equal numbers are equal terms).  The
    arithmetic on them comes twice: in exact rationals ([sum_from],
    [truediv]), for the counts, the bounds and the shape of what is
    computed, and as an interface ([Arithmetic]) that leaves the rounding of
    the interpreter open, for the statements about the means themselves. *)

From Stdlib Require Import List String Ascii ZArith QArith Qcanon Qround Bool Lia.
From Stdlib Require Import Orders Sorting.Mergesort Sorting.Sorted Sorting.Permutation.
From Stdlib Require Import RelationClasses OrdersEx.
Import ListNotations.

Local Open Scope string_scope.
Local Open Scope Z_scope.

(* ================================================================== *)
(** ** Python values *)
(* ================================================================== *)

(** What [json.load] returns: [None], [bool], [int], [float], [str], [list]
    and [dict].  A [dict] is an association list in insertion order whose
    lookup takes the first binding of a key. *)
#[warnings="-register-all"]
Inductive json : Type :=
| JNull
| JBool (b : bool)
| JInt (z : Z)
| JFloat (q : Qc)
| JStr (s : string)
| JArr (l : list json)
| JObj (kv : list (string * json)).

Definition dict : Type := list (string * json).

(** The exceptions this code can meet. *)
Inductive exn : Type :=
| KeyError
| TypeError
| AttributeError
| ZeroDivisionError
| ValueError
| FileNotFoundError
| OSError
| OverflowError
| RequestException.

(** The outcome of running a piece of Python: a value or a raised exception. *)
Inductive result (A : Type) : Type :=
| Ok (a : A)
| Raise (e : exn).

Arguments Ok {A} a.
Arguments Raise {A} e.

Definition bind {A B : Type} (c : result A) (k : A -> result B) : result B :=
  match c with
  | Ok a => k a
  | Raise e => Raise e
  end.

Notation "x <- c ;; k" := (bind c (fun x => k))
  (at level 61, c at next level, right associativity).

(** [try: c  except Exception: h] *)
Definition try_except {A : Type} (c : result A) (h : exn -> result A) : result A :=
  match c with
  | Ok a => Ok a
  | Raise e => h e
  end.

(* ------------------------------------------------------------------ *)
(** *** Dictionaries *)

Fixpoint dict_get (d : dict) (k : string) : option json :=
  match d with
  | [] => None
  | (k', v) :: d' => if String.eqb k k' then Some v else dict_get d' k
  end.

(** [k in d] *)
Definition dict_has (d : dict) (k : string) : bool :=
  match dict_get d k with
  | Some _ => true
  | None => false
  end.

(** [d.get(k, default)] *)
Definition dict_get_default (d : dict) (k : string) (default : json) : json :=
  match dict_get d k with
  | Some v => v
  | None => default
  end.

(** [d[k] = v]: an existing key keeps its place, a new key goes last. *)
Fixpoint dict_set (d : dict) (k : string) (v : json) : dict :=
  match d with
  | [] => [(k, v)]
  | (k', v') :: d' =>
      if String.eqb k k' then (k', v) :: d' else (k', v') :: dict_set d' k v
  end.

(** [d[k]] on a dict. *)
Definition dict_item (d : dict) (k : string) : result json :=
  match dict_get d k with
  | Some v => Ok v
  | None => Raise KeyError
  end.

(** [r.get(k, default)] on an arbitrary value: only a dict has [get]. *)
Definition py_get (r : json) (k : string) (default : json) : result json :=
  match r with
  | JObj d => Ok (dict_get_default d k default)
  | _ => Raise AttributeError
  end.

(** [v[k]] with a string key [k], on an arbitrary value: a missing key of a
    dict is a [KeyError]; lists and strings take integer indices only and
    the other values are not subscriptable, both a [TypeError]. *)
Definition py_item (v : json) (k : string) : result json :=
  match v with
  | JObj d => dict_item d k
  | _ => Raise TypeError
  end.

(** [v[k] = x] with a string key [k], on an arbitrary value. *)
Definition py_setitem (v : json) (k : string) (x : json) : result dict :=
  match v with
  | JObj d => Ok (dict_set d k x)
  | _ => Raise TypeError
  end.

(* ------------------------------------------------------------------ *)
(** *** Numbers *)

Inductive num : Type :=
| NInt (z : Z)
| NFloat (q : Qc).

Definition Qc_of_Z (z : Z) : Qc := Q2Qc (inject_Z z).

Definition to_Qc (n : num) : Qc :=
  match n with
  | NInt z => Qc_of_Z z
  | NFloat q => q
  end.

(** The values Python's arithmetic accepts; [bool] is a subclass of [int]. *)
Definition as_num (v : json) : option num :=
  match v with
  | JBool b => Some (NInt (if b then 1 else 0))
  | JInt z => Some (NInt z)
  | JFloat q => Some (NFloat q)
  | _ => None
  end.

Definition json_of_num (n : num) : json :=
  match n with
  | NInt z => JInt z
  | NFloat q => JFloat q
  end.

(** [a + b] in exact rationals: [int + int] is an [int], anything with a
    [float] is a [float], and nothing is rounded. *)
Definition num_add (a b : num) : num :=
  match a, b with
  | NInt x, NInt y => NInt (x + y)
  | _, _ => NFloat (to_Qc a + to_Qc b)%Qc
  end.

Definition Qc_is_zero (q : Qc) : bool := Qeq_bool q 0.

Definition num_is_zero (n : num) : bool :=
  match n with
  | NInt z => z =? 0
  | NFloat q => Qc_is_zero q
  end.

(** [a / b], true division, in exact rationals: always a [float]; the
    quotient is not rounded, and no [int] is too large for it. *)
Definition truediv (a b : num) : result num :=
  if num_is_zero b then Raise ZeroDivisionError
  else Ok (NFloat (to_Qc a / to_Qc b)%Qc).

(** [a > 0] for a number [a]. *)
Definition num_pos (a : num) : bool :=
  match a with
  | NInt z => 0 <? z
  | NFloat q => match Qccompare 0%Qc q with Lt => true | _ => false end
  end.

(** [v > 0] on an arbitrary value: ordering against an [int] is defined for
    numbers only. *)
Definition py_gt0 (v : json) : result bool :=
  match as_num v with
  | Some n => Ok (num_pos n)
  | None => Raise TypeError
  end.

(** [sum(l)] in exact rationals: starts from the [int] 0 and adds from the
    left. *)
Fixpoint sum_from (acc : num) (l : list json) : result num :=
  match l with
  | [] => Ok acc
  | v :: l' =>
      match as_num v with
      | Some n => sum_from (num_add acc n) l'
      | None => Raise TypeError
      end
  end.

Definition py_sum (l : list json) : result num := sum_from (NInt 0) l.

(** [len(l)] *)
Definition len {A : Type} (l : list A) : num := NInt (Z.of_nat (List.length l)).

(* ------------------------------------------------------------------ *)
(** *** Truth values and comprehensions *)

(** [v is not None] *)
Definition is_not_None (v : json) : bool :=
  match v with
  | JNull => false
  | _ => true
  end.

(** [bool(v)] *)
Definition truthy (v : json) : bool :=
  match v with
  | JNull => false
  | JBool b => b
  | JInt z => negb (z =? 0)
  | JFloat q => negb (Qc_is_zero q)
  | JStr s => negb (String.eqb s "")
  | JArr l => match l with [] => false | _ => true end
  | JObj d => match d with [] => false | _ => true end
  end.

(** [[elem(x) for x in l if cond(x)]]: for each element the condition is
    evaluated first and the element expression only when it holds; the first
    exception ends the comprehension. *)
Fixpoint list_comp {A B : Type} (cond : A -> result bool) (elem : A -> result B)
    (l : list A) : result (list B) :=
  match l with
  | [] => Ok []
  | x :: l' =>
      c <- cond x ;;
      if c then
        y <- elem x ;;
        ys <- list_comp cond elem l' ;;
        Ok (y :: ys)
      else list_comp cond elem l'
  end.

(** [sum(l) / len(l) if l else default] *)
Definition mean_or (default : json) (l : list json) : result json :=
  match l with
  | [] => Ok default
  | _ =>
      s <- py_sum l ;;
      m <- truediv s (len l) ;;
      Ok (json_of_num m)
  end.

(* ------------------------------------------------------------------ *)
(** *** The interpreter's arithmetic *)

(** CPython's floats are IEEE 754 binary64 numbers: [sum] rounds at each
    addition of floats, so that its result depends on their order, [/]
    rounds its quotient, and an [int] beyond the range of the floats raises
    [OverflowError] where it meets one.  [sum_from] and [truediv] compute
    in exact rationals and do none of this.  The statements about computed
    means rest on this interface instead: [sum(l)] and [a / b] as the
    interpreter has them.  It fixes of them what exact and binary64
    arithmetic have in common: a sum of [int]s is their exact sum, and a
    quotient of two [int]s that is an integer of at most 53 bits is that
    integer. *)
Class Arithmetic : Type := {
  arith_sum : list json -> result num;
  arith_truediv : num -> num -> result num;
  arith_sum_ints :
    forall zs : list Z,
      arith_sum (map JInt zs) = Ok (NInt (fold_right Z.add 0 zs));
  arith_truediv_exact :
    forall a b : Z,
      b <> 0 -> a mod b = 0 -> Z.abs (a / b) <= 2 ^ 53 ->
      arith_truediv (NInt a) (NInt b) = Ok (NFloat (Qc_of_Z (a / b)))
}.

(** Exact rational arithmetic is an instance. *)
#[refine]
Instance exact_arithmetic : Arithmetic := {|
  arith_sum := py_sum;
  arith_truediv := truediv
|}.
Proof.
  - intros zs. unfold py_sum.
    assert (H : forall acc,
               sum_from (NInt acc) (map JInt zs)
               = Ok (NInt (acc + fold_right Z.add 0 zs))).
    { induction zs as [|z zs IH]; intros acc; simpl.
      - now rewrite Z.add_0_r.
      - rewrite IH. now rewrite Z.add_assoc. }
    exact (H 0).
  - intros a b Hb Hmod _. unfold truediv. cbn [num_is_zero].
    destruct (b =? 0) eqn:E; [apply Z.eqb_eq in E; contradiction|].
    cbn [to_Qc]. do 2 f_equal.
    apply Qc_is_canon. unfold Qc_of_Z. cbn [this Q2Qc Qcdiv Qcmult Qcinv].
    rewrite !Qred_correct.
    apply (Z.div_exact a b Hb) in Hmod. rewrite Hmod at 1.
    rewrite inject_Z_mult. field.
    intros H. apply Hb. rewrite <- inject_Z_injective. exact H.
Defined.

(* ------------------------------------------------------------------ *)
(** *** Binary64 arithmetic *)

(** The integer nearest to [n / d], for a positive [d]; of two that are
    equally near, the even one. *)
Definition round_ties_even (n d : Z) : Z :=
  let q := n / d in
  match 2 * (n mod d) ?= d with
  | Lt => q
  | Gt => q + 1
  | Eq => if Z.even q then q else q + 1
  end.

(** The integer part of the binary logarithm of [n / d], for positive [n]
    and [d]. *)
Definition floor_log2 (n d : Z) : Z :=
  let k := Z.log2 n - Z.log2 d in
  if d * 2 ^ Z.max 0 k <=? n * 2 ^ Z.max 0 (- k) then k else k - 1.

(** Two to the power [e], also for a negative [e]. *)
Definition two_to (e : Z) : Qc :=
  if 0 <=? e then Qc_of_Z (2 ^ e) else (/ Qc_of_Z (2 ^ (- e)))%Qc.

(** The binary64 number nearest to [num / den] (a tie goes to the even
    significand): a significand [m] of at most 53 bits times two to the
    power [e], [e] not below -1074.  None from [2 ^ 1024] on, where the
    finite floats end. *)
Definition round_fraction (num den : Z) : option Qc :=
  let n := Z.abs num in
  if n =? 0 then Some (Qc_of_Z 0)
  else
    let e := Z.max (floor_log2 n den - 52) (-1074) in
    let m := round_ties_even (n * 2 ^ Z.max 0 (- e)) (den * 2 ^ Z.max 0 e) in
    if 1024 <=? Z.log2 m + e then None
    else Some (Qc_of_Z (Z.sgn num * m) * two_to e)%Qc.

Definition binary64_round (q : Qc) : option Qc :=
  round_fraction (Qnum (this q)) (Zpos (Qden (this q))).

(** The float of a rational result.  Beyond the floats CPython raises
    [OverflowError] where an [int] is converted or divided, and goes on
    with an infinity where floats are added or divided; infinities are no
    values of this embedding, which has [OverflowError] there too. *)
Definition float_result (q : Qc) : result Qc :=
  match binary64_round q with
  | Some f => Ok f
  | None => Raise OverflowError
  end.

(** [float(a)] *)
Definition to_float (a : num) : result Qc := float_result (to_Qc a).

(** [a + b] *)
Definition float_add (a b : num) : result num :=
  match a, b with
  | NInt x, NInt y => Ok (NInt (x + y))
  | _, _ =>
      x <- to_float a ;;
      y <- to_float b ;;
      f <- float_result (x + y)%Qc ;;
      Ok (NFloat f)
  end.

(** [sum(l)]: from the [int] 0, adding from the left. *)
Fixpoint float_sum_from (acc : num) (l : list json) : result num :=
  match l with
  | [] => Ok acc
  | v :: l' =>
      match as_num v with
      | Some n =>
          acc' <- float_add acc n ;;
          float_sum_from acc' l'
      | None => Raise TypeError
      end
  end.

(** [a / b]: the quotient of two [int]s is rounded once; another operand
    is made a float first. *)
Definition float_truediv (a b : num) : result num :=
  match a, b with
  | NInt x, NInt y =>
      if y =? 0 then Raise ZeroDivisionError
      else
        f <- float_result (Qc_of_Z x / Qc_of_Z y)%Qc ;;
        Ok (NFloat f)
  | _, _ =>
      x <- to_float a ;;
      y <- to_float b ;;
      if Qc_is_zero y then Raise ZeroDivisionError
      else
        f <- float_result (x / y)%Qc ;;
        Ok (NFloat f)
  end.

(** Binary64 arithmetic is an instance. *)
#[refine]
Instance binary64_arithmetic : Arithmetic := {|
  arith_sum := float_sum_from (NInt 0);
  arith_truediv := float_truediv
|}.
Proof.
  - intros zs.
    assert (H : forall acc,
               float_sum_from (NInt acc) (map JInt zs)
               = Ok (NInt (acc + fold_right Z.add 0 zs))).
    { induction zs as [|z zs IH]; intros acc; simpl.
      - now rewrite Z.add_0_r.
      - rewrite IH. now rewrite Z.add_assoc. }
    exact (H 0).
  - assert (Hdiv : forall a b, b <> 0 -> a mod b = 0 ->
              (Qc_of_Z a / Qc_of_Z b)%Qc = Qc_of_Z (a / b)).
    { intros a b Hb Hmod.
      apply Qc_is_canon. unfold Qc_of_Z. cbn [this Q2Qc Qcdiv Qcmult Qcinv].
      rewrite !Qred_correct.
      apply (Z.div_exact a b Hb) in Hmod. rewrite Hmod at 1.
      rewrite inject_Z_mult. field.
      intros H. apply Hb. rewrite <- inject_Z_injective. exact H. }
    assert (Hint : forall k, Z.abs k <= 2 ^ 53 ->
              round_fraction k 1 = Some (Qc_of_Z k)).
    { intros k Hk. unfold round_fraction.
      destruct (Z.abs k =? 0) eqn:E0.
      { apply Z.eqb_eq in E0. f_equal. f_equal. lia. }
      apply Z.eqb_neq in E0.
      assert (Hn : 0 < Z.abs k) by lia.
      destruct (Z.eq_dec (Z.abs k) (2 ^ 53)) as [E|E].
      { assert (Hc : k = 2 ^ 53 \/ k = - 2 ^ 53) by lia.
        destruct Hc as [-> | ->]; vm_compute; f_equal; apply Qc_is_canon;
          reflexivity. }
      assert (Hlt : Z.abs k < 2 ^ 53) by lia.
      pose proof (Z.log2_nonneg (Z.abs k)) as HL0.
      assert (HL : Z.log2 (Z.abs k) < 53) by (apply Z.log2_lt_pow2; lia).
      pose proof (Z.log2_spec _ Hn) as [Hlo _].
      set (L := Z.log2 (Z.abs k)) in *.
      assert (Ef : floor_log2 (Z.abs k) 1 = L).
      { unfold floor_log2. fold L. change (Z.log2 1) with 0. rewrite Z.sub_0_r.
        rewrite (Z.max_r 0 L) by lia. rewrite (Z.max_l 0 (- L)) by lia.
        change (2 ^ 0) with 1.
        destruct (1 * 2 ^ L <=? Z.abs k * 1) eqn:Ec; [reflexivity|].
        apply Z.leb_gt in Ec. lia. }
      rewrite Ef. rewrite (Z.max_l (L - 52) (-1074)) by lia.
      rewrite (Z.max_r 0 (- (L - 52))) by lia.
      rewrite (Z.max_l 0 (L - 52)) by lia.
      change (1 * 2 ^ 0) with 1.
      replace (- (L - 52)) with (52 - L) by lia.
      assert (Er : forall x, round_ties_even x 1 = x).
      { intros x. unfold round_ties_even. rewrite Z.mod_1_r, Z.div_1_r.
        reflexivity. }
      rewrite Er.
      rewrite Z.log2_mul_pow2 by lia. fold L.
      destruct (1024 <=? 52 - L + L + (L - 52)) eqn:Ec;
        [apply Z.leb_le in Ec; lia|].
      f_equal.
      rewrite Z.mul_assoc, (Z.mul_comm (Z.sgn k)), Z.abs_sgn.
      assert (Hp : 0 < 2 ^ (52 - L)) by (apply Z.pow_pos_nonneg; lia).
      unfold two_to. destruct (0 <=? L - 52) eqn:E52.
      - apply Z.leb_le in E52. assert (L = 52) by lia. subst L.
        replace (Z.log2 (Z.abs k)) with 52 by lia. cbn.
        rewrite Z.mul_1_r. apply Qc_is_canon. cbn [this Q2Qc Qcmult Qc_of_Z].
        rewrite !Qred_correct. ring.
      - replace (- (L - 52)) with (52 - L) by lia.
        change (Qc_of_Z (k * 2 ^ (52 - L)) * / Qc_of_Z (2 ^ (52 - L)))%Qc
          with (Qc_of_Z (k * 2 ^ (52 - L)) / Qc_of_Z (2 ^ (52 - L)))%Qc.
        rewrite Hdiv.
        + now rewrite Z.div_mul by lia.
        + lia.
        + now rewrite Z.mod_mul by lia. }
    intros a b Hb Hmod Hle. unfold float_truediv.
    destruct (b =? 0) eqn:E; [apply Z.eqb_eq in E; contradiction|].
    rewrite (Hdiv a b Hb Hmod). unfold float_result, binary64_round.
    assert (Et : this (Qc_of_Z (a / b)) = inject_Z (a / b)).
    { unfold Qc_of_Z. cbn [this Q2Qc]. apply Qred_identity. cbn.
      apply Z.gcd_1_r. }
    rewrite Et. cbn [Qnum Qden inject_Z]. rewrite (Hint _ Hle). reflexivity.
Defined.

(* ================================================================== *)
(** ** dashboard.py: [GuardrailsHandler] *)
(* ================================================================== *)

(** [calculate_run_summary(self, results)] *)
Definition calculate_run_summary (results : list json) : result dict :=
  match results with
  | [] =>
      Ok [("total_prompts", JInt 0);
          ("accuracy_rate", JNull);
          ("avg_latency_ms", JNull);
          ("blocked_count", JInt 0);
          ("avg_toxicity", JNull)]
  | _ =>
      let total := len results in
      accuracy_results <-
        list_comp (fun r => v <- py_get r "accuracy" JNull ;; Ok (is_not_None v))
                  (fun r => py_get r "accuracy" JNull) results ;;
      accuracy_rate <- mean_or JNull accuracy_results ;;
      latencies <-
        list_comp (fun r => v <- py_get r "latency_ms" JNull ;; Ok (is_not_None v))
                  (fun r => py_get r "latency_ms" (JInt 0)) results ;;
      avg_latency <- mean_or JNull latencies ;;
      ones <-
        list_comp (fun r => v <- py_get r "blocked" (JBool false) ;; Ok (truthy v))
                  (fun _ => Ok (JInt 1)) results ;;
      blocked_count <- py_sum ones ;;
      toxicities <-
        list_comp (fun r => v <- py_get r "toxicity" JNull ;; Ok (is_not_None v))
                  (fun r => py_get r "toxicity" JNull) results ;;
      avg_toxicity <- mean_or JNull toxicities ;;
      Ok [("total_prompts", json_of_num total);
          ("accuracy_rate", accuracy_rate);
          ("avg_latency_ms", avg_latency);
          ("blocked_count", json_of_num blocked_count);
          ("avg_toxicity", avg_toxicity)]
  end.

(* ------------------------------------------------------------------ *)
(** *** The runs directory *)

(** A file that is read with [json.load]: it does not exist, it exists but
    cannot be opened or is not JSON, or it holds a JSON value. *)
Inductive json_file : Type :=
| NoFile
| BadFile
| JsonFile (v : json).

(** What one iteration of the loop of [load_results] meets: a blank line
    ([line.strip()] is empty), a line with a JSON value, or an exception,
    raised by [json.loads] on a line that is not JSON or by the file object
    as it reads on (bytes that do not decode, an I/O error).  The file
    object decodes a block of the file at a time: its exception comes
    before every line of the block it fails on, also before those that
    stand in the file ahead of the bytes that do not decode. *)
Inductive jsonl_line : Type :=
| BlankLine
| BadLine
| JsonLine (v : json).

(** An entry of the runs directory.  [results_jsonl] is [None] when
    [run_dir / "results.jsonl"] does not exist, and otherwise what the
    iterations of reading it meet; a results file that exists but cannot be
    opened is one whose first iteration raises. *)
Record dir_entry : Type := {
  entry_name : string;
  is_dir : bool;
  meta_json : json_file;
  results_jsonl : option (list jsonl_line)
}.

(** [self.runs_dir]: missing, a path that is not a directory, or a directory
    with its entries in the order [iterdir()] yields them. *)
Inductive runs_dir_state : Type :=
| NoRunsDir
| RunsDirIsFile
| RunsDir (entries : list dir_entry).

(** [load_results(self, results_file)]: the first exception ends the
    reading; what was appended before it is returned. *)
Fixpoint load_results (lines : list jsonl_line) : list json :=
  match lines with
  | [] => []
  | BlankLine :: rest => load_results rest
  | BadLine :: _ => []
  | JsonLine v :: rest => v :: load_results rest
  end.

(** The order of [sorted(self.runs_dir.iterdir(), reverse=True)]: paths of
    one directory compare by their names, character code by character
    code, and the larger name comes first. *)
Module PathReverseOrder <: TotalLeBool.
Definition t : Type := dir_entry.
Definition leb (a b : dir_entry) : bool :=
  String.leb (entry_name b) (entry_name a).
Definition leb_total (a b : dir_entry) : leb a b = true \/ leb b a = true :=
  String.leb_total (entry_name b) (entry_name a).
End PathReverseOrder.

Module PathSort := Sort PathReverseOrder.

Definition sorted_reverse (entries : list dir_entry) : list dir_entry :=
  PathSort.sort entries.

(** The body of the [try] block of one iteration of [get_recent_runs], up to
    the value that is appended to [runs]. *)
Definition load_run (run_dir : dir_entry) : result dict :=
  meta <- match meta_json run_dir with
          | JsonFile v => Ok v
          | BadFile => Raise ValueError
          | NoFile => Raise FileNotFoundError
          end ;;
  meta <- match results_jsonl run_dir with
          | Some lines =>
              let results := load_results lines in
              summary <- calculate_run_summary results ;;
              d <- py_setitem meta "summary" (JObj summary) ;;
              Ok (JObj d)
          | None => Ok meta
          end ;;
  py_setitem meta "run_id" (JStr (entry_name run_dir)).

(** The loop of [get_recent_runs] over the sorted entries, [runs] being the
    list built so far. *)
Fixpoint scan_runs (limit : Z) (entries : list dir_entry) (runs : list dict)
    : list dict :=
  match entries with
  | [] => runs
  | run_dir :: rest =>
      if negb (is_dir run_dir) then scan_runs limit rest runs
      else
        match meta_json run_dir with
        | NoFile => scan_runs limit rest runs
        | _ =>
            match load_run run_dir with
            | Ok meta =>
                let runs := (runs ++ [meta])%list in
                if Z.of_nat (List.length runs) >=? limit then runs
                else scan_runs limit rest runs
            | Raise _ => scan_runs limit rest runs
            end
        end
  end.

(** [get_recent_runs(self, limit=10)] *)
Definition get_recent_runs (runs_dir : runs_dir_state) (limit : Z)
    : result (list dict) :=
  match runs_dir with
  | NoRunsDir => Ok []
  | RunsDirIsFile => Raise OSError
  | RunsDir entries => Ok (scan_runs limit (sorted_reverse entries) [])
  end.

(** [r["summary"][k]] *)
Definition summary_item (r : dict) (k : string) : result json :=
  s <- dict_item r "summary" ;;
  py_item s k.

(** ["summary" in r and r["summary"][k] is not None] *)
Definition has_summary_value (k : string) (r : dict) : result bool :=
  if dict_has r "summary" then
    v <- summary_item r k ;;
    Ok (is_not_None v)
  else Ok false.

(** The body of [get_dashboard_stats] after [runs] has been read. *)
Definition dashboard_stats (runs : list dict) : result dict :=
  match runs with
  | [] =>
      Ok [("total_runs", JInt 0);
          ("total_evaluations", JInt 0);
          ("avg_accuracy", JInt 0);
          ("avg_latency", JInt 0);
          ("violation_rate", JInt 0);
          ("recent_violations", JArr [])]
  | _ =>
      total_evaluations <-
        py_sum (map (fun r => dict_get_default r "total_prompts" (JInt 0)) runs) ;;
      accuracies <-
        list_comp (has_summary_value "accuracy_rate")
                  (fun r => summary_item r "accuracy_rate") runs ;;
      latencies <-
        list_comp (has_summary_value "avg_latency_ms")
                  (fun r => summary_item r "avg_latency_ms") runs ;;
      blocked_counts <-
        list_comp (fun r => Ok (dict_has r "summary"))
                  (fun r => summary_item r "blocked_count") runs ;;
      recent_violations <-
        list_comp
          (fun run =>
             if dict_has run "summary" then
               b <- summary_item run "blocked_count" ;;
               py_gt0 b
             else Ok false)
          (fun run =>
             run_id <- dict_item run "run_id" ;;
             b <- summary_item run "blocked_count" ;;
             Ok (JObj [("run_id", run_id);
                       ("timestamp", dict_get_default run "start_time" JNull);
                       ("blocked_count", b);
                       ("total_prompts",
                        dict_get_default run "total_prompts" (JInt 0))]))
          (firstn 5 runs) ;;
      avg_accuracy <- mean_or (JInt 0) accuracies ;;
      avg_latency <- mean_or (JInt 0) latencies ;;
      violation_rate <-
        (if num_pos total_evaluations then
           s <- py_sum blocked_counts ;;
           q <- truediv s total_evaluations ;;
           Ok (json_of_num q)
         else Ok (JInt 0)) ;;
      Ok [("total_runs", json_of_num (len runs));
          ("total_evaluations", json_of_num total_evaluations);
          ("avg_accuracy", avg_accuracy);
          ("avg_latency", avg_latency);
          ("violation_rate", violation_rate);
          ("recent_violations", JArr recent_violations)]
  end.

(** [get_dashboard_stats(self)] *)
Definition get_dashboard_stats (runs_dir : runs_dir_state) : result dict :=
  runs <- get_recent_runs runs_dir 50 ;;
  dashboard_stats runs.

(* ------------------------------------------------------------------ *)
(** *** The summary and the statistics in the interpreter's arithmetic *)

(** The two functions that compute means, with [sum] and [/] taken from
    the interface [Arithmetic]; the rest is as above.  With exact
    arithmetic they are the functions above. *)
Module InArithmetic.
Section Functions.

Context {A : Arithmetic}.

(** [sum(l) / len(l) if l else default] *)
Definition mean_or (default : json) (l : list json) : result json :=
  match l with
  | [] => Ok default
  | _ =>
      s <- arith_sum l ;;
      m <- arith_truediv s (len l) ;;
      Ok (json_of_num m)
  end.

(** [calculate_run_summary(self, results)] *)
Definition calculate_run_summary (results : list json) : result dict :=
  match results with
  | [] =>
      Ok [("total_prompts", JInt 0);
          ("accuracy_rate", JNull);
          ("avg_latency_ms", JNull);
          ("blocked_count", JInt 0);
          ("avg_toxicity", JNull)]
  | _ =>
      let total := len results in
      accuracy_results <-
        list_comp (fun r => v <- py_get r "accuracy" JNull ;; Ok (is_not_None v))
                  (fun r => py_get r "accuracy" JNull) results ;;
      accuracy_rate <- mean_or JNull accuracy_results ;;
      latencies <-
        list_comp (fun r => v <- py_get r "latency_ms" JNull ;; Ok (is_not_None v))
                  (fun r => py_get r "latency_ms" (JInt 0)) results ;;
      avg_latency <- mean_or JNull latencies ;;
      ones <-
        list_comp (fun r => v <- py_get r "blocked" (JBool false) ;; Ok (truthy v))
                  (fun _ => Ok (JInt 1)) results ;;
      blocked_count <- arith_sum ones ;;
      toxicities <-
        list_comp (fun r => v <- py_get r "toxicity" JNull ;; Ok (is_not_None v))
                  (fun r => py_get r "toxicity" JNull) results ;;
      avg_toxicity <- mean_or JNull toxicities ;;
      Ok [("total_prompts", json_of_num total);
          ("accuracy_rate", accuracy_rate);
          ("avg_latency_ms", avg_latency);
          ("blocked_count", json_of_num blocked_count);
          ("avg_toxicity", avg_toxicity)]
  end.

(** The body of [get_dashboard_stats] after [runs] has been read. *)
Definition dashboard_stats (runs : list dict) : result dict :=
  match runs with
  | [] =>
      Ok [("total_runs", JInt 0);
          ("total_evaluations", JInt 0);
          ("avg_accuracy", JInt 0);
          ("avg_latency", JInt 0);
          ("violation_rate", JInt 0);
          ("recent_violations", JArr [])]
  | _ =>
      total_evaluations <-
        arith_sum (map (fun r => dict_get_default r "total_prompts" (JInt 0)) runs) ;;
      accuracies <-
        list_comp (has_summary_value "accuracy_rate")
                  (fun r => summary_item r "accuracy_rate") runs ;;
      latencies <-
        list_comp (has_summary_value "avg_latency_ms")
                  (fun r => summary_item r "avg_latency_ms") runs ;;
      blocked_counts <-
        list_comp (fun r => Ok (dict_has r "summary"))
                  (fun r => summary_item r "blocked_count") runs ;;
      recent_violations <-
        list_comp
          (fun run =>
             if dict_has run "summary" then
               b <- summary_item run "blocked_count" ;;
               py_gt0 b
             else Ok false)
          (fun run =>
             run_id <- dict_item run "run_id" ;;
             b <- summary_item run "blocked_count" ;;
             Ok (JObj [("run_id", run_id);
                       ("timestamp", dict_get_default run "start_time" JNull);
                       ("blocked_count", b);
                       ("total_prompts",
                        dict_get_default run "total_prompts" (JInt 0))]))
          (firstn 5 runs) ;;
      avg_accuracy <- mean_or (JInt 0) accuracies ;;
      avg_latency <- mean_or (JInt 0) latencies ;;
      violation_rate <-
        (if num_pos total_evaluations then
           s <- arith_sum blocked_counts ;;
           q <- arith_truediv s total_evaluations ;;
           Ok (json_of_num q)
         else Ok (JInt 0)) ;;
      Ok [("total_runs", json_of_num (len runs));
          ("total_evaluations", json_of_num total_evaluations);
          ("avg_accuracy", avg_accuracy);
          ("avg_latency", avg_latency);
          ("violation_rate", violation_rate);
          ("recent_violations", JArr recent_violations)]
  end.

End Functions.
End InArithmetic.

(* ------------------------------------------------------------------ *)
(** *** Request routing and run details *)

(** [s.split(sep)]: the pieces of [s] between the occurrences of the
    character [sep]; never empty. *)
Fixpoint py_split (sep : ascii) (s : string) : list string :=
  match s with
  | EmptyString => [EmptyString]
  | String c s' =>
      if Ascii.eqb c sep then EmptyString :: py_split sep s'
      else
        match py_split sep s' with
        | piece :: pieces => String c piece :: pieces
        | [] => [String c EmptyString]
        end
  end.

(** What [do_GET] calls for a request. *)
Inductive route : Type :=
| serve_dashboard
| serve_runs_api
| serve_run_details (run_id : string)
| serve_stats_api
| serve_static.

(** [do_GET(self)], on [urlparse(self.path).path]. *)
Definition do_GET (path : string) : route :=
  if String.eqb path "/" || String.eqb path "/index.html" then serve_dashboard
  else if String.eqb path "/api/runs" then serve_runs_api
  else if String.prefix "/api/run/" path then
    serve_run_details (last (py_split "/"%char path) EmptyString)
  else if String.eqb path "/api/stats" then serve_stats_api
  else serve_static.

Section RunDetails.

(** [str(e)] of a caught exception; the text is Python's. *)
Variable str : exn -> string.

(** [get_run_details(self, run_id)], on the state of the path
    [self.runs_dir / run_id]: [None] when it does not exist.  A path that
    is not a directory has no [meta.json] to open. *)
Definition get_run_details (run_dir : option dir_entry) : dict :=
  match run_dir with
  | None => [("error", JStr "Run not found")]
  | Some run_dir =>
      match
        (meta <- (if is_dir run_dir then
                    match meta_json run_dir with
                    | JsonFile v => Ok v
                    | BadFile => Raise ValueError
                    | NoFile => Raise FileNotFoundError
                    end
                  else Raise OSError) ;;
         let results :=
           match results_jsonl run_dir with
           | Some lines => load_results lines
           | None => []
           end in
         summary <- calculate_run_summary results ;;
         Ok [("metadata", meta);
             ("results", JArr results);
             ("summary", JObj summary)])
      with
      | Ok details => details
      | Raise e => [("error", JStr (str e))]
      end
  end.

End RunDetails.

(* ================================================================== *)
(** ** policy.py *)
(* ================================================================== *)

(** [class EvaluationPolicy(BaseModel)]: the five declared fields. *)
Record EvaluationPolicy : Type := {
  max_latency_ms : Z;
  require_accuracy : bool;
  enable_toxicity : bool;
  toxicity_threshold : Qc;
  enable_pii : bool
}.

Definition policy_fields : list string :=
  ["max_latency_ms"; "require_accuracy"; "enable_toxicity";
   "toxicity_threshold"; "enable_pii"].

(** The validation of one value against the annotation [int], [bool] or
    [float] is pydantic's, not this repository's.  It is an interface here:
    a value of the annotated type validates as itself, and [None], lists and
    dicts validate as none of the three.  What pydantic does with the other
    values (a string against [int], a number against [bool], ...) is left to
    the instance. *)
Class FieldValidators : Type := {
  validate_int : json -> option Z;
  validate_bool : json -> option bool;
  validate_float : json -> option Qc;
  validate_int_exact : forall z, validate_int (JInt z) = Some z;
  validate_bool_exact : forall b, validate_bool (JBool b) = Some b;
  validate_float_exact : forall q, validate_float (JFloat q) = Some q;
  validate_int_null : validate_int JNull = None;
  validate_bool_null : validate_bool JNull = None;
  validate_float_null : validate_float JNull = None;
  validate_int_arr : forall l, validate_int (JArr l) = None;
  validate_bool_arr : forall l, validate_bool (JArr l) = None;
  validate_float_arr : forall l, validate_float (JArr l) = None;
  validate_int_obj : forall d, validate_int (JObj d) = None;
  validate_bool_obj : forall d, validate_bool (JObj d) = None;
  validate_float_obj : forall d, validate_float (JObj d) = None
}.

(** pydantic's default mode (the model class sets no [strict]) also
    converts values of another type where its conversion table allows it: a
    [bool] or a float without fraction for an [int]; the numbers 0 and 1 and
    the words of [str_as_bool] for a [bool]; an [int] or a [bool] for a
    [float]; and a string that spells a number for an [int] or a [float].
    The spellings read here are the plain ones: an optional sign, decimal
    digits, for a float also a fraction and an exponent, with white space
    around them ignored. *)

(** White space as [str.trim] removes it. *)
Definition is_space (c : ascii) : bool :=
  let n := N_of_ascii c in
  ((9 <=? n) && (n <=? 13) || (n =? 32))%N.

Fixpoint lstrip (s : string) : string :=
  match s with
  | EmptyString => EmptyString
  | String c s' => if is_space c then lstrip s' else s
  end.

Fixpoint rstrip (s : string) : string :=
  match s with
  | EmptyString => EmptyString
  | String c s' =>
      match rstrip s' with
      | EmptyString => if is_space c then EmptyString else String c EmptyString
      | rest => String c rest
      end
  end.

Definition trim (s : string) : string := rstrip (lstrip s).

(** ASCII lower case. *)
Definition lower (c : ascii) : ascii :=
  let n := N_of_ascii c in
  if ((65 <=? n) && (n <=? 90))%N then ascii_of_N (n + 32) else c.

Fixpoint lowercase (s : string) : string :=
  match s with
  | EmptyString => EmptyString
  | String c s' => String (lower c) (lowercase s')
  end.

Definition digit_value (c : ascii) : option Z :=
  let n := Z.of_N (N_of_ascii c) in
  if (48 <=? n) && (n <=? 57) then Some (n - 48) else None.

(** The number that the digits of [s] spell after the digits read so far
    ([acc]); none when [s] has another character. *)
Fixpoint digits_from (acc : Z) (s : string) : option Z :=
  match s with
  | EmptyString => Some acc
  | String c s' =>
      match digit_value c with
      | Some d => digits_from (10 * acc + d) s'
      | None => None
      end
  end.

(** One digit at least. *)
Definition digits (s : string) : option Z :=
  match s with
  | EmptyString => None
  | _ => digits_from 0 s
  end.

(** An optional sign before what [unsigned] reads. *)
Definition signed {A : Type} (opp : A -> A) (unsigned : string -> option A)
    (s : string) : option A :=
  match s with
  | String "-" s' => option_map opp (unsigned s')
  | String "+" s' => unsigned s'
  | _ => unsigned s
  end.

(** [str_as_int]: a string for an [int]. *)
Definition str_as_int (s : string) : option Z := signed Z.opp digits (trim s).

(** What stands before the first [sep], and what stands after it when there
    is one. *)
Fixpoint cut_at (sep : ascii -> bool) (s : string) : string * option string :=
  match s with
  | EmptyString => (EmptyString, None)
  | String c s' =>
      if sep c then (EmptyString, Some s')
      else let (before, after) := cut_at sep s' in (String c before, after)
  end.

(** Ten to the power [e], also for a negative [e]. *)
Definition power_of_ten (e : Z) : Qc :=
  if 0 <=? e then Qc_of_Z (10 ^ e) else (/ Qc_of_Z (10 ^ (- e)))%Qc.

(** Digits with an optional fraction, one digit at least in all. *)
Definition decimal_fraction (s : string) : option Qc :=
  let (whole, fraction) := cut_at (Ascii.eqb ".") s in
  let fraction := match fraction with Some f => f | None => EmptyString end in
  match (whole ++ fraction)%string with
  | EmptyString => None
  | all =>
      option_map
        (fun n => (Qc_of_Z n * power_of_ten (- Z.of_nat (String.length fraction)))%Qc)
        (digits_from 0 all)
  end.

(** A decimal fraction with an optional exponent. *)
Definition unsigned_float (s : string) : option Qc :=
  let (mantissa, exponent) :=
    cut_at (fun c => Ascii.eqb c "e" || Ascii.eqb c "E") s in
  match decimal_fraction mantissa, exponent with
  | Some m, None => Some m
  | Some m, Some e =>
      option_map (fun e => (m * power_of_ten e)%Qc) (signed Z.opp digits e)
  | None, _ => None
  end.

(** [str_as_float]: a string for a [float]. *)
Definition str_as_float (s : string) : option Qc :=
  signed Qcopp unsigned_float (trim s).

(** [str_as_bool]: a string for a [bool], whatever the case of its
    letters. *)
Definition str_as_bool (s : string) : option bool :=
  let w := lowercase s in
  if existsb (String.eqb w) ["0"; "f"; "n"; "no"; "off"; "false"] then Some false
  else if existsb (String.eqb w) ["1"; "t"; "y"; "on"; "yes"; "true"] then Some true
  else None.

(** [int_as_bool]: 0 and 1 only. *)
Definition int_as_bool (z : Z) : option bool :=
  if z =? 0 then Some false else if z =? 1 then Some true else None.

(** [float_as_int]: a float without fraction, within 64 bits. *)
Definition float_as_int (q : Qc) : option Z :=
  let n := Qnum (this q) in
  if Pos.eqb (Qden (this q)) 1 && (- 2 ^ 63 <? n) && (n <? 2 ^ 63)
  then Some n else None.

(** The validators of pydantic's default mode. *)
#[refine]
Instance lax_validators : FieldValidators := {|
  validate_int v :=
    match v with
    | JInt z => Some z
    | JBool b => Some (if b then 1 else 0)
    | JFloat q => float_as_int q
    | JStr s => str_as_int s
    | _ => None
    end;
  validate_bool v :=
    match v with
    | JBool b => Some b
    | JInt z => int_as_bool z
    | JFloat q =>
        match float_as_int q with
        | Some z => int_as_bool z
        | None => None
        end
    | JStr s => str_as_bool s
    | _ => None
    end;
  validate_float v :=
    match v with
    | JFloat q => Some q
    | JInt z => Some (Qc_of_Z z)
    | JBool b => Some (Qc_of_Z (if b then 1 else 0))
    | JStr s => str_as_float s
    | _ => None
    end
|}.
Proof. all: reflexivity. Defined.

Section PolicyLoading.

Context {V : FieldValidators}.

(** A declared field: the given value validated, or the default when the
    key is absent. *)
Definition field {A : Type} (validate : json -> option A) (data : dict)
    (k : string) (default : A) : option A :=
  match dict_get data k with
  | Some v => validate v
  | None => Some default
  end.

(** [extra = "forbid"]: every key is a declared field. *)
Definition no_extra_fields (data : dict) : bool :=
  forallb (fun kv => existsb (String.eqb (fst kv)) policy_fields) data.

(** The constructor call of [load_policy], the keys of the dict [data]
    passed as keyword arguments: a validation error of any field, or any
    extra key, raises pydantic's [ValidationError]. *)
Definition EvaluationPolicy_init (data : dict) : result EvaluationPolicy :=
  match field validate_int data "max_latency_ms" 2000,
        field validate_bool data "require_accuracy" true,
        field validate_bool data "enable_toxicity" true,
        field validate_float data "toxicity_threshold" (Q2Qc (1 # 2)),
        field validate_bool data "enable_pii" false with
  | Some l, Some a, Some t, Some th, Some p =>
      if no_extra_fields data then
        Ok {| max_latency_ms := l;
              require_accuracy := a;
              enable_toxicity := t;
              toxicity_threshold := th;
              enable_pii := p |}
      else Raise ValueError
  | _, _, _, _, _ => Raise ValueError
  end.

(** [load_policy(policy_path)], on the state of the file at [policy_path].
    Whatever the [try] block raises is raised again as a [ValueError]. *)
Definition load_policy (policy_file : json_file) : result EvaluationPolicy :=
  match policy_file with
  | NoFile => Raise FileNotFoundError
  | BadFile => Raise ValueError
  | JsonFile data =>
      try_except
        (match data with
         | JObj d => EvaluationPolicy_init d
         | _ => Raise TypeError
         end)
        (fun _ => Raise ValueError)
  end.

(** Field [k] is given and its value does not validate. *)
Definition wrong_type {A : Type} (validate : json -> option A) (data : dict)
    (k : string) : Prop :=
  exists v, dict_get data k = Some v /\ validate v = None.

Definition has_wrong_type (data : dict) : Prop :=
  wrong_type validate_int data "max_latency_ms"
  \/ wrong_type validate_bool data "require_accuracy"
  \/ wrong_type validate_bool data "enable_toxicity"
  \/ wrong_type validate_float data "toxicity_threshold"
  \/ wrong_type validate_bool data "enable_pii".

Definition has_unknown_field (data : dict) : Prop :=
  exists k v, In (k, v) data /\ ~ In k policy_fields.

(** Field [k] of the loaded policy: the validated value when the file gives
    one, the default otherwise. *)
Definition field_loaded {A : Type} (validate : json -> option A) (data : dict)
    (k : string) (default loaded : A) : Prop :=
  match dict_get data k with
  | Some v => validate v = Some loaded
  | None => loaded = default
  end.

End PolicyLoading.

(** [policy_to_dict(policy)]: [model_dump()] gives the five fields in the
    order of their declaration. *)
Definition policy_to_dict (policy : EvaluationPolicy) : dict :=
  [("max_latency_ms", JInt (max_latency_ms policy));
   ("require_accuracy", JBool (require_accuracy policy));
   ("enable_toxicity", JBool (enable_toxicity policy));
   ("toxicity_threshold", JFloat (toxicity_threshold policy));
   ("enable_pii", JBool (enable_pii policy))].

(* ================================================================== *)
(** ** providers.py: [OllamaProvider] *)
(* ================================================================== *)

(** What [requests.get(f"{self.base_url}/api/tags", timeout=...)] does: it
    raises a [RequestException] (connection refused, timeout, ...) or it
    returns a response, of which the code reads [status_code] and [json()];
    [json()] returns the decoded body or raises. *)
Record response : Type := {
  status_code : Z;
  json_body : result json
}.

Inductive http_outcome : Type :=
| RequestFailed
| Responded (r : response).

Definition requests_get (o : http_outcome) : result response :=
  match o with
  | RequestFailed => Raise RequestException
  | Responded r => Ok r
  end.

(** [response.raise_for_status()]: an [HTTPError], which is a
    [RequestException], for a 4xx or 5xx status. *)
Definition raise_for_status (r : response) : result unit :=
  if (400 <=? status_code r) && (status_code r <? 600)
  then Raise RequestException
  else Ok tt.

(** [try: c  except requests.RequestException: h] *)
Definition except_RequestException {A : Type} (c : result A) (h : result A)
    : result A :=
  match c with
  | Raise RequestException => h
  | _ => c
  end.

(** [for x in v]: the elements of a list, the keys of a dict, the characters
    of a string. *)
Definition py_iter (v : json) : result (list json) :=
  match v with
  | JArr l => Ok l
  | JObj d => Ok (map (fun kv => JStr (fst kv)) d)
  | JStr s => Ok (map (fun c => JStr (String c EmptyString)) (list_ascii_of_string s))
  | _ => Raise TypeError
  end.

(** [s.split(":")[0]] *)
Fixpoint before_colon (s : string) : string :=
  match s with
  | EmptyString => EmptyString
  | String c s' =>
      if Ascii.eqb c ":"%char then EmptyString else String c (before_colon s')
  end.

(** The loop of [list_models] over the listed models. *)
Fixpoint model_names (items : list json) : result (list string) :=
  match items with
  | [] => Ok []
  | model :: rest =>
      n <- py_get model "name" (JStr "") ;;
      name <- match n with
              | JStr s => Ok (before_colon s)
              | _ => Raise AttributeError
              end ;;
      names <- model_names rest ;;
      Ok (if String.eqb name "" then names else name :: names)
  end.

Module StringOrder <: TotalLeBool.
Definition t : Type := string.
Definition leb : string -> string -> bool := String.leb.
Definition leb_total (a b : string) : leb a b = true \/ leb b a = true :=
  String.leb_total a b.
End StringOrder.

Module StringSort := Sort StringOrder.

(** [list_models(self)] *)
Definition list_models (o : http_outcome) : result (list string) :=
  except_RequestException
    (response <- requests_get o ;;
     _ <- raise_for_status response ;;
     data <- json_body response ;;
     listed <- py_get data "models" (JArr []) ;;
     items <- py_iter listed ;;
     models <- model_names items ;;
     Ok (StringSort.sort models))
    (Ok []).

(** [is_available(self)] *)
Definition is_available (o : http_outcome) : result bool :=
  except_RequestException
    (response <- requests_get o ;;
     Ok (status_code response =? 200))
    (Ok false).

(* ------------------------------------------------------------------ *)
(** *** Token estimates and generation *)

(** [len(v)]: strings, lists and dicts have a length. *)
Definition py_len (v : json) : result Z :=
  match v with
  | JStr s => Ok (Z.of_nat (String.length s))
  | JArr l => Ok (Z.of_nat (List.length l))
  | JObj d => Ok (Z.of_nat (List.length d))
  | _ => Raise TypeError
  end.

(** [round(x)] of a float: to the nearest integer, a tie to the even one. *)
Definition py_round (x : Qc) : Z :=
  let f := Qfloor x in
  match Qcompare (x - inject_Z f) (1 # 2) with
  | Lt => f
  | Gt => f + 1
  | Eq => if Z.even f then f else f + 1
  end.

(** [_estimate_tokens(self, text)], on whatever [text] is at run time. *)
Definition _estimate_tokens (text : json) : result Z :=
  n <- py_len text ;;
  x <- truediv (NInt n) (NInt 4) ;;
  Ok (Z.max 1 (py_round (to_Qc x))).

(** [if model.startswith("ollama/"): model = model[7:]] *)
Definition strip_provider_prefix (model : string) : string :=
  if String.prefix "ollama/" model
  then String.substring 7 (String.length model - 7) model
  else model.

(** The payload that [generate] posts. *)
Definition generate_payload (model prompt : string) (temperature : option Qc)
    : dict :=
  let payload := [("model", JStr (strip_provider_prefix model));
                  ("prompt", JStr prompt);
                  ("stream", JBool false)] in
  match temperature with
  | Some t => dict_set payload "options" (JObj [("temperature", JFloat t)])
  | None => payload
  end.

(** What [generate] raises: the [RuntimeError] of one of its two [except]
    clauses, with its cause, or an exception that no clause catches. *)
Inductive generate_exn : Type :=
| RuntimeError (cause : exn)
| Uncaught (e : exn).

Inductive generation : Type :=
| Generated (result : dict)
| GenerationRaised (e : generate_exn).

(** [tokens = data.get(k); if tokens is None: tokens = estimate] *)
Definition reported_or_estimate (data : json) (k : string) (text : json)
    : result json :=
  tokens <- py_get data k JNull ;;
  if is_not_None tokens then Ok tokens
  else
    n <- _estimate_tokens text ;;
    Ok (JInt n).

Section Generate.

(** The backend: what [requests.post] to [/api/generate] does with a
    payload and a timeout. *)
Variable post : dict -> Qc -> http_outcome.

(** The two readings of [time.perf_counter()]. *)
Variables start_time end_time : Qc.

(** [generate(self, model, prompt, temperature=None, timeout=120.0)].  A
    body that is not JSON makes [json()] raise a [JSONDecodeError], which
    is the [ValueError] here. *)
Definition generate (model prompt : string) (temperature : option Qc)
    (timeout : Qc) : generation :=
  let payload := generate_payload model prompt temperature in
  match
    (response <- requests_get (post payload timeout) ;;
     _ <- raise_for_status response ;;
     let latency_ms := ((end_time - start_time) * Qc_of_Z 1000)%Qc in
     data <- json_body response ;;
     text <- py_get data "response" (JStr "") ;;
     tokens_in <- reported_or_estimate data "prompt_eval_count" (JStr prompt) ;;
     tokens_out <- reported_or_estimate data "eval_count" text ;;
     Ok [("text", text);
         ("tokens_in", tokens_in);
         ("tokens_out", tokens_out);
         ("latency_ms", JFloat latency_ms);
         ("raw", data)])
  with
  | Ok result => Generated result
  | Raise RequestException => GenerationRaised (RuntimeError RequestException)
  | Raise ValueError => GenerationRaised (RuntimeError ValueError)
  | Raise e => GenerationRaised (Uncaught e)
  end.

End Generate.

(** [model_exists(self, model)] *)
Definition model_exists (o : http_outcome) (model : string) : result bool :=
  let model := strip_provider_prefix model in
  models <- list_models o ;;
  Ok (existsb (String.eqb model) models).

(* ------------------------------------------------------------------ *)
(** *** Providers and model strings *)

(** [base_url.rstrip("/")] *)
Fixpoint rstrip_slash (s : string) : string :=
  match s with
  | EmptyString => EmptyString
  | String c s' =>
      match rstrip_slash s' with
      | EmptyString =>
          if Ascii.eqb c "/"%char then EmptyString else String c EmptyString
      | rest => String c rest
      end
  end.

Record OllamaProvider : Type := {
  base_url : string
}.

(** [OllamaProvider.__init__(self, base_url="http://localhost:11434")] *)
Definition OllamaProvider_init (url : string) : OllamaProvider :=
  {| base_url := rstrip_slash url |}.

(** [get_provider(provider_name)] *)
Definition get_provider (provider_name : string) : result OllamaProvider :=
  if String.eqb provider_name "ollama"
  then Ok (OllamaProvider_init "http://localhost:11434")
  else Raise ValueError.

(** [sep in s] *)
Fixpoint contains_char (sep : ascii) (s : string) : bool :=
  match s with
  | EmptyString => false
  | String c s' => Ascii.eqb c sep || contains_char sep s'
  end.

(** [s.split(sep, 1)] unpacked into two, for an [s] that contains [sep]:
    what is before the first [sep] and what is after it. *)
Fixpoint split_once (sep : ascii) (s : string) : string * string :=
  match s with
  | EmptyString => (EmptyString, EmptyString)
  | String c s' =>
      if Ascii.eqb c sep then (EmptyString, s')
      else let (before, after) := split_once sep s' in (String c before, after)
  end.

(** [parse_model_string(model)] *)
Definition parse_model_string (model : string) : string * string :=
  if contains_char "/"%char model then split_once "/"%char model
  else ("ollama", model).

(* ================================================================== *)
(** ** cli.py *)
(* ================================================================== *)

(** [datetime.now(timezone.utc)], field by field. *)
Record datetime : Type := {
  year : Z;
  month : Z;
  day : Z;
  hour : Z;
  minute : Z;
  second : Z
}.

(** The decimal digit of the units of [n]. *)
Definition digit (n : Z) : ascii := ascii_of_N (Z.to_N (48 + n mod 10)).

(** [%m], [%d], [%H], [%M], [%S]: two digits, zero-padded. *)
Definition two_digits (n : Z) : string :=
  String (digit (n / 10)) (String (digit n) EmptyString).

(** [%Y] of a year of four digits. *)
Definition four_digits (n : Z) : string :=
  (two_digits (n / 100) ++ two_digits (n mod 100))%string.

(** [format_timestamp()]: [strftime("%Y%m%d-%H%M%S")] of the current time. *)
Definition format_timestamp (now : datetime) : string :=
  (four_digits (year now) ++ two_digits (month now) ++ two_digits (day now)
   ++ "-" ++ two_digits (hour now) ++ two_digits (minute now)
   ++ two_digits (second now))%string.

(* ================================================================== *)
(** ** Vocabulary of the specification *)
(* ================================================================== *)

(** The arithmetic mean of a list of numbers, summed from the right. *)
Definition arithmetic_mean (l : list Qc) : Qc :=
  (fold_right Qcplus 0%Qc l / Qc_of_Z (Z.of_nat (List.length l)))%Qc.

(** The mean as a JSON value, [default] standing for the mean of nothing. *)
Definition mean_json (default : json) (l : list Qc) : json :=
  match l with
  | [] => default
  | _ => JFloat (arithmetic_mean l)
  end.

(** The mean as the interpreter computes it, [none] standing for the mean
    of nothing (null in a run summary, 0 in the fleet statistics): the sum
    of the values divided by their number.  It raises what the sum or the
    division raises. *)
Definition python_mean {A : Arithmetic} (none : json) (values : list json)
    : result json :=
  match values with
  | [] => Ok none
  | _ =>
      total <- arith_sum values ;;
      mean <- arith_truediv total (NInt (Z.of_nat (List.length values))) ;;
      Ok (json_of_num mean)
  end.

(** The violation rate of the specification, in the interpreter's
    arithmetic: the blocked count divided by the evaluation count, 0
    without evaluations. *)
Definition violation_rate_of {A : Arithmetic} (blocked evaluations : Z)
    : result json :=
  if 0 <? evaluations then
    rate <- arith_truediv (NInt blocked) (NInt evaluations) ;;
    Ok (json_of_num rate)
  else Ok (JInt 0).

Definition is_bool (v : json) : bool :=
  match v with
  | JBool _ => true
  | _ => false
  end.

Definition is_number (v : json) : bool :=
  match v with
  | JInt _ | JFloat _ => true
  | _ => false
  end.

(** Field [k] of [d] is absent, null, or a value that [ok] accepts. *)
Definition null_or (ok : json -> bool) (d : dict) (k : string) : bool :=
  match dict_get d k with
  | None | Some JNull => true
  | Some v => ok v
  end.

(** An evaluation record of the data model: a JSON object whose [accuracy]
    and [blocked] are booleans and whose [latency_ms] and [toxicity] are
    numbers, each of them possibly null or absent. *)
Definition evaluation_record (r : json) : bool :=
  match r with
  | JObj d =>
      null_or is_bool d "accuracy" && null_or is_number d "latency_ms"
      && null_or is_bool d "blocked" && null_or is_number d "toxicity"
  | _ => false
  end.

(** The number in field [k] of a record, if the field holds one. *)
Definition field_number (k : string) (r : json) : option Qc :=
  match r with
  | JObj d =>
      match dict_get d k with
      | Some v => option_map to_Qc (as_num v)
      | None => None
      end
  | _ => None
  end.

(** The non-null values of field [k] over the records, in order. *)
Definition non_null_values (k : string) (records : list json) : list Qc :=
  flat_map (fun r => match field_number k r with
                     | Some q => [q]
                     | None => []
                     end) records.

(** The record's [blocked] field is [true]. *)
Definition blocked_is_true (r : json) : bool :=
  match r with
  | JObj d =>
      match dict_get d "blocked" with
      | Some (JBool true) => true
      | _ => false
      end
  | _ => false
  end.

(* ------------------------------------------------------------------ *)
(** *** Auxiliary notions of the proofs about the run summary *)

(** The numbers among JSON values, as rationals. *)
Definition nums_of (l : list json) : list Qc :=
  flat_map (fun v => match as_num v with
                     | Some n => [to_Qc n]
                     | None => []
                     end) l.

Definition numeric (v : json) : Prop := as_num v <> None.

Definition is_object (r : json) : Prop :=
  match r with
  | JObj _ => True
  | _ => False
  end.

(** The non-null values of field [k] over the records, in order, as the
    JSON values they are. *)
Definition present (k : string) (records : list json) : list json :=
  flat_map (fun r => match r with
                     | JObj d =>
                         match dict_get d k with
                         | Some v => if is_not_None v then [v] else []
                         | None => []
                         end
                     | _ => []
                     end) records.

(** The records that the [blocked] count of the code counts. *)
Definition blocked_truthy (r : json) : bool :=
  match r with
  | JObj d => truthy (dict_get_default d "blocked" (JBool false))
  | _ => false
  end.

(** Three records with latencies 100, 200 and null. *)
Definition sample_records : list json :=
  [JObj [("prompt_id", JStr "p1"); ("accuracy", JBool true);
         ("latency_ms", JInt 100); ("blocked", JBool false);
         ("toxicity", JNull)];
   JObj [("prompt_id", JStr "p2"); ("accuracy", JBool false);
         ("latency_ms", JInt 200); ("blocked", JBool true);
         ("toxicity", JFloat (Q2Qc (7 # 10)))];
   JObj [("prompt_id", JStr "p3"); ("accuracy", JNull);
         ("latency_ms", JNull); ("blocked", JBool true)]].

(* ------------------------------------------------------------------ *)
(** *** Runs and fleet statistics *)

Definition null_or_number (v : json) : bool :=
  match v with
  | JNull | JInt _ | JFloat _ => true
  | _ => false
  end.

Definition is_int (v : json) : bool :=
  match v with
  | JInt _ => true
  | _ => false
  end.

(** Field [k] of the summary [s] is there and [ok] accepts it. *)
Definition summary_has (ok : json -> bool) (k : string) (s : json) : bool :=
  match s with
  | JObj d =>
      match dict_get d k with
      | Some v => ok v
      | None => false
      end
  | _ => false
  end.

(** A summary as far as the fleet statistics read it: [accuracy_rate] and
    [avg_latency_ms] are numbers or null, [blocked_count] is an integer. *)
Definition summary_ok (s : json) : bool :=
  summary_has null_or_number "accuracy_rate" s
  && summary_has null_or_number "avg_latency_ms" s
  && summary_has is_int "blocked_count" s.

(** A run as [get_recent_runs] lists it: it has a [run_id], its
    [total_prompts] is an integer when present, and its [summary] is a
    summary when present. *)
Definition well_formed_run (r : dict) : bool :=
  dict_has r "run_id"
  && match dict_get r "total_prompts" with
     | None => true
     | Some v => is_int v
     end
  && match dict_get r "summary" with
     | None => true
     | Some s => summary_ok s
     end.

(** The run's [total_prompts], 0 when the metadata has none. *)
Definition run_total_prompts (r : dict) : Z :=
  match dict_get r "total_prompts" with
  | Some (JInt z) => z
  | _ => 0
  end.

(** The total evaluation count: the sum of [total_prompts] across runs. *)
Definition total_evaluation_count (runs : list dict) : Z :=
  fold_right Z.add 0 (map run_total_prompts runs).

(** The run's [blocked_count], 0 when the run has no summary. *)
Definition run_blocked_count (r : dict) : Z :=
  match dict_get r "summary" with
  | Some (JObj s) =>
      match dict_get s "blocked_count" with
      | Some (JInt z) => z
      | _ => 0
      end
  | _ => 0
  end.

Definition total_blocked_count (runs : list dict) : Z :=
  fold_right Z.add 0 (map run_blocked_count runs).

(** The number in field [k] of the run's summary; none when the run has no
    summary or the field is null. *)
Definition run_summary_number (k : string) (r : dict) : option Qc :=
  match dict_get r "summary" with
  | Some s => field_number k s
  | None => None
  end.

(** The values that enter the cross-run mean of field [k]. *)
Definition summary_values (k : string) (runs : list dict) : list Qc :=
  flat_map (fun r => match run_summary_number k r with
                     | Some q => [q]
                     | None => []
                     end) runs.

(** What the comprehension over [r["summary"][k]] collects. *)
Definition summary_present (k : string) (runs : list dict) : list json :=
  flat_map (fun r => match dict_get r "summary" with
                     | Some (JObj s) =>
                         match dict_get s k with
                         | Some v => if is_not_None v then [v] else []
                         | None => []
                         end
                     | _ => []
                     end) runs.

Definition summary_field_ok (ok : json -> bool) (k : string) (r : dict) : Prop :=
  match dict_get r "summary" with
  | None => True
  | Some s => summary_has ok k s = true
  end.

Definition no_zero_division {A : Type} (c : result A) : Prop :=
  c <> Raise ZeroDivisionError.

(** The run has no summary, or its summary's field [k] is null. *)
Definition lacks_summary_value (k : string) (r : dict) : Prop :=
  dict_get r "summary" = None
  \/ exists s, dict_get r "summary" = Some (JObj s) /\ dict_get s k = Some JNull.

(** Three well-formed runs: one with a full summary, one without a summary, one
    whose summary has null means. *)
Definition sample_runs : list dict :=
  [[("model", JStr "llama3"); ("total_prompts", JInt 3);
    ("summary", JObj [("total_prompts", JInt 3);
                      ("accuracy_rate", JFloat (Q2Qc (1 # 2)));
                      ("avg_latency_ms", JFloat (Qc_of_Z 150));
                      ("blocked_count", JInt 2);
                      ("avg_toxicity", JNull)]);
    ("run_id", JStr "20240103-120000")];
   [("model", JStr "llama3"); ("total_prompts", JInt 2);
    ("run_id", JStr "20240102-120000")];
   [("model", JStr "llama3"); ("total_prompts", JInt 5);
    ("summary", JObj [("total_prompts", JInt 0);
                      ("accuracy_rate", JNull);
                      ("avg_latency_ms", JNull);
                      ("blocked_count", JInt 0);
                      ("avg_toxicity", JNull)]);
    ("run_id", JStr "20240101-120000")]].

(* ------------------------------------------------------------------ *)
(** *** Run discovery *)

(** The entry is a directory with a [meta.json] whose loading succeeds:
    the iteration of [get_recent_runs] appends a run for it. *)
Definition is_listed (run_dir : dir_entry) : bool :=
  is_dir run_dir
  && match meta_json run_dir with
     | NoFile => false
     | _ => true
     end
  && match load_run run_dir with
     | Ok _ => true
     | Raise _ => false
     end.

(** The run appended for a listed entry. *)
Definition run_of (run_dir : dir_entry) : dict :=
  match load_run run_dir with
  | Ok meta => meta
  | Raise _ => []
  end.

(** Larger names first. *)
Definition name_after (a b : dir_entry) : Prop :=
  String.leb (entry_name b) (entry_name a) = true.

(** The runs of all listed entries, in the order of the entries. *)
Definition listed_runs (entries : list dir_entry) : list dict :=
  map run_of (filter is_listed entries).

(** The metadata of the entry does not interfere with what the listing
    adds: its [total_prompts] is an integer when present, and it has no
    [summary] key of its own unless a results file replaces it. *)
Definition plain_meta (run_dir : dir_entry) : bool :=
  match meta_json run_dir with
  | JsonFile (JObj meta) =>
      match dict_get meta "total_prompts" with
      | None => true
      | Some v => is_int v
      end
      && match results_jsonl run_dir with
         | Some _ => true
         | None => negb (dict_has meta "summary")
         end
  | _ => true
  end.

(** Three run directories: the oldest with results, the next without a
    results file, the newest without [meta.json]. *)
Definition sample_run_1 : dir_entry :=
  {| entry_name := "20240101-000000"; is_dir := true;
     meta_json := JsonFile (JObj [("model", JStr "llama3");
                                  ("total_prompts", JInt 3)]);
     results_jsonl := Some (map JsonLine sample_records) |}.

Definition sample_run_2 : dir_entry :=
  {| entry_name := "20240102-000000"; is_dir := true;
     meta_json := JsonFile (JObj [("model", JStr "llama3");
                                  ("total_prompts", JInt 2)]);
     results_jsonl := None |}.

Definition sample_run_3 : dir_entry :=
  {| entry_name := "20240103-000000"; is_dir := true;
     meta_json := NoFile;
     results_jsonl := None |}.

(** The three in the order a directory listing may give them. *)
Definition sample_entries : list dir_entry :=
  [sample_run_1; sample_run_3; sample_run_2].

(* ------------------------------------------------------------------ *)
(** *** Policy files *)

Definition is_float (v : json) : bool :=
  match v with
  | JFloat _ => true
  | _ => false
  end.

(** Field [k] is absent from [data], or given with a value of the JSON
    type that [is_type] accepts. *)
Definition given_as (is_type : json -> bool) (data : dict) (k : string) : bool :=
  match dict_get data k with
  | None => true
  | Some v => is_type v
  end.

(** The object of a policy file that gives declared fields only, each with
    a value of its own type: an integer, booleans, a float. *)
Definition typed_policy (data : dict) : bool :=
  no_extra_fields data
  && given_as is_int data "max_latency_ms"
  && given_as is_bool data "require_accuracy"
  && given_as is_bool data "enable_toxicity"
  && given_as is_float data "toxicity_threshold"
  && given_as is_bool data "enable_pii".

(** The policy that such an object describes: the values it gives, and
    the defaults of the schema for the fields it leaves out. *)
Definition policy_of (data : dict) : EvaluationPolicy :=
  {| max_latency_ms :=
       match dict_get data "max_latency_ms" with
       | Some (JInt z) => z
       | _ => 2000
       end;
     require_accuracy :=
       match dict_get data "require_accuracy" with
       | Some (JBool b) => b
       | _ => true
       end;
     enable_toxicity :=
       match dict_get data "enable_toxicity" with
       | Some (JBool b) => b
       | _ => true
       end;
     toxicity_threshold :=
       match dict_get data "toxicity_threshold" with
       | Some (JFloat q) => q
       | _ => Q2Qc (1 # 2)
       end;
     enable_pii :=
       match dict_get data "enable_pii" with
       | Some (JBool b) => b
       | _ => false
       end |}.

(* ------------------------------------------------------------------ *)
(** *** Recent violations *)

(** The run is among the violations: its summary counts a blocked prompt. *)
Definition has_violation (run : dict) : bool := 0 <? run_blocked_count run.

(** The entry of [recent_violations] for a run. *)
Definition violation_entry (run : dict) : json :=
  JObj [("run_id", dict_get_default run "run_id" JNull);
        ("timestamp", dict_get_default run "start_time" JNull);
        ("blocked_count", JInt (run_blocked_count run));
        ("total_prompts", dict_get_default run "total_prompts" (JInt 0))].

(** The statistics of no runs. *)
Definition zero_stats : dict :=
  [("total_runs", JInt 0);
   ("total_evaluations", JInt 0);
   ("avg_accuracy", JInt 0);
   ("avg_latency", JInt 0);
   ("violation_rate", JInt 0);
   ("recent_violations", JArr [])].

(** The summary of no records. *)
Definition empty_summary : dict :=
  [("total_prompts", JInt 0);
   ("accuracy_rate", JNull);
   ("avg_latency_ms", JNull);
   ("blocked_count", JInt 0);
   ("avg_toxicity", JNull)].

(* ------------------------------------------------------------------ *)
(** *** Token counts *)

(** The estimate for a text: its length over four, rounded, one at least. *)
Definition estimated_tokens (text : string) : Z :=
  Z.max 1 (py_round (Qc_of_Z (Z.of_nat (String.length text)) / Qc_of_Z 4)%Qc).

(** The token count [generate] returns under key [k] of the backend's
    answer: what the backend reports there, or the estimate for [text]
    when it reports nothing. *)
Definition token_count (data : dict) (k : string) (text : string) : json :=
  match dict_get data k with
  | None | Some JNull => JInt (estimated_tokens text)
  | Some reported => reported
  end.

(** A model name as [list_models] returns it: not empty and without a
    tag. *)
Definition model_name_ok (name : string) : Prop :=
  name <> EmptyString /\ contains_char ":"%char name = false.

(** A string made of slashes only. *)
Fixpoint only_slashes (s : string) : bool :=
  match s with
  | EmptyString => true
  | String c s' => Ascii.eqb c "/"%char && only_slashes s'
  end.

(** [s.endswith("/")] *)
Fixpoint ends_with_slash (s : string) : bool :=
  match s with
  | EmptyString => false
  | String c EmptyString => Ascii.eqb c "/"%char
  | String _ s' => ends_with_slash s'
  end.

(* ------------------------------------------------------------------ *)
(** *** Time stamps *)

(** A date and time of the calendar, in a year of four digits. *)
Definition valid_datetime (t : datetime) : Prop :=
  1000 <= year t <= 9999 /\ 1 <= month t <= 12 /\ 1 <= day t <= 31
  /\ 0 <= hour t <= 23 /\ 0 <= minute t <= 59 /\ 0 <= second t <= 59.

(** Lexicographic comparison of two lists of numbers. *)
Fixpoint lex_compare (a b : list Z) : comparison :=
  match a, b with
  | [], [] => Eq
  | [], _ :: _ => Lt
  | _ :: _, [] => Gt
  | x :: a', y :: b' =>
      match Z.compare x y with
      | Eq => lex_compare a' b'
      | c => c
      end
  end.

(** Chronological comparison: year first, second last. *)
Definition datetime_compare (a b : datetime) : comparison :=
  lex_compare [year a; month a; day a; hour a; minute a; second a]
              [year b; month b; day b; hour b; minute b; second b].

Definition comparison_eqb (c c' : comparison) : bool :=
  match c, c' with
  | Eq, Eq | Lt, Lt | Gt, Gt => true
  | _, _ => false
  end.

(* ------------------------------------------------------------------ *)
(** *** Proof automation *)

(** Equality of computed JSON values: rationals are compared by value, the
    rest by computation. *)
Ltac json_equal :=
  vm_compute;
  repeat match goal with
         | |- ?x = ?x => reflexivity
         | |- JFloat _ = JFloat _ => f_equal; apply Qc_is_canon; reflexivity
         | |- _ = _ => progress f_equal
         end.

(* ================================================================== *)
(** ** Arithmetic of the embedding *)
(* ================================================================== *)

Lemma Qc_of_Z_add (x y : Z) : Qc_of_Z (x + y) = (Qc_of_Z x + Qc_of_Z y)%Qc.
Proof.
  unfold Qc_of_Z, Qcplus. apply Q2Qc_eq_iff. cbn [this Q2Qc].
  rewrite !Qred_correct, inject_Z_plus. reflexivity.
Qed.

Lemma to_Qc_num_add (a b : num) : to_Qc (num_add a b) = (to_Qc a + to_Qc b)%Qc.
Proof.
  destruct a as [x|p], b as [y|q]; simpl; try reflexivity.
  apply Qc_of_Z_add.
Qed.

Lemma Qc_of_Z_0 : Qc_of_Z 0 = 0%Qc.
Proof. apply Qc_is_canon. reflexivity. Qed.

Lemma nums_of_length (l : list json) :
  Forall numeric l -> List.length (nums_of l) = List.length l.
Proof.
  induction 1 as [|v l Hv _ IH]; simpl; [reflexivity|].
  unfold numeric in Hv. destruct (as_num v); [|congruence].
  simpl. now rewrite IH.
Qed.

(** [sum] adds from the left, starting from the accumulator; the total is
    the accumulator plus the right-to-left sum. *)
Lemma sum_from_numeric (l : list json) :
  Forall numeric l ->
  forall acc, exists n,
    sum_from acc l = Ok n /\
    to_Qc n = (to_Qc acc + fold_right Qcplus 0%Qc (nums_of l))%Qc.
Proof.
  induction 1 as [|v l Hv _ IH]; intros acc; simpl.
  - exists acc. split; [reflexivity|]. now rewrite Qcplus_0_r.
  - unfold numeric in Hv. destruct (as_num v) as [m|]; [|congruence].
    destruct (IH (num_add acc m)) as (n & Hn & Hq).
    exists n. split; [exact Hn|].
    rewrite Hq, to_Qc_num_add. simpl. now rewrite Qcplus_assoc.
Qed.

Lemma py_sum_numeric (l : list json) :
  Forall numeric l ->
  exists n, py_sum l = Ok n /\ to_Qc n = fold_right Qcplus 0%Qc (nums_of l).
Proof.
  intros H. destruct (sum_from_numeric l H (NInt 0)) as (n & Hn & Hq).
  exists n. split; [exact Hn|].
  rewrite Hq. simpl. now rewrite Qc_of_Z_0, Qcplus_0_l.
Qed.

(** A sum of integers is an integer. *)
Lemma sum_from_ints (l : list Z) (acc : Z) :
  sum_from (NInt acc) (map JInt l) = Ok (NInt (acc + fold_right Z.add 0 l)).
Proof.
  revert acc. induction l as [|z l IH]; intros acc; simpl.
  - now rewrite Z.add_0_r.
  - rewrite IH. now rewrite Z.add_assoc.
Qed.

Lemma len_nonzero {A : Type} (x : A) (l : list A) : num_is_zero (len (x :: l)) = false.
Proof. reflexivity. Qed.

(** The guarded mean of the code is the mean of the specification. *)
Lemma mean_or_numeric (default : json) (l : list json) :
  Forall numeric l ->
  mean_or default l = Ok (mean_json default (nums_of l)).
Proof.
  intros H. destruct l as [|v l]; [reflexivity|].
  unfold mean_or.
  destruct (py_sum_numeric _ H) as (n & Hn & Hq). rewrite Hn. cbn [bind].
  unfold truediv. rewrite len_nonzero. cbn [bind json_of_num].
  pose proof (nums_of_length _ H) as Hlen.
  unfold mean_json, arithmetic_mean.
  destruct (nums_of (v :: l)) as [|q qs] eqn:E; [discriminate Hlen|].
  rewrite Hq, Hlen. reflexivity.
Qed.

(* ================================================================== *)
(** ** The run summary *)
(* ================================================================== *)

(** The default of [r.get(k, default)] never reaches the list: a record
    without the key fails the [is not None] test first. *)
Lemma field_comprehension (k : string) (default : json) (records : list json) :
  Forall is_object records ->
  list_comp (fun r => v <- py_get r k JNull ;; Ok (is_not_None v))
            (fun r => py_get r k default) records
  = Ok (present k records).
Proof.
  induction 1 as [|r records Hr _ IH]; [reflexivity|].
  destruct r as [| | | | | |d]; try contradiction.
  cbn [list_comp present flat_map py_get bind]. fold (present k records).
  unfold dict_get_default.
  destruct (dict_get d k) as [v|]; cbn [is_not_None bind].
  - destruct (is_not_None v); cbn [bind]; rewrite IH; reflexivity.
  - rewrite IH. reflexivity.
Qed.

Lemma nums_of_app (a b : list json) : nums_of (a ++ b) = (nums_of a ++ nums_of b)%list.
Proof. unfold nums_of. apply flat_map_app. Qed.

Lemma non_null_values_present (k : string) (records : list json) :
  non_null_values k records = nums_of (present k records).
Proof.
  induction records as [|r records IH]; [reflexivity|].
  cbn [non_null_values present flat_map].
  fold (non_null_values k records). fold (present k records).
  rewrite nums_of_app, IH. f_equal.
  destruct r as [| | | | | |d]; try reflexivity.
  cbn [field_number]. destruct (dict_get d k) as [v|]; [|reflexivity].
  destruct v; cbn; try reflexivity.
Qed.

Lemma present_numeric (ok : json -> bool) (k : string) (records : list json) :
  (forall v, ok v = true -> numeric v) ->
  Forall (fun r => match r with
                   | JObj d => null_or ok d k = true
                   | _ => False
                   end) records ->
  Forall numeric (present k records).
Proof.
  intros Hok. induction 1 as [|r records Hr _ IH]; [constructor|].
  cbn [present flat_map]. fold (present k records).
  apply Forall_app. split; [|exact IH].
  destruct r as [| | | | | |d]; try contradiction.
  unfold null_or in Hr. destruct (dict_get d k) as [v|]; [|constructor].
  destruct v; cbn [is_not_None]; try constructor; try constructor;
    apply Hok; exact Hr.
Qed.

Lemma is_bool_numeric (v : json) : is_bool v = true -> numeric v.
Proof. destruct v; simpl; intros H; try discriminate; unfold numeric; simpl; discriminate. Qed.

Lemma is_number_numeric (v : json) : is_number v = true -> numeric v.
Proof. destruct v; simpl; intros H; try discriminate; unfold numeric; simpl; discriminate. Qed.

Lemma evaluation_record_object (records : list json) :
  Forall (fun r => evaluation_record r = true) records -> Forall is_object records.
Proof.
  apply Forall_impl. intros r H. destruct r; simpl in *; try discriminate; exact I.
Qed.

Lemma evaluation_record_field (records : list json) :
  Forall (fun r => evaluation_record r = true) records ->
  Forall (fun r => match r with
                   | JObj d => null_or is_bool d "accuracy" = true
                   | _ => False
                   end) records
  /\ Forall (fun r => match r with
                      | JObj d => null_or is_number d "latency_ms" = true
                      | _ => False
                      end) records
  /\ Forall (fun r => match r with
                      | JObj d => null_or is_bool d "blocked" = true
                      | _ => False
                      end) records
  /\ Forall (fun r => match r with
                      | JObj d => null_or is_number d "toxicity" = true
                      | _ => False
                      end) records.
Proof.
  intros H. repeat split; revert H; apply Forall_impl; intros r H;
    destruct r; simpl in H; try discriminate;
    repeat (apply andb_prop in H; destruct H as [H ?]); assumption.
Qed.

Lemma blocked_comprehension (records : list json) :
  Forall is_object records ->
  list_comp (fun r => v <- py_get r "blocked" (JBool false) ;; Ok (truthy v))
            (fun _ => Ok (JInt 1)) records
  = Ok (map JInt (map (fun _ => 1) (filter blocked_truthy records))).
Proof.
  induction 1 as [|r records Hr _ IH]; [reflexivity|].
  destruct r as [| | | | | |d]; try contradiction.
  cbn [list_comp py_get bind filter blocked_truthy].
  destruct (truthy _); cbn [bind map]; rewrite IH; reflexivity.
Qed.

Lemma sum_of_ones {A : Type} (l : list A) :
  fold_right Z.add 0 (map (fun _ => 1) l) = Z.of_nat (List.length l).
Proof.
  induction l as [|x l IH]; [reflexivity|].
  cbn [map fold_right List.length]. rewrite IH. lia.
Qed.

Lemma blocked_truthy_is_true (records : list json) :
  Forall (fun r => evaluation_record r = true) records ->
  filter blocked_truthy records = filter blocked_is_true records.
Proof.
  intros H. apply filter_ext_in. intros r Hin.
  rewrite Forall_forall in H. specialize (H r Hin).
  destruct r as [| | | | | |d]; try reflexivity.
  simpl in H. repeat (apply andb_prop in H; destruct H as [H ?]).
  unfold blocked_truthy, blocked_is_true, dict_get_default.
  unfold null_or in *. destruct (dict_get d "blocked") as [v|]; [|reflexivity].
  destruct v as [|b| | | | |]; try discriminate; try reflexivity.
  destruct b; reflexivity.
Qed.

(** On evaluation records the summary never raises, and each of its five
    fields has a closed form. *)
Lemma calculate_run_summary_records (results : list json) :
  Forall (fun r => evaluation_record r = true) results ->
  calculate_run_summary results =
  Ok [("total_prompts", JInt (Z.of_nat (List.length results)));
      ("accuracy_rate", mean_json JNull (non_null_values "accuracy" results));
      ("avg_latency_ms", mean_json JNull (non_null_values "latency_ms" results));
      ("blocked_count", JInt (Z.of_nat (List.length (filter blocked_is_true results))));
      ("avg_toxicity", mean_json JNull (non_null_values "toxicity" results))].
Proof.
  intros H. destruct results as [|r rs]; [reflexivity|].
  pose proof (evaluation_record_object _ H) as Hobj.
  destruct (evaluation_record_field _ H) as (Ha & Hl & Hb & Ht).
  rewrite <- (blocked_truthy_is_true _ H).
  rewrite !non_null_values_present.
  unfold calculate_run_summary. cbv beta iota zeta.
  rewrite !field_comprehension by exact Hobj.
  rewrite blocked_comprehension by exact Hobj.
  cbn [bind].
  rewrite (mean_or_numeric JNull (present "accuracy" _))
    by (eapply present_numeric; [exact is_bool_numeric | exact Ha]).
  cbn [bind].
  rewrite (mean_or_numeric JNull (present "latency_ms" _))
    by (eapply present_numeric; [exact is_number_numeric | exact Hl]).
  cbn [bind].
  unfold py_sum. rewrite sum_from_ints, sum_of_ones. cbn [bind].
  rewrite (mean_or_numeric JNull (present "toxicity" _))
    by (eapply present_numeric; [exact is_number_numeric | exact Ht]).
  cbn [bind]. reflexivity.
Qed.

(** On evaluation records the summary in the interpreter's arithmetic is
    made of the means of the non-null values and of the two counts. *)
Lemma calculate_run_summary_means {A : Arithmetic} (results : list json) :
  Forall (fun r => evaluation_record r = true) results ->
  InArithmetic.calculate_run_summary results =
  (accuracy_rate <- python_mean JNull (present "accuracy" results) ;;
   avg_latency_ms <- python_mean JNull (present "latency_ms" results) ;;
   avg_toxicity <- python_mean JNull (present "toxicity" results) ;;
   Ok [("total_prompts", JInt (Z.of_nat (List.length results)));
       ("accuracy_rate", accuracy_rate);
       ("avg_latency_ms", avg_latency_ms);
       ("blocked_count",
        JInt (Z.of_nat (List.length (filter blocked_is_true results))));
       ("avg_toxicity", avg_toxicity)]).
Proof.
  intros H. destruct results as [|r rs]; [reflexivity|].
  pose proof (evaluation_record_object _ H) as Hobj.
  rewrite <- (blocked_truthy_is_true _ H).
  unfold InArithmetic.calculate_run_summary. cbv beta iota zeta.
  rewrite !field_comprehension by exact Hobj.
  rewrite blocked_comprehension by exact Hobj.
  cbn [bind]. rewrite arith_sum_ints, sum_of_ones.
  change (InArithmetic.mean_or JNull) with (python_mean JNull).
  destruct (python_mean JNull (present "accuracy" (r :: rs))); [|reflexivity].
  destruct (python_mean JNull (present "latency_ms" (r :: rs))); [|reflexivity].
  reflexivity.
Qed.

(** The interpreter's mean of the integers 100 and 200 is the float 150. *)
Lemma python_mean_100_200 {A : Arithmetic} (none : json) :
  python_mean none [JInt 100; JInt 200] = Ok (JFloat (Qc_of_Z 150)).
Proof.
  unfold python_mean.
  change [JInt 100; JInt 200] with (map JInt [100; 200]) at 1.
  rewrite arith_sum_ints. cbn [bind fold_right List.length Z.of_nat].
  rewrite arith_truediv_exact; [reflexivity|lia|reflexivity|].
  vm_compute. discriminate.
Qed.

(** C1: on every sequence of evaluation records the summary's
    [accuracy_rate] is the mean of the non-null [accuracy] values and its
    [avg_latency_ms] the mean of the non-null [latency_ms] values, null
    when there is none; a null field is left out of the mean, not counted
    as 0.  The mean is the one the interpreter computes, the sum of the
    values divided by their number: the summary is returned when the
    means are, and raises what they raise.  In particular three records
    with latencies 100, 200 and null have [avg_latency_ms] 150.0. *)
Theorem summary_means_exclude_null {A : Arithmetic} :
  (forall results : list json,
     Forall (fun r => evaluation_record r = true) results ->
     InArithmetic.calculate_run_summary results =
     (accuracy_rate <- python_mean JNull (present "accuracy" results) ;;
      avg_latency_ms <- python_mean JNull (present "latency_ms" results) ;;
      avg_toxicity <- python_mean JNull (present "toxicity" results) ;;
      Ok [("total_prompts", JInt (Z.of_nat (List.length results)));
          ("accuracy_rate", accuracy_rate);
          ("avg_latency_ms", avg_latency_ms);
          ("blocked_count",
           JInt (Z.of_nat (List.length (filter blocked_is_true results))));
          ("avg_toxicity", avg_toxicity)]))
  /\
  (forall (results : list json) (s : dict),
     Forall (fun r => evaluation_record r = true) results ->
     InArithmetic.calculate_run_summary results = Ok s ->
     (present "accuracy" results = [] ->
      dict_get s "accuracy_rate" = Some JNull)
     /\ (present "latency_ms" results = [] ->
         dict_get s "avg_latency_ms" = Some JNull))
  /\
  (forall (d1 d2 d3 : dict) (accuracy_rate avg_toxicity : json),
     let results := [JObj d1; JObj d2; JObj d3] in
     Forall (fun r => evaluation_record r = true) results ->
     dict_get d1 "latency_ms" = Some (JInt 100) ->
     dict_get d2 "latency_ms" = Some (JInt 200) ->
     dict_get d3 "latency_ms" = Some JNull ->
     python_mean JNull (present "accuracy" results) = Ok accuracy_rate ->
     python_mean JNull (present "toxicity" results) = Ok avg_toxicity ->
     InArithmetic.calculate_run_summary results =
     Ok [("total_prompts", JInt 3);
         ("accuracy_rate", accuracy_rate);
         ("avg_latency_ms", JFloat (Qc_of_Z 150));
         ("blocked_count",
          JInt (Z.of_nat (List.length (filter blocked_is_true results))));
         ("avg_toxicity", avg_toxicity)]).
Proof.
  split; [exact calculate_run_summary_means|]. split.
  - intros results s H Hs. rewrite (calculate_run_summary_means _ H) in Hs.
    destruct (python_mean JNull (present "accuracy" results)) as [a|] eqn:Ea;
      [|discriminate Hs].
    destruct (python_mean JNull (present "latency_ms" results)) as [l|] eqn:El;
      [|discriminate Hs].
    destruct (python_mean JNull (present "toxicity" results)) as [t|];
      [|discriminate Hs].
    cbn [bind] in Hs. injection Hs as <-.
    split; intros E; [rewrite E in Ea; injection Ea as <-
                     |rewrite E in El; injection El as <-]; reflexivity.
  - intros d1 d2 d3 accuracy_rate avg_toxicity results H H1 H2 H3 Ha Ht.
    rewrite (calculate_run_summary_means _ H), Ha, Ht. cbn [bind].
    assert (E : present "latency_ms" results = [JInt 100; JInt 200]).
    { unfold results, present. cbn [flat_map]. rewrite H1, H2, H3.
      reflexivity. }
    rewrite E, python_mean_100_200. reflexivity.
Qed.

Lemma summary_means_exclude_null_witness :
  InArithmetic.calculate_run_summary (A := exact_arithmetic) sample_records =
  Ok [("total_prompts", JInt 3);
      ("accuracy_rate", JFloat (Q2Qc (1 # 2)));
      ("avg_latency_ms", JFloat (Qc_of_Z 150));
      ("blocked_count", JInt 2);
      ("avg_toxicity", JFloat (Q2Qc (7 # 10)))].
Proof.
  assert (H : Forall (fun r => evaluation_record r = true) sample_records)
    by (repeat constructor).
  assert (Ha : python_mean (A := exact_arithmetic) JNull
                 (present "accuracy" sample_records)
               = Ok (JFloat (Q2Qc (1 # 2)))) by json_equal.
  assert (Ht : python_mean (A := exact_arithmetic) JNull
                 (present "toxicity" sample_records)
               = Ok (JFloat (Q2Qc (7 # 10)))) by json_equal.
  unfold sample_records in *.
  lazymatch goal with
  | |- _ [JObj ?d1; JObj ?d2; JObj ?d3] = _ =>
      exact (proj2 (proj2 (summary_means_exclude_null (A := exact_arithmetic)))
               d1 d2 d3 _ _ H eq_refl eq_refl eq_refl Ha Ht)
  end.
Defined.



(** C3: the summary of no records is the all-null, all-zero summary; it is
    a value, not an exception. *)
Theorem summary_of_no_records :
  calculate_run_summary [] =
  Ok [("total_prompts", JInt 0);
      ("accuracy_rate", JNull);
      ("avg_latency_ms", JNull);
      ("blocked_count", JInt 0);
      ("avg_toxicity", JNull)].
Proof. reflexivity. Qed.

(* ================================================================== *)
(** ** Fleet statistics *)
(* ================================================================== *)

Lemma well_formed_run_fields (runs : list dict) :
  Forall (fun r => well_formed_run r = true) runs ->
  Forall (summary_field_ok null_or_number "accuracy_rate") runs
  /\ Forall (summary_field_ok null_or_number "avg_latency_ms") runs
  /\ Forall (summary_field_ok is_int "blocked_count") runs.
Proof.
  intros H. repeat split; revert H; apply Forall_impl; intros r H;
    unfold well_formed_run in H; unfold summary_field_ok;
    apply andb_prop in H; destruct H as [_ H];
    (destruct (dict_get r "summary") as [s|]; [|exact I]);
    unfold summary_ok in H;
    repeat (apply andb_prop in H; destruct H as [H ?]); assumption.
Qed.

Lemma summary_comprehension (ok : json -> bool) (k : string) (runs : list dict) :
  Forall (summary_field_ok ok k) runs ->
  list_comp (has_summary_value k) (fun r => summary_item r k) runs
  = Ok (summary_present k runs).
Proof.
  induction 1 as [|r runs Hr _ IH]; [reflexivity|].
  cbn [list_comp summary_present flat_map]. fold (summary_present k runs).
  unfold has_summary_value, summary_item, dict_has, dict_item, summary_field_ok in *.
  destruct (dict_get r "summary") as [s|]; cbn [bind].
  - destruct s as [| | | | | |d]; try discriminate Hr.
    cbn [summary_has] in Hr. cbn [py_item]. unfold dict_item.
    destruct (dict_get d k) as [v|]; [|discriminate Hr].
    cbn [bind]. destruct (is_not_None v); cbn [bind]; rewrite IH; reflexivity.
  - rewrite IH. reflexivity.
Qed.

Lemma summary_values_present (k : string) (runs : list dict) :
  summary_values k runs = nums_of (summary_present k runs).
Proof.
  induction runs as [|r runs IH]; [reflexivity|].
  cbn [summary_values summary_present flat_map].
  fold (summary_values k runs). fold (summary_present k runs).
  rewrite nums_of_app, IH. f_equal.
  unfold run_summary_number.
  destruct (dict_get r "summary") as [s|]; [|reflexivity].
  destruct s as [| | | | | |d]; try reflexivity.
  cbn [field_number]. destruct (dict_get d k) as [v|]; [|reflexivity].
  destruct v; reflexivity.
Qed.

Lemma summary_present_numeric (ok : json -> bool) (k : string) (runs : list dict) :
  (forall v, ok v = true -> is_not_None v = true -> numeric v) ->
  Forall (summary_field_ok ok k) runs ->
  Forall numeric (summary_present k runs).
Proof.
  intros Hok. induction 1 as [|r runs Hr _ IH]; [constructor|].
  cbn [summary_present flat_map]. fold (summary_present k runs).
  apply Forall_app. split; [|exact IH].
  unfold summary_field_ok in Hr.
  destruct (dict_get r "summary") as [s|]; [|constructor].
  destruct s as [| | | | | |d]; try constructor.
  cbn [summary_has] in Hr. destruct (dict_get d k) as [v|]; [|constructor].
  destruct (is_not_None v) eqn:E; [|constructor].
  constructor; [|constructor]. apply Hok; assumption.
Qed.

Lemma null_or_number_numeric (v : json) :
  null_or_number v = true -> is_not_None v = true -> numeric v.
Proof.
  destruct v; simpl; intros H H'; try discriminate; unfold numeric; simpl; discriminate.
Qed.

(** The blocked counts that are summed: those of the runs with a summary,
    which add up to the sum over all runs with 0 for a missing summary. *)
Lemma blocked_counts_comprehension (runs : list dict) :
  Forall (summary_field_ok is_int "blocked_count") runs ->
  exists counts : list Z,
    list_comp (fun r => Ok (dict_has r "summary"))
              (fun r => summary_item r "blocked_count") runs
    = Ok (map JInt counts)
    /\ fold_right Z.add 0 counts = total_blocked_count runs.
Proof.
  induction 1 as [|r runs Hr _ IH].
  - exists []. split; reflexivity.
  - destruct IH as (counts & Hc & Hs).
    cbn [list_comp bind]. unfold total_blocked_count. cbn [map fold_right].
    fold (total_blocked_count runs).
    unfold summary_item, dict_has, dict_item, run_blocked_count, summary_field_ok in *.
    destruct (dict_get r "summary") as [s|]; cbn [bind].
    + destruct s as [| | | | | |d]; try discriminate Hr.
      cbn [summary_has] in Hr. cbn [py_item]. unfold dict_item.
      destruct (dict_get d "blocked_count") as [v|]; [|discriminate Hr].
      destruct v as [| |z| | | |]; try discriminate Hr.
      cbn [bind]. rewrite Hc. cbn [bind].
      exists (z :: counts). split; [reflexivity|].
      cbn [fold_right]. now rewrite Hs.
    + rewrite Hc. exists counts. split; [reflexivity|]. now rewrite Hs.
Qed.

Lemma total_evaluations_sum (runs : list dict) :
  Forall (fun r => well_formed_run r = true) runs ->
  py_sum (map (fun r => dict_get_default r "total_prompts" (JInt 0)) runs)
  = Ok (NInt (total_evaluation_count runs)).
Proof.
  intros H.
  assert (E : map (fun r => dict_get_default r "total_prompts" (JInt 0)) runs
              = map JInt (map run_total_prompts runs)).
  { rewrite map_map. apply map_ext_in. intros r Hin.
    rewrite Forall_forall in H. specialize (H r Hin).
    unfold well_formed_run in H. apply andb_prop in H. destruct H as [H _].
    apply andb_prop in H. destruct H as [_ H].
    unfold dict_get_default, run_total_prompts.
    destruct (dict_get r "total_prompts") as [v|]; [|reflexivity].
    destruct v; try discriminate H; reflexivity. }
  rewrite E. unfold py_sum. rewrite sum_from_ints. reflexivity.
Qed.

Lemma recent_violations_well_formed (runs : list dict) :
  Forall (fun r => well_formed_run r = true) runs ->
  exists violations,
    list_comp
      (fun run =>
         if dict_has run "summary" then
           b <- summary_item run "blocked_count" ;;
           py_gt0 b
         else Ok false)
      (fun run =>
         run_id <- dict_item run "run_id" ;;
         b <- summary_item run "blocked_count" ;;
         Ok (JObj [("run_id", run_id);
                   ("timestamp", dict_get_default run "start_time" JNull);
                   ("blocked_count", b);
                   ("total_prompts",
                    dict_get_default run "total_prompts" (JInt 0))]))
      runs
    = Ok violations.
Proof.
  induction 1 as [|r runs Hr _ IH].
  - exists []. reflexivity.
  - destruct IH as (vs & Hv). cbn [list_comp]. rewrite Hv.
    unfold well_formed_run in Hr.
    apply andb_prop in Hr. destruct Hr as [Hr Hs].
    apply andb_prop in Hr. destruct Hr as [Hid _].
    unfold summary_item, dict_has, dict_item in *.
    destruct (dict_get r "run_id") as [rid|]; [|discriminate Hid].
    destruct (dict_get r "summary") as [s|]; cbn [bind].
    + unfold summary_ok in Hs. apply andb_prop in Hs. destruct Hs as [_ Hb].
      destruct s as [| | | | | |d]; try discriminate Hb.
      cbn [summary_has] in Hb. cbn [py_item]. unfold dict_item.
      destruct (dict_get d "blocked_count") as [v|]; [|discriminate Hb].
      destruct v as [| |z| | | |]; try discriminate Hb.
      cbn [bind py_gt0 as_num]. destruct (num_pos (NInt z)); cbn [bind]; eauto.
    + eauto.
Qed.

Lemma Forall_firstn_of {A : Type} (P : A -> Prop) (n : nat) (l : list A) :
  Forall P l -> Forall P (firstn n l).
Proof.
  intros H. rewrite <- (firstn_skipn n l) in H.
  apply Forall_app in H. exact (proj1 H).
Qed.

(** On well-formed runs the fleet statistics never raise, and each field but the
    list of violations has a closed form. *)
Lemma dashboard_stats_well_formed (runs : list dict) :
  Forall (fun r => well_formed_run r = true) runs ->
  exists violations,
    dashboard_stats runs =
    Ok [("total_runs", JInt (Z.of_nat (List.length runs)));
        ("total_evaluations", JInt (total_evaluation_count runs));
        ("avg_accuracy", mean_json (JInt 0) (summary_values "accuracy_rate" runs));
        ("avg_latency", mean_json (JInt 0) (summary_values "avg_latency_ms" runs));
        ("violation_rate",
         if 0 <? total_evaluation_count runs
         then JFloat (Qc_of_Z (total_blocked_count runs)
                      / Qc_of_Z (total_evaluation_count runs))%Qc
         else JInt 0);
        ("recent_violations", JArr violations)].
Proof.
  intros H. destruct runs as [|r rs].
  { exists []. reflexivity. }
  destruct (well_formed_run_fields _ H) as (Ha & Hl & Hb).
  destruct (blocked_counts_comprehension _ Hb) as (counts & Hc & Hs).
  assert (H5 : Forall (fun r => well_formed_run r = true) (firstn 5 (r :: rs))).
  { apply Forall_firstn_of. exact H. }
  destruct (recent_violations_well_formed _ H5) as (violations & Hv).
  exists violations.
  rewrite !summary_values_present.
  unfold dashboard_stats. cbv beta iota zeta.
  rewrite (total_evaluations_sum _ H). cbn [bind].
  rewrite (summary_comprehension _ _ _ Ha). cbn [bind].
  rewrite (summary_comprehension _ _ _ Hl). cbn [bind].
  rewrite Hc. cbn [bind].
  rewrite Hv. cbn [bind].
  rewrite (mean_or_numeric (JInt 0) (summary_present "accuracy_rate" _))
    by (eapply summary_present_numeric; [exact null_or_number_numeric | exact Ha]).
  cbn [bind].
  rewrite (mean_or_numeric (JInt 0) (summary_present "avg_latency_ms" _))
    by (eapply summary_present_numeric; [exact null_or_number_numeric | exact Hl]).
  cbn [bind num_pos].
  destruct (0 <? total_evaluation_count (r :: rs)) eqn:E.
  - unfold py_sum. rewrite sum_from_ints, Hs. cbn [bind].
    unfold truediv. cbn [num_is_zero].
    assert (E0 : (total_evaluation_count (r :: rs) =? 0) = false)
      by (apply Z.eqb_neq; apply Z.ltb_lt in E; lia).
    rewrite E0. cbn [bind json_of_num to_Qc]. reflexivity.
  - reflexivity.
Qed.

(* ------------------------------------------------------------------ *)
(** *** No division by zero *)

Lemma bind_no_zero_division {A B : Type} (c : result A) (k : A -> result B) :
  no_zero_division c -> (forall a, no_zero_division (k a)) ->
  no_zero_division (bind c k).
Proof.
  unfold no_zero_division. intros Hc Hk. destruct c as [a|e]; simpl.
  - apply Hk.
  - intros E. apply Hc. injection E as ->. reflexivity.
Qed.

Lemma list_comp_no_zero_division {A B : Type} (cond : A -> result bool)
    (elem : A -> result B) (l : list A) :
  (forall x, no_zero_division (cond x)) ->
  (forall x, no_zero_division (elem x)) ->
  no_zero_division (list_comp cond elem l).
Proof.
  intros Hc He. induction l as [|x l IH]; [discriminate|].
  cbn [list_comp]. apply bind_no_zero_division; [apply Hc|].
  intros [|]; [|exact IH].
  apply bind_no_zero_division; [apply He|]. intros y.
  apply bind_no_zero_division; [exact IH|]. discriminate.
Qed.

Lemma sum_from_no_zero_division (l : list json) (acc : num) :
  no_zero_division (sum_from acc l).
Proof.
  revert acc. induction l as [|v l IH]; intros acc; [discriminate|].
  cbn [sum_from]. destruct (as_num v); [apply IH | discriminate].
Qed.

Lemma mean_or_no_zero_division (default : json) (l : list json) :
  no_zero_division (mean_or default l).
Proof.
  destruct l as [|v l]; [discriminate|].
  unfold mean_or. apply bind_no_zero_division; [apply sum_from_no_zero_division|].
  intros s. unfold truediv. rewrite len_nonzero. discriminate.
Qed.

Lemma summary_item_no_zero_division (r : dict) (k : string) :
  no_zero_division (summary_item r k).
Proof.
  unfold summary_item, dict_item.
  destruct (dict_get r "summary") as [s|]; [|discriminate].
  cbn [bind]. destruct s; try discriminate.
  cbn [py_item]. unfold dict_item. destruct (dict_get kv k); discriminate.
Qed.

Lemma has_summary_value_no_zero_division (k : string) (r : dict) :
  no_zero_division (has_summary_value k r).
Proof.
  unfold has_summary_value. destruct (dict_has r "summary"); [|discriminate].
  apply bind_no_zero_division; [apply summary_item_no_zero_division|]. discriminate.
Qed.

Lemma num_pos_not_zero (n : num) : num_pos n = true -> num_is_zero n = false.
Proof.
  destruct n as [z|q]; cbn [num_pos num_is_zero].
  - intros H. apply Z.ltb_lt in H. apply Z.eqb_neq. lia.
  - unfold Qc_is_zero, Qccompare. intros H.
    destruct (Qeq_bool q 0) eqn:E; [|reflexivity].
    apply Qeq_bool_iff in E. symmetry in E. apply Qeq_alt in E.
    change (this 0%Qc) with 0%Q in H. rewrite E in H. discriminate H.
Qed.

Lemma dashboard_stats_no_zero_division (runs : list dict) :
  no_zero_division (dashboard_stats runs).
Proof.
  destruct runs as [|r rs]; [discriminate|].
  unfold dashboard_stats. cbv beta iota zeta.
  apply bind_no_zero_division; [apply sum_from_no_zero_division|]. intros total.
  apply bind_no_zero_division.
  { apply list_comp_no_zero_division;
      [apply has_summary_value_no_zero_division
      | intros x; apply summary_item_no_zero_division]. }
  intros accuracies.
  apply bind_no_zero_division.
  { apply list_comp_no_zero_division;
      [apply has_summary_value_no_zero_division
      | intros x; apply summary_item_no_zero_division]. }
  intros latencies.
  apply bind_no_zero_division.
  { apply list_comp_no_zero_division;
      [discriminate | intros x; apply summary_item_no_zero_division]. }
  intros blocked_counts.
  apply bind_no_zero_division.
  { apply list_comp_no_zero_division.
    - intros x. destruct (dict_has x "summary"); [|discriminate].
      apply bind_no_zero_division; [apply summary_item_no_zero_division|].
      intros b. unfold py_gt0. destruct (as_num b); discriminate.
    - intros x. unfold dict_item. destruct (dict_get x "run_id"); [|discriminate].
      cbn [bind]. apply bind_no_zero_division;
        [apply summary_item_no_zero_division | discriminate]. }
  intros violations.
  apply bind_no_zero_division; [apply mean_or_no_zero_division|]. intros avg_accuracy.
  apply bind_no_zero_division; [apply mean_or_no_zero_division|]. intros avg_latency.
  apply bind_no_zero_division; [|discriminate].
  destruct (num_pos total) eqn:E; [|discriminate].
  apply bind_no_zero_division; [apply sum_from_no_zero_division|]. intros s.
  unfold truediv. rewrite (num_pos_not_zero _ E). discriminate.
Qed.

Lemma total_blocked_count_without (before after : list dict) (r : dict) :
  dict_get r "summary" = None ->
  total_blocked_count (before ++ r :: after) = total_blocked_count (before ++ after).
Proof.
  intros H. unfold total_blocked_count. rewrite !map_app, !fold_right_app.
  cbn [map fold_right]. unfold run_blocked_count at 1. rewrite H. reflexivity.
Qed.

Lemma total_evaluation_count_nonneg (runs : list dict) :
  Forall (fun r => 0 <= run_total_prompts r) runs -> 0 <= total_evaluation_count runs.
Proof.
  unfold total_evaluation_count.
  induction 1 as [|r runs Hr _ IH]; cbn [map fold_right]; lia.
Qed.



(** The [total_prompts] that the statistics add up are integers. *)
Lemma total_prompts_ints (runs : list dict) :
  Forall (fun r => well_formed_run r = true) runs ->
  map (fun r => dict_get_default r "total_prompts" (JInt 0)) runs
  = map JInt (map run_total_prompts runs).
Proof.
  intros H. rewrite map_map. apply map_ext_in. intros r Hin.
  rewrite Forall_forall in H. specialize (H r Hin).
  unfold well_formed_run in H. apply andb_prop in H. destruct H as [H _].
  apply andb_prop in H. destruct H as [_ H].
  unfold dict_get_default, run_total_prompts.
  destruct (dict_get r "total_prompts") as [v|]; [|reflexivity].
  destruct v; try discriminate H; reflexivity.
Qed.

Lemma summary_present_without (k : string) (before after : list dict) (r : dict) :
  lacks_summary_value k r ->
  summary_present k (before ++ r :: after) = summary_present k (before ++ after).
Proof.
  intros H. unfold summary_present. rewrite !flat_map_app. f_equal.
  cbn [flat_map].
  destruct H as [H | (s & H & Hk)]; rewrite H; [reflexivity|].
  rewrite Hk. reflexivity.
Qed.

(** On well-formed runs the statistics in the interpreter's arithmetic are
    made of the two means over the values present, the violation rate and
    the counts. *)
Lemma dashboard_stats_means {A : Arithmetic} (runs : list dict) :
  Forall (fun r => well_formed_run r = true) runs ->
  exists violations,
    InArithmetic.dashboard_stats runs =
    (avg_accuracy <-
       python_mean (JInt 0) (summary_present "accuracy_rate" runs) ;;
     avg_latency <-
       python_mean (JInt 0) (summary_present "avg_latency_ms" runs) ;;
     violation_rate <-
       violation_rate_of (total_blocked_count runs)
                         (total_evaluation_count runs) ;;
     Ok [("total_runs", JInt (Z.of_nat (List.length runs)));
         ("total_evaluations", JInt (total_evaluation_count runs));
         ("avg_accuracy", avg_accuracy);
         ("avg_latency", avg_latency);
         ("violation_rate", violation_rate);
         ("recent_violations", JArr violations)]).
Proof.
  intros H. destruct runs as [|r rs].
  { exists []. reflexivity. }
  destruct (well_formed_run_fields _ H) as (Ha & Hl & Hb).
  destruct (blocked_counts_comprehension _ Hb) as (counts & Hc & Hs).
  assert (H5 : Forall (fun r => well_formed_run r = true) (firstn 5 (r :: rs))).
  { apply Forall_firstn_of. exact H. }
  destruct (recent_violations_well_formed _ H5) as (violations & Hv).
  exists violations.
  unfold InArithmetic.dashboard_stats. cbv beta iota zeta.
  rewrite (total_prompts_ints _ H), arith_sum_ints.
  fold (total_evaluation_count (r :: rs)). cbn [bind].
  rewrite (summary_comprehension _ _ _ Ha). cbn [bind].
  rewrite (summary_comprehension _ _ _ Hl). cbn [bind].
  rewrite Hc. cbn [bind].
  rewrite Hv. cbn [bind num_pos].
  rewrite arith_sum_ints, Hs.
  change (InArithmetic.mean_or (JInt 0)) with (python_mean (JInt 0)).
  reflexivity.
Qed.

(** A run whose summary lacks [accuracy_rate], and a run whose summary
    lacks [blocked_count], make the statistics raise [KeyError]: the
    missing field is neither left out of the mean nor taken as 0. *)
Lemma stats_raise_on_incomplete_summary :
  InArithmetic.dashboard_stats (A := exact_arithmetic)
    [[("total_prompts", JInt 3);
      ("summary", JObj [("avg_latency_ms", JFloat (Qc_of_Z 150));
                        ("blocked_count", JInt 1)]);
      ("run_id", JStr "20240101-120000")]]
  = Raise KeyError
  /\ InArithmetic.dashboard_stats (A := exact_arithmetic)
       [[("total_prompts", JInt 3);
         ("summary", JObj [("accuracy_rate", JNull);
                           ("avg_latency_ms", JNull)]);
         ("run_id", JStr "20240101-120000")]]
     = Raise KeyError.
Proof. split; reflexivity. Qed.

(** C5 (amended): over a window of runs whose summaries, where there is
    one, carry the fields that the statistics read, [avg_accuracy] and
    [avg_latency] are the means of the per-run [accuracy_rate] and
    [avg_latency_ms] over the runs that have the value, as the interpreter
    computes them.  A run without a summary, or whose summary has null
    there, is left out of the mean (the mean is that of the other runs),
    not counted as 0, and a run without a summary adds 0 to the blocked
    count of the violation rate. *)
Theorem fleet_means_exclude_missing {A : Arithmetic} :
  (forall runs : list dict,
     Forall (fun r => well_formed_run r = true) runs ->
     exists violations,
       InArithmetic.dashboard_stats runs =
       (avg_accuracy <-
          python_mean (JInt 0) (summary_present "accuracy_rate" runs) ;;
        avg_latency <-
          python_mean (JInt 0) (summary_present "avg_latency_ms" runs) ;;
        violation_rate <-
          violation_rate_of (total_blocked_count runs)
                            (total_evaluation_count runs) ;;
        Ok [("total_runs", JInt (Z.of_nat (List.length runs)));
            ("total_evaluations", JInt (total_evaluation_count runs));
            ("avg_accuracy", avg_accuracy);
            ("avg_latency", avg_latency);
            ("violation_rate", violation_rate);
            ("recent_violations", JArr violations)]))
  /\
  (forall (before after : list dict) (r stats : dict),
     Forall (fun r => well_formed_run r = true) (before ++ r :: after) ->
     InArithmetic.dashboard_stats (before ++ r :: after) = Ok stats ->
     (lacks_summary_value "accuracy_rate" r ->
      exists mean,
        python_mean (JInt 0) (summary_present "accuracy_rate" (before ++ after))
        = Ok mean
        /\ dict_get stats "avg_accuracy" = Some mean)
     /\ (lacks_summary_value "avg_latency_ms" r ->
         exists mean,
           python_mean (JInt 0) (summary_present "avg_latency_ms" (before ++ after))
           = Ok mean
           /\ dict_get stats "avg_latency" = Some mean)
     /\ (dict_get r "summary" = None ->
         exists rate,
           violation_rate_of (total_blocked_count (before ++ after))
                             (total_evaluation_count (before ++ r :: after))
           = Ok rate
           /\ dict_get stats "violation_rate" = Some rate)).
Proof.
  split; [exact dashboard_stats_means|].
  intros before after r stats H Hs.
  destruct (dashboard_stats_means _ H) as (violations & E).
  rewrite E in Hs. clear E.
  destruct (python_mean (JInt 0)
              (summary_present "accuracy_rate" (before ++ r :: after)))
    as [a|] eqn:Ea; [|discriminate Hs].
  destruct (python_mean (JInt 0)
              (summary_present "avg_latency_ms" (before ++ r :: after)))
    as [l|] eqn:El; [|discriminate Hs].
  destruct (violation_rate_of (total_blocked_count (before ++ r :: after))
              (total_evaluation_count (before ++ r :: after)))
    as [v|] eqn:Ev; [|discriminate Hs].
  cbn [bind] in Hs. injection Hs as <-.
  split; [|split].
  - intros Hk. exists a. split; [|reflexivity].
    now rewrite <- (summary_present_without _ _ _ _ Hk).
  - intros Hk. exists l. split; [|reflexivity].
    now rewrite <- (summary_present_without _ _ _ _ Hk).
  - intros Hk. exists v. split; [|reflexivity].
    now rewrite <- (total_blocked_count_without _ _ _ Hk).
Qed.

Lemma fleet_means_exclude_missing_witness :
  exists violations,
    InArithmetic.dashboard_stats (A := exact_arithmetic) sample_runs =
    Ok [("total_runs", JInt 3);
        ("total_evaluations", JInt 10);
        ("avg_accuracy", JFloat (Q2Qc (1 # 2)));
        ("avg_latency", JFloat (Qc_of_Z 150));
        ("violation_rate", JFloat (Q2Qc (1 # 5)));
        ("recent_violations", JArr violations)].
Proof.
  assert (H : Forall (fun r => well_formed_run r = true) sample_runs)
    by (repeat constructor).
  destruct (proj1 (fleet_means_exclude_missing (A := exact_arithmetic))
              sample_runs H) as (violations & E).
  exists violations. rewrite E. json_equal.
Defined.

(* ================================================================== *)
(** ** Run discovery *)
(* ================================================================== *)

Lemma string_compare_OT (a b : string) :
  String.compare a b = String_as_OT.compare a b.
Proof.
  revert b. induction a as [|c a IH]; intros [|c' b]; reflexivity.
Qed.

Lemma string_lt_trans (a b c : string) :
  String.compare a b = Lt -> String.compare b c = Lt -> String.compare a c = Lt.
Proof.
  rewrite !string_compare_OT.
  exact (StrictOrder_Transitive (R := String_as_OT.lt) a b c).
Qed.

Lemma string_lt_irrefl (a : string) : String.compare a a <> Lt.
Proof.
  rewrite string_compare_OT.
  exact (StrictOrder_Irreflexive (R := String_as_OT.lt) a).
Qed.

Lemma string_leb_trans (a b c : string) :
  String.leb a b = true -> String.leb b c = true -> String.leb a c = true.
Proof.
  unfold String.leb. intros Hab Hbc.
  destruct (String.compare a c) eqn:Eac; try reflexivity. exfalso.
  assert (Hca : String.compare c a = Lt)
    by (rewrite String.compare_antisym, Eac; reflexivity).
  destruct (String.compare a b) eqn:Eab; [ | |discriminate Hab];
    (destruct (String.compare b c) eqn:Ebc; [ | |discriminate Hbc]).
  - apply String.compare_eq_iff in Eab, Ebc. subst b c.
    exact (string_lt_irrefl a Hca).
  - apply String.compare_eq_iff in Eab. subst b.
    exact (string_lt_irrefl a (string_lt_trans _ _ _ Ebc Hca)).
  - apply String.compare_eq_iff in Ebc. subst c.
    exact (string_lt_irrefl a (string_lt_trans _ _ _ Eab Hca)).
  - exact (string_lt_irrefl a
             (string_lt_trans _ _ _ Eab (string_lt_trans _ _ _ Ebc Hca))).
Qed.

Lemma listed_runs_cons (e : dir_entry) (rest : list dir_entry) :
  listed_runs (e :: rest) =
  if is_listed e then run_of e :: listed_runs rest else listed_runs rest.
Proof. unfold listed_runs. cbn [filter]. destruct (is_listed e); reflexivity. Qed.

(** From a list [runs] built so far, the loop appends the runs of the next
    listed entries: [limit - len(runs)] of them, and one at the least,
    because the length is only tested after an append. *)
Lemma scan_runs_take (limit : Z) (entries : list dir_entry) (runs : list dict) :
  scan_runs limit entries runs =
  (runs ++ firstn (Z.to_nat (Z.max 1 (limit - Z.of_nat (List.length runs))))
                  (listed_runs entries))%list.
Proof.
  revert runs. induction entries as [|e rest IH]; intros runs.
  - unfold listed_runs. cbn [scan_runs filter map]. rewrite firstn_nil.
    now rewrite app_nil_r.
  - cbn [scan_runs]. rewrite listed_runs_cons. unfold is_listed, run_of.
    destruct (is_dir e); cbn [negb andb]; [|apply IH].
    destruct (meta_json e) eqn:Em; cbn [andb]; [apply IH| |].
    all: destruct (load_run e) as [meta|x] eqn:El; [|apply IH].
    all: rewrite length_app; cbn [List.length].
    all: destruct (Z.geb_spec (Z.of_nat (List.length runs + 1)) limit) as [Hge|Hlt].
    all: try (replace (Z.max 1 (limit - Z.of_nat (List.length runs))) with 1 by lia;
              reflexivity).
    all: rewrite IH, length_app; cbn [List.length].
    all: replace (Z.to_nat (Z.max 1 (limit - Z.of_nat (List.length runs))))
           with (S (Z.to_nat (Z.max 1 (limit - Z.of_nat (List.length runs + 1)))))
           by lia.
    all: cbn [firstn]; rewrite <- app_assoc; reflexivity.
Qed.

Lemma get_recent_runs_take (entries : list dir_entry) (limit : Z) :
  get_recent_runs (RunsDir entries) limit =
  Ok (firstn (Z.to_nat (Z.max 1 limit)) (listed_runs (sorted_reverse entries))).
Proof.
  unfold get_recent_runs. rewrite scan_runs_take. cbn [List.length app].
  now rewrite Z.sub_0_r.
Qed.

(* ------------------------------------------------------------------ *)
(** *** Dictionary updates *)

Lemma dict_get_set_same (d : dict) (k : string) (v : json) :
  dict_get (dict_set d k v) k = Some v.
Proof.
  induction d as [|[k' v'] d IH]; cbn [dict_set dict_get].
  - now rewrite String.eqb_refl.
  - destruct (String.eqb k k') eqn:E; cbn [dict_get]; rewrite E; [reflexivity|exact IH].
Qed.

Lemma dict_get_set_other (d : dict) (k k' : string) (v : json) :
  k' <> k -> dict_get (dict_set d k v) k' = dict_get d k'.
Proof.
  intros Hne. induction d as [|[k0 v0] d IH]; cbn [dict_set dict_get].
  - apply String.eqb_neq in Hne. now rewrite Hne.
  - destruct (String.eqb k k0) eqn:E; cbn [dict_get].
    + apply String.eqb_eq in E. subst k0.
      apply String.eqb_neq in Hne. now rewrite Hne.
    + destruct (String.eqb k' k0); [reflexivity|exact IH].
Qed.

(** Every listed run carries the name of its directory as [run_id]. *)
Lemma load_run_run_id (run_dir : dir_entry) (run : dict) :
  load_run run_dir = Ok run ->
  dict_get run "run_id" = Some (JStr (entry_name run_dir)).
Proof.
  unfold load_run. intros H.
  destruct (meta_json run_dir) as [| |v]; try discriminate H. cbn [bind] in H.
  destruct (results_jsonl run_dir) as [lines|].
  - destruct (calculate_run_summary (load_results lines)) as [s|]; [|discriminate H].
    cbn [bind] in H. destruct v; try discriminate H.
    cbn [py_setitem bind] in H. injection H as <-. apply dict_get_set_same.
  - cbn [bind] in H. destruct v; try discriminate H.
    cbn [py_setitem] in H. injection H as <-. apply dict_get_set_same.
Qed.

(* ------------------------------------------------------------------ *)
(** *** Order of the listing *)

Lemma name_after_sorted (entries : list dir_entry) :
  StronglySorted name_after (sorted_reverse entries).
Proof.
  apply (PathSort.StronglySorted_sort entries).
  intros a b c Hab Hbc. unfold is_true, PathReverseOrder.leb in *.
  eapply string_leb_trans; eassumption.
Qed.

Lemma StronglySorted_filter {A : Type} (R : A -> A -> Prop) (f : A -> bool)
    (l : list A) :
  StronglySorted R l -> StronglySorted R (filter f l).
Proof.
  induction 1 as [|a l Hs IH Ha]; cbn [filter]; [constructor|].
  destruct (f a); [|exact IH].
  constructor; [exact IH|].
  rewrite Forall_forall in *. intros x Hx. apply Ha.
  apply filter_In in Hx. tauto.
Qed.

Lemma StronglySorted_firstn {A : Type} (R : A -> A -> Prop) (n : nat)
    (l : list A) :
  StronglySorted R l -> StronglySorted R (firstn n l).
Proof.
  intros H. revert n. induction H as [|a l Hs IH Ha]; intros [|n]; cbn [firstn];
    try constructor.
  - apply IH.
  - apply Forall_firstn_of. exact Ha.
Qed.

Lemma Permutation_filter_of {A : Type} (f : A -> bool) (l l' : list A) :
  Permutation l l' -> Permutation (filter f l) (filter f l').
Proof.
  induction 1 as [|x l l' _ IH|x y l|l l' l'' _ IH1 _ IH2]; cbn [filter].
  - constructor.
  - destruct (f x); [constructor|]; exact IH.
  - destruct (f x), (f y); try reflexivity. constructor.
  - etransitivity; eassumption.
Qed.

Lemma In_firstn_of {A : Type} (n : nat) (l : list A) (x : A) :
  In x (firstn n l) -> In x l.
Proof.
  intros H. rewrite <- (firstn_skipn n l). apply in_or_app. now left.
Qed.

Lemma is_listed_load (e : dir_entry) :
  is_listed e = true ->
  is_dir e = true /\ meta_json e <> NoFile /\ load_run e = Ok (run_of e).
Proof.
  unfold is_listed, run_of. intros H.
  apply andb_prop in H. destruct H as [H Hl].
  apply andb_prop in H. destruct H as [Hd Hm].
  repeat split.
  - exact Hd.
  - intros E. rewrite E in Hm. discriminate Hm.
  - destruct (load_run e); [reflexivity|discriminate Hl].
Qed.

Lemma load_is_listed (e : dir_entry) (run : dict) :
  is_dir e = true -> load_run e = Ok run ->
  is_listed e = true /\ run_of e = run.
Proof.
  intros Hd Hl. unfold is_listed, run_of. rewrite Hd, Hl. split; [|reflexivity].
  destruct (meta_json e) eqn:Em; try reflexivity.
  unfold load_run in Hl. rewrite Em in Hl. discriminate Hl.
Qed.

Lemma no_meta_not_listed (e : dir_entry) :
  meta_json e = NoFile -> is_listed e = false.
Proof.
  intros E. unfold is_listed. rewrite E. now rewrite andb_false_r.
Qed.

(** The listing with [limit = 0] still returns a run: the length is tested
    after the append only. *)
Lemma recent_runs_limit_zero :
  exists runs,
    get_recent_runs (RunsDir sample_entries) 0 = Ok runs /\
    ~ Z.of_nat (List.length runs) <= 0.
Proof.
  eexists. split; [reflexivity|]. cbn. lia.
Qed.

(** C9 (amended): the scan never fails on a runs directory; for a [limit]
    of at least 1 it returns the runs of the first [limit] listed entries
    in reverse lexicographic order of their names, each under its
    directory name as [run_id]; an entry without [meta.json] is not among
    them; at most [limit] runs are returned.  In particular three run
    directories of which one has no [meta.json] and the other two load
    give exactly the two runs, the one with the larger name first. *)
Theorem recent_runs_listing :
  (forall (entries : list dir_entry) (limit : Z),
     1 <= limit ->
     exists runs,
       get_recent_runs (RunsDir entries) limit = Ok runs /\
       let listing :=
         firstn (Z.to_nat limit) (filter is_listed (sorted_reverse entries)) in
       Forall2 (fun e run =>
                  load_run e = Ok run /\
                  dict_get run "run_id" = Some (JStr (entry_name e)))
               listing runs /\
       StronglySorted name_after listing /\
       (forall e, In e listing -> In e entries /\ meta_json e <> NoFile) /\
       Z.of_nat (List.length runs) <= limit)
  /\
  (forall (entries : list dir_entry) (e1 e2 e3 : dir_entry) (r1 r2 : dict)
          (limit : Z),
     Permutation entries [e1; e2; e3] ->
     meta_json e3 = NoFile ->
     is_dir e1 = true -> load_run e1 = Ok r1 ->
     is_dir e2 = true -> load_run e2 = Ok r2 ->
     String.ltb (entry_name e1) (entry_name e2) = true ->
     2 <= limit ->
     get_recent_runs (RunsDir entries) limit = Ok [r2; r1]).
Proof.
  split.
  - intros entries limit Hlimit. eexists. split; [apply get_recent_runs_take|].
    replace (Z.max 1 limit) with limit by lia.
    unfold listed_runs. rewrite firstn_map.
    set (listing := firstn (Z.to_nat limit) (filter is_listed (sorted_reverse entries))).
    cbv zeta.
    assert (Hl : forall e, In e listing -> In e (sorted_reverse entries) /\ is_listed e = true).
    { intros e He. apply In_firstn_of in He. now apply filter_In in He. }
    split; [|split; [|split]].
    + clearbody listing. induction listing as [|e l IH]; cbn [map]; constructor.
      * destruct (Hl e (or_introl eq_refl)) as [_ He].
        apply is_listed_load in He. destruct He as (_ & _ & He).
        split; [exact He|]. now apply load_run_run_id.
      * apply IH. intros x Hx. apply Hl. now right.
    + apply StronglySorted_firstn, StronglySorted_filter, name_after_sorted.
    + intros e He. destruct (Hl e He) as [Hin Hlisted]. split.
      * eapply Permutation_in; [|exact Hin].
        symmetry. apply PathSort.Permuted_sort.
      * now apply is_listed_load in Hlisted.
    + rewrite length_map. pose proof (firstn_le_length (Z.to_nat limit)
        (filter is_listed (sorted_reverse entries))) as Hle.
      fold listing in Hle. lia.
  - intros entries e1 e2 e3 r1 r2 limit Hperm H3 Hd1 Hl1 Hd2 Hl2 Hlt Hlimit.
    rewrite get_recent_runs_take. unfold listed_runs.
    destruct (load_is_listed _ _ Hd1 Hl1) as [Hi1 Hr1].
    destruct (load_is_listed _ _ Hd2 Hl2) as [Hi2 Hr2].
    pose proof (no_meta_not_listed _ H3) as Hi3.
    assert (Hp : Permutation [e1; e2] (filter is_listed (sorted_reverse entries))).
    { replace [e1; e2] with (filter is_listed [e1; e2; e3])
        by (cbn [filter]; now rewrite Hi1, Hi2, Hi3).
      apply Permutation_filter_of. etransitivity; [symmetry; exact Hperm|].
      apply PathSort.Permuted_sort. }
    pose proof (StronglySorted_filter name_after is_listed _
                  (name_after_sorted entries)) as Hs.
    apply Permutation_length_2_inv in Hp. destruct Hp as [Hp|Hp]; rewrite Hp in *.
    + exfalso. apply StronglySorted_inv in Hs. destruct Hs as [_ Hs].
      apply Forall_inv in Hs. unfold name_after, String.leb in Hs.
      unfold String.ltb in Hlt. rewrite String.compare_antisym in Hs.
      destruct (String.compare (entry_name e1) (entry_name e2));
        discriminate Hlt || discriminate Hs.
    + cbn [map]. rewrite Hr1, Hr2.
      replace (Z.to_nat (Z.max 1 limit)) with (S (S (Z.to_nat (limit - 2)))) by lia.
      cbn [firstn]. now rewrite firstn_nil.
Qed.

Lemma recent_runs_listing_witness :
  exists r1 r2,
    get_recent_runs (RunsDir sample_entries) 10 = Ok [r2; r1] /\
    dict_get r2 "run_id" = Some (JStr "20240102-000000") /\
    dict_get r1 "run_id" = Some (JStr "20240101-000000").
Proof.
  eexists. eexists. split.
  - apply (proj2 recent_runs_listing sample_entries
             sample_run_1 sample_run_2 sample_run_3).
    + apply perm_skip. apply perm_swap.
    + reflexivity.
    + reflexivity.
    + reflexivity.
    + reflexivity.
    + reflexivity.
    + reflexivity.
    + lia.
  - split; reflexivity.
Defined.

(** With a [limit] that covers the whole directory, every entry that loads
    has its run in the listing. *)
Lemma loaded_run_listed (entries : list dir_entry) (limit : Z) (e : dir_entry)
    (run : dict) :
  In e entries -> is_dir e = true -> load_run e = Ok run ->
  Z.of_nat (List.length entries) <= limit ->
  exists runs, get_recent_runs (RunsDir entries) limit = Ok runs /\ In run runs.
Proof.
  intros Hin Hd Hl Hlimit. eexists. split; [apply get_recent_runs_take|].
  destruct (load_is_listed _ _ Hd Hl) as [Hi Hr].
  pose proof (PathSort.Permuted_sort entries) as Hp. fold (sorted_reverse entries) in Hp.
  rewrite firstn_all2.
  - unfold listed_runs. rewrite <- Hr. apply in_map. apply filter_In.
    split; [|exact Hi]. eapply Permutation_in; eassumption.
  - unfold listed_runs. rewrite length_map.
    pose proof (filter_length_le is_listed (sorted_reverse entries)) as Hf.
    apply Permutation_length in Hp. lia.
Qed.

(** C10: a run directory with a [meta.json] object and no [results.jsonl]
    is listed, as its metadata with the [run_id] added and nothing else;
    no summary is attached, so the run has a [summary] field only if the
    metadata itself has one, and none otherwise.  A run directory with a
    results file gets the computed summary attached. *)
Theorem run_without_results_has_no_summary
    (entries : list dir_entry) (limit : Z) (run_dir : dir_entry) (meta : dict) :
  In run_dir entries ->
  is_dir run_dir = true ->
  meta_json run_dir = JsonFile (JObj meta) ->
  Z.of_nat (List.length entries) <= limit ->
  (results_jsonl run_dir = None ->
   let run := dict_set meta "run_id" (JStr (entry_name run_dir)) in
   (exists runs, get_recent_runs (RunsDir entries) limit = Ok runs /\ In run runs)
   /\ dict_get run "summary" = dict_get meta "summary"
   /\ (dict_get meta "summary" = None -> dict_has run "summary" = false))
  /\
  (forall lines summary,
     results_jsonl run_dir = Some lines ->
     calculate_run_summary (load_results lines) = Ok summary ->
     let run := dict_set (dict_set meta "summary" (JObj summary))
                         "run_id" (JStr (entry_name run_dir)) in
     (exists runs, get_recent_runs (RunsDir entries) limit = Ok runs /\ In run runs)
     /\ dict_get run "summary" = Some (JObj summary)).
Proof.
  intros Hin Hd Hm Hlimit. split.
  - intros Hr run.
    assert (Hrun : dict_get run "summary" = dict_get meta "summary")
      by (apply dict_get_set_other; discriminate).
    split; [|split].
    + apply (loaded_run_listed entries limit run_dir run Hin Hd); [|exact Hlimit].
      unfold load_run. rewrite Hm, Hr. reflexivity.
    + exact Hrun.
    + intros Hnone. unfold dict_has. now rewrite Hrun, Hnone.
  - intros lines summary Hr Hs run. split.
    + apply (loaded_run_listed entries limit run_dir run Hin Hd); [|exact Hlimit].
      unfold load_run. rewrite Hm, Hr. cbn [bind]. rewrite Hs. reflexivity.
    + unfold run. rewrite dict_get_set_other by discriminate.
      apply dict_get_set_same.
Qed.

Lemma run_without_results_has_no_summary_witness :
  exists runs,
    get_recent_runs (RunsDir sample_entries) 10 = Ok runs /\
    In [("model", JStr "llama3"); ("total_prompts", JInt 2);
        ("run_id", JStr "20240102-000000")] runs.
Proof.
  refine (proj1 (proj1 (run_without_results_has_no_summary
            sample_entries 10 sample_run_2
            [("model", JStr "llama3"); ("total_prompts", JInt 2)]
            _ eq_refl eq_refl _) eq_refl)).
  - right. right. left. reflexivity.
  - cbn. lia.
Defined.

(* ------------------------------------------------------------------ *)
(** *** The listing feeds the fleet statistics *)

Lemma bind_Ok {A B : Type} (c : result A) (k : A -> result B) (b : B) :
  bind c k = Ok b -> exists a, c = Ok a /\ k a = Ok b.
Proof. destruct c as [a|e]; [|discriminate]. intros H. exists a. now split. Qed.

Lemma mean_or_shape (l : list json) (v : json) :
  mean_or JNull l = Ok v -> null_or_number v = true.
Proof.
  destruct l as [|x l]; [now intros [= <-]|].
  unfold mean_or. intros H.
  apply bind_Ok in H. destruct H as (s & _ & H).
  apply bind_Ok in H. destruct H as (m & Hm & H).
  injection H as <-. unfold truediv in Hm. rewrite len_nonzero in Hm.
  injection Hm as <-. reflexivity.
Qed.

Lemma list_comp_constant {A : Type} (cond : A -> result bool) (c : json)
    (l : list A) (ys : list json) :
  list_comp cond (fun _ => Ok c) l = Ok ys -> Forall (eq c) ys.
Proof.
  revert ys. induction l as [|x l IH]; intros ys; cbn [list_comp].
  - intros [= <-]. constructor.
  - intros H. apply bind_Ok in H. destruct H as ([|] & _ & H).
    + cbn [bind] in H. apply bind_Ok in H. destruct H as (zs & Hzs & H).
      injection H as <-. constructor; [reflexivity|]. now apply IH.
    + now apply IH.
Qed.

Lemma sum_from_int_ones (ys : list json) (acc : Z) (n : num) :
  Forall (eq (JInt 1)) ys -> sum_from (NInt acc) ys = Ok n -> exists z, n = NInt z.
Proof.
  intros H. revert acc. induction H as [|y ys <- _ IH]; intros acc; cbn [sum_from as_num num_add].
  - intros [= <-]. eauto.
  - apply IH.
Qed.

(** Whatever the records, a summary that is returned has the shape the
    fleet statistics read. *)
Lemma calculate_run_summary_shape (results : list json) (summary : dict) :
  calculate_run_summary results = Ok summary -> summary_ok (JObj summary) = true.
Proof.
  destruct results as [|r rs]; [now intros [= <-]|].
  unfold calculate_run_summary. cbv beta iota zeta. intros H.
  apply bind_Ok in H. destruct H as (accs & _ & H).
  apply bind_Ok in H. destruct H as (acc & Hacc & H).
  apply bind_Ok in H. destruct H as (lats & _ & H).
  apply bind_Ok in H. destruct H as (lat & Hlat & H).
  apply bind_Ok in H. destruct H as (ones & Hones & H).
  apply bind_Ok in H. destruct H as (blocked & Hblocked & H).
  apply bind_Ok in H. destruct H as (toxs & _ & H).
  apply bind_Ok in H. destruct H as (tox & _ & H).
  injection H as <-.
  apply mean_or_shape in Hacc, Hlat.
  apply list_comp_constant in Hones.
  destruct (sum_from_int_ones _ _ _ Hones Hblocked) as (z & ->).
  unfold summary_ok, summary_has.
  cbn [dict_get String.eqb Ascii.eqb Bool.eqb json_of_num is_int].
  now rewrite Hacc, Hlat.
Qed.

Lemma load_run_well_formed (run_dir : dir_entry) (run : dict) :
  plain_meta run_dir = true -> load_run run_dir = Ok run -> well_formed_run run = true.
Proof.
  intros Hplain Hload. pose proof (load_run_run_id _ _ Hload) as Hid.
  unfold plain_meta in Hplain. unfold load_run in Hload.
  destruct (meta_json run_dir) as [| |v]; try discriminate Hload.
  cbn [bind] in Hload.
  destruct (results_jsonl run_dir) as [lines|].
  - apply bind_Ok in Hload. destruct Hload as (m & Hm & Hload).
    apply bind_Ok in Hm. destruct Hm as (s & Hs & Hm).
    destruct v as [| | | | | |meta]; try discriminate Hm.
    cbn [py_setitem bind] in Hm. injection Hm as <-.
    cbn [py_setitem] in Hload. injection Hload as <-.
    unfold well_formed_run, dict_has. rewrite Hid.
    rewrite !(dict_get_set_other _ "run_id") by discriminate.
    rewrite (dict_get_set_other _ "summary" "total_prompts") by discriminate.
    rewrite dict_get_set_same, (calculate_run_summary_shape _ _ Hs).
    rewrite andb_true_r in Hplain. now rewrite Hplain.
  - cbn [bind] in Hload.
    destruct v as [| | | | | |meta]; try discriminate Hload.
    cbn [py_setitem] in Hload. injection Hload as <-.
    unfold well_formed_run, dict_has. rewrite Hid.
    rewrite !(dict_get_set_other _ "run_id") by discriminate.
    apply andb_prop in Hplain. destruct Hplain as [Ht Hs].
    unfold dict_has in Hs. rewrite Ht.
    destruct (dict_get meta "summary"); [discriminate Hs|reflexivity].
Qed.

(** The runs that the listing returns for a directory of plain metadata are
    the runs the fleet statistics are proved on. *)
Lemma recent_runs_well_formed (entries : list dir_entry) (limit : Z)
    (runs : list dict) :
  Forall (fun e => plain_meta e = true) entries ->
  get_recent_runs (RunsDir entries) limit = Ok runs ->
  Forall (fun r => well_formed_run r = true) runs.
Proof.
  intros Hplain Hruns. rewrite get_recent_runs_take in Hruns.
  injection Hruns as <-. apply Forall_firstn_of.
  unfold listed_runs. apply Forall_forall. intros run Hin.
  apply in_map_iff in Hin. destruct Hin as (e & <- & He).
  apply filter_In in He. destruct He as [He Hlisted].
  apply is_listed_load in Hlisted. destruct Hlisted as (_ & _ & Hload).
  apply (load_run_well_formed e); [|exact Hload].
  rewrite Forall_forall in Hplain. apply Hplain.
  eapply Permutation_in; [|exact He].
  symmetry. apply PathSort.Permuted_sort.
Qed.

(** On a directory of plain metadata [get_dashboard_stats] returns the
    statistics of the fifty most recent runs. *)
Lemma get_dashboard_stats_plain (entries : list dir_entry) :
  Forall (fun e => plain_meta e = true) entries ->
  exists runs stats,
    get_recent_runs (RunsDir entries) 50 = Ok runs
    /\ Forall (fun r => well_formed_run r = true) runs
    /\ get_dashboard_stats (RunsDir entries) = Ok stats
    /\ dict_get stats "avg_accuracy"
       = Some (mean_json (JInt 0) (summary_values "accuracy_rate" runs))
    /\ dict_get stats "avg_latency"
       = Some (mean_json (JInt 0) (summary_values "avg_latency_ms" runs)).
Proof.
  intros Hplain.
  destruct (get_recent_runs (RunsDir entries) 50) as [runs|] eqn:E;
    [|rewrite get_recent_runs_take in E; discriminate E].
  pose proof (recent_runs_well_formed _ _ _ Hplain E) as Hl.
  destruct (dashboard_stats_well_formed runs Hl) as (violations & Hs).
  exists runs. eexists. split; [reflexivity|]. split; [exact Hl|].
  split; [unfold get_dashboard_stats; rewrite E; exact Hs|].
  split; reflexivity.
Qed.

(* ================================================================== *)
(** ** Policy loading *)
(* ================================================================== *)

Section PolicyTheorems.

Context {V : FieldValidators}.

Lemma field_wrong_type {A : Type} (validate : json -> option A) (data : dict)
    (k : string) (default : A) :
  wrong_type validate data k -> field validate data k default = None.
Proof. intros (v & Hv & Hn). unfold field. now rewrite Hv. Qed.

Lemma field_field_loaded {A : Type} (validate : json -> option A) (data : dict)
    (k : string) (default loaded : A) :
  field validate data k default = Some loaded ->
  field_loaded validate data k default loaded.
Proof.
  unfold field, field_loaded. destruct (dict_get data k); [tauto|].
  now intros [= <-].
Qed.

Lemma no_extra_fields_unknown (data : dict) :
  has_unknown_field data -> no_extra_fields data = false.
Proof.
  intros (k & v & Hin & Hk). unfold no_extra_fields.
  destruct (forallb _ data) eqn:E; [|reflexivity]. exfalso.
  rewrite forallb_forall in E. specialize (E _ Hin). cbn [fst] in E.
  apply existsb_exists in E. destruct E as (k' & Hk' & Heq).
  apply String.eqb_eq in Heq. subst k'. exact (Hk Hk').
Qed.

Lemma no_extra_fields_known (data : dict) :
  no_extra_fields data = true -> ~ has_unknown_field data.
Proof.
  intros E (k & v & Hin & Hk). rewrite (no_extra_fields_unknown data) in E.
  - discriminate E.
  - exists k, v. tauto.
Qed.

Lemma EvaluationPolicy_init_rejects (data : dict) :
  has_wrong_type data \/ has_unknown_field data ->
  EvaluationPolicy_init data = Raise ValueError.
Proof.
  unfold EvaluationPolicy_init.
  intros [[H|[H|[H|[H|H]]]]|H].
  1-5: rewrite (field_wrong_type _ _ _ _ H);
    repeat match goal with |- context [match ?f with _ => _ end] =>
      destruct f end; reflexivity.
  rewrite (no_extra_fields_unknown _ H).
  repeat match goal with |- context [match ?f with _ => _ end] =>
    destruct f end; reflexivity.
Qed.

Lemma field_given_as {A : Type} (validate : json -> option A)
    (is_type : json -> bool) (value : json -> option A) (data : dict)
    (k : string) (default : A) :
  (forall v, is_type v = true -> exists a, value v = Some a /\ validate v = Some a) ->
  given_as is_type data k = true ->
  field validate data k default
  = Some match dict_get data k with
         | Some v => match value v with Some a => a | None => default end
         | None => default
         end.
Proof.
  intros Hv. unfold given_as, field. destruct (dict_get data k) as [v|]; [|reflexivity].
  intros H. destruct (Hv v H) as (a & -> & ->). reflexivity.
Qed.

(** A policy file whose fields are of their own types loads, as the policy
    it describes. *)
Lemma load_typed_policy (data : dict) :
  typed_policy data = true ->
  load_policy (JsonFile (JObj data)) = Ok (policy_of data).
Proof.
  unfold typed_policy. intros H.
  repeat (apply andb_prop in H; destruct H as [H ?]).
  assert (Hi : forall v, is_int v = true ->
            exists a, match v with JInt z => Some z | _ => None end = Some a
                      /\ validate_int v = Some a).
  { intros [] E; try discriminate E. eexists. split; [reflexivity|].
    apply validate_int_exact. }
  assert (Hb : forall v, is_bool v = true ->
            exists a, match v with JBool b => Some b | _ => None end = Some a
                      /\ validate_bool v = Some a).
  { intros [] E; try discriminate E. eexists. split; [reflexivity|].
    apply validate_bool_exact. }
  assert (Hf : forall v, is_float v = true ->
            exists a, match v with JFloat q => Some q | _ => None end = Some a
                      /\ validate_float v = Some a).
  { intros [] E; try discriminate E. eexists. split; [reflexivity|].
    apply validate_float_exact. }
  unfold load_policy, EvaluationPolicy_init.
  rewrite (field_given_as _ _ _ _ _ _ Hi) by assumption.
  rewrite !(field_given_as _ _ _ _ _ _ Hb) by assumption.
  rewrite (field_given_as _ _ _ _ _ _ Hf) by assumption.
  rewrite H. cbn [try_except]. unfold policy_of. do 2 f_equal.
  all: match goal with
       | |- context [dict_get ?d ?k] =>
           destruct (dict_get d k) as [[]|]; reflexivity
       end.
Qed.


(** C7 (amended): [max_latency_ms] is an integer without a sign
    condition: a policy file that gives any integer, zero and the negative
    ones included, loads, with that integer as [max_latency_ms] and the
    other fields at their defaults. *)
Theorem load_policy_any_max_latency (z : Z) :
  load_policy (JsonFile (JObj [("max_latency_ms", JInt z)])) =
  Ok {| max_latency_ms := z;
        require_accuracy := true;
        enable_toxicity := true;
        toxicity_threshold := Q2Qc (1 # 2);
        enable_pii := false |}.
Proof.
  unfold load_policy, EvaluationPolicy_init, field.
  cbn [dict_get String.eqb Ascii.eqb Bool.eqb].
  rewrite validate_int_exact. reflexivity.
Qed.

End PolicyTheorems.



(** A policy file with [max_latency_ms] zero, and one with a negative
    value, load. *)
Lemma load_policy_accepts_nonpositive_latency :
  load_policy (JsonFile (JObj [("max_latency_ms", JInt 0)]))
  = Ok {| max_latency_ms := 0;
          require_accuracy := true;
          enable_toxicity := true;
          toxicity_threshold := Q2Qc (1 # 2);
          enable_pii := false |}
  /\ load_policy (JsonFile (JObj [("max_latency_ms", JInt (-5))]))
     = Ok {| max_latency_ms := -5;
             require_accuracy := true;
             enable_toxicity := true;
             toxicity_threshold := Q2Qc (1 # 2);
             enable_pii := false |}.
Proof. split; reflexivity. Qed.

(* ================================================================== *)
(** ** Provider probes *)
(* ================================================================== *)

(** C8: when the request raises (connection refused, timeout, ...), and
    also when the backend answers with a 4xx or 5xx status,
    [list_models] returns the empty list and [is_available] returns
    [False]; [is_available] raises on no outcome at all. *)
Theorem probes_report_network_failure :
  list_models RequestFailed = Ok []
  /\ is_available RequestFailed = Ok false
  /\ (forall r : response,
        400 <= status_code r < 600 ->
        list_models (Responded r) = Ok [] /\ is_available (Responded r) = Ok false)
  /\ (forall o : http_outcome, exists b, is_available o = Ok b).
Proof.
  split; [reflexivity|]. split; [reflexivity|]. split.
  - intros r [Hlo Hhi]. split.
    + unfold list_models, raise_for_status. cbn [requests_get bind].
      apply Z.leb_le in Hlo. apply Z.ltb_lt in Hhi. rewrite Hlo, Hhi. reflexivity.
    + unfold is_available. cbn [requests_get bind except_RequestException].
      f_equal. apply Z.eqb_neq. lia.
  - intros [|r]; eexists; reflexivity.
Qed.

Lemma probes_report_network_failure_witness :
  list_models (Responded {| status_code := 503; json_body := Raise ValueError |}) = Ok []
  /\ is_available (Responded {| status_code := 503; json_body := Raise ValueError |})
     = Ok false.
Proof.
  apply (proj1 (proj2 (proj2 probes_report_network_failure))).
  cbn [status_code]. lia.
Defined.

(* ================================================================== *)
(** ** Worked examples *)
(* ================================================================== *)

(** Reading stops at the first exception; blank lines are skipped. *)
Example load_results_partial :
  load_results [JsonLine (JInt 1); BlankLine; JsonLine (JInt 2); BadLine;
                JsonLine (JInt 3)]
  = [JInt 1; JInt 2].
Proof. reflexivity. Qed.

(** With the two arithmetics the functions over the interface are the
    ones in exact rationals and the ones in binary64. *)
Example exact_functions (results : list json) (runs : list dict) :
  InArithmetic.calculate_run_summary (A := exact_arithmetic) results
  = calculate_run_summary results
  /\ InArithmetic.dashboard_stats (A := exact_arithmetic) runs
     = dashboard_stats runs.
Proof. split; reflexivity. Qed.

(** In binary64 the three toxicities 0.1, 0.2 and 0.3 have the mean
    0.20000000000000004, and in the opposite order the mean
    0.19999999999999998: the sum is rounded at each addition.  In exact
    rationals both are 1/5. *)
Example binary64_mean_of_tenths :
  let record t := JObj [("toxicity", JFloat (Q2Qc t))] in
  let results := [record (1 # 10); record (2 # 10); record (3 # 10)] in
  let avg_toxicity (summary : result dict) :=
    s <- summary ;; dict_item s "avg_toxicity" in
  avg_toxicity
    (InArithmetic.calculate_run_summary (A := binary64_arithmetic) results)
  = Ok (JFloat (Q2Qc (7205759403792795 # 2 ^ 55)))
  /\ binary64_round (Q2Qc (20000000000000004 # 10 ^ 17))
     = Some (Q2Qc (7205759403792795 # 2 ^ 55))
  /\ avg_toxicity
       (InArithmetic.calculate_run_summary (A := binary64_arithmetic)
          (rev results))
     = Ok (JFloat (Q2Qc (7205759403792793 # 2 ^ 55)))
  /\ binary64_round (Q2Qc (19999999999999998 # 10 ^ 17))
     = Some (Q2Qc (7205759403792793 # 2 ^ 55))
  /\ avg_toxicity
       (InArithmetic.calculate_run_summary (A := exact_arithmetic) results)
     = Ok (JFloat (Q2Qc (1 # 5))).
Proof.
  repeat split; vm_compute; do 2 f_equal; apply Qc_is_canon; reflexivity.
Qed.

(** An [int] beyond the floats makes the mean, and with it the summary,
    raise [OverflowError] in binary64. *)
Example binary64_overflow :
  InArithmetic.calculate_run_summary (A := binary64_arithmetic)
    [JObj [("latency_ms", JInt (10 ^ 400))]]
  = Raise OverflowError.
Proof. vm_compute. reflexivity. Qed.

(** A record that is not an object makes the summary raise, and the listing
    then skips the run. *)
Example summary_of_non_object :
  calculate_run_summary [JInt 5] = Raise AttributeError
  /\ get_recent_runs
       (RunsDir [{| entry_name := "20240101-000000"; is_dir := true;
                    meta_json := JsonFile (JObj []);
                    results_jsonl := Some [JsonLine (JInt 5)] |}]) 10
     = Ok [].
Proof. split; reflexivity. Qed.

(** The listing of the sample directory: newest loadable run first, the
    computed summary attached to the run that has results. *)
Example sample_listing :
  get_recent_runs (RunsDir sample_entries) 10 =
  Ok [[("model", JStr "llama3"); ("total_prompts", JInt 2);
       ("run_id", JStr "20240102-000000")];
      [("model", JStr "llama3"); ("total_prompts", JInt 3);
       ("summary",
        JObj [("total_prompts", JInt 3);
              ("accuracy_rate", JFloat (Q2Qc (1 # 2)));
              ("avg_latency_ms", JFloat (Qc_of_Z 150));
              ("blocked_count", JInt 2);
              ("avg_toxicity", JFloat (Q2Qc (7 # 10)))]);
       ("run_id", JStr "20240101-000000")]].
Proof. json_equal. Qed.

(** The statistics of the sample directory: the run without a summary is in
    [total_runs] and [total_evaluations] but in neither mean. *)
Example sample_stats :
  get_dashboard_stats (RunsDir sample_entries) =
  Ok [("total_runs", JInt 2);
      ("total_evaluations", JInt 5);
      ("avg_accuracy", JFloat (Q2Qc (1 # 2)));
      ("avg_latency", JFloat (Qc_of_Z 150));
      ("violation_rate", JFloat (Q2Qc (2 # 5)));
      ("recent_violations",
       JArr [JObj [("run_id", JStr "20240101-000000");
                   ("timestamp", JNull);
                   ("blocked_count", JInt 2);
                   ("total_prompts", JInt 3)]])].
Proof. json_equal. Qed.

(** A summary that came with the metadata and lacks the keys makes the
    statistics raise: the subscripts are not guarded. *)
Example stats_of_foreign_summary :
  dashboard_stats [[("summary", JObj []); ("run_id", JStr "20240101-000000")]]
  = Raise KeyError.
Proof. reflexivity. Qed.

(** The model names without their tags, sorted; an entry without a name is
    dropped. *)
Example list_models_names :
  list_models
    (Responded
       {| status_code := 200;
          json_body :=
            Ok (JObj [("models",
                       JArr [JObj [("name", JStr "mistral:7b")];
                             JObj [("name", JStr "llama3:latest")];
                             JObj [("size", JInt 4)]])]) |})
  = Ok ["llama3"; "mistral"].
Proof. reflexivity. Qed.

(* ================================================================== *)
(** ** Further properties: reading results and summarizing *)
(* ================================================================== *)

Lemma load_results_json_lines (records : list json) :
  load_results (map JsonLine records) = records.
Proof.
  induction records as [|r records IH]; [reflexivity|].
  cbn [map load_results]. now rewrite IH.
Qed.

Lemma accuracy_comprehension_non_object (results : list json) :
  Exists (fun r => ~ is_object r) results ->
  list_comp (fun r => v <- py_get r "accuracy" JNull ;; Ok (is_not_None v))
            (fun r => py_get r "accuracy" JNull) results
  = Raise AttributeError.
Proof.
  induction results as [|r results IH]; intros H.
  - inversion H.
  - cbn [list_comp]. destruct r as [| | | | | |d]; try reflexivity.
    assert (H' : Exists (fun r => ~ is_object r) results).
    { inversion H as [? ? Hr|? ? Hr]; subst; [|exact Hr].
      exfalso. apply Hr. exact I. }
    specialize (IH H'). cbn [py_get bind].
    destruct (is_not_None _); cbn [bind]; rewrite IH; reflexivity.
Qed.

(** A results list with a record that is not a JSON object (a number, a
    string, a list, null) cannot be summarized: the first comprehension
    calls [get] on it and the summary raises [AttributeError]. *)
Theorem summary_raises_on_non_object (results : list json) :
  Exists (fun r => ~ is_object r) results ->
  calculate_run_summary results = Raise AttributeError.
Proof.
  intros H. destruct results as [|r rs]; [inversion H|].
  unfold calculate_run_summary. cbv beta iota zeta.
  now rewrite (accuracy_comprehension_non_object _ H).
Qed.

Lemma summary_raises_on_non_object_witness :
  calculate_run_summary
    [JObj [("accuracy", JBool true)]; JStr "not a record"; JObj []]
  = Raise AttributeError.
Proof.
  apply summary_raises_on_non_object.
  apply Exists_cons_tl. apply Exists_cons_hd. intros H. exact H.
Defined.

Lemma Qc_of_Z_le (a b : Z) : a <= b -> (Qc_of_Z a <= Qc_of_Z b)%Qc.
Proof.
  intros H. unfold Qcle, Qc_of_Z. cbn [this Q2Qc].
  rewrite !Qred_correct, <- Zle_Qle. exact H.
Qed.

Lemma Qc_of_Z_1 : Qc_of_Z 1 = 1%Qc.
Proof. apply Qc_is_canon. reflexivity. Qed.

Lemma Qcinv_nonneg (x : Qc) : (0 <= x)%Qc -> (0 <= / x)%Qc.
Proof.
  unfold Qcle, Qcinv. cbn [this Q2Qc]. intros H.
  rewrite !Qred_correct in *. now apply Qinv_le_0_compat.
Qed.

Lemma sum_unit_interval (l : list Qc) :
  Forall (fun q => 0 <= q /\ q <= 1)%Qc l ->
  (0 <= fold_right Qcplus 0 l)%Qc
  /\ (fold_right Qcplus 0 l <= Qc_of_Z (Z.of_nat (List.length l)))%Qc.
Proof.
  induction 1 as [|q l [Hq0 Hq1] _ [IH0 IH1]]; cbn [fold_right List.length].
  - split; [apply Qcle_refl|]. vm_compute. discriminate.
  - split.
    + rewrite <- (Qcplus_0_l 0). now apply Qcplus_le_compat.
    + replace (Z.of_nat (S (List.length l))) with (1 + Z.of_nat (List.length l)) by lia.
      rewrite Qc_of_Z_add, Qc_of_Z_1. now apply Qcplus_le_compat.
Qed.

(** The mean of values between 0 and 1 is between 0 and 1. *)
Lemma mean_unit_interval (l : list Qc) :
  l <> [] ->
  Forall (fun q => 0 <= q /\ q <= 1)%Qc l ->
  (0 <= arithmetic_mean l /\ arithmetic_mean l <= 1)%Qc.
Proof.
  intros Hne H. destruct (sum_unit_interval l H) as [H0 H1].
  unfold arithmetic_mean, Qcdiv.
  set (n := Qc_of_Z (Z.of_nat (List.length l))) in *.
  assert (Hn1 : (Qc_of_Z 1 <= n)%Qc).
  { apply Qc_of_Z_le. destruct l; [contradiction|]. cbn [List.length]. lia. }
  rewrite Qc_of_Z_1 in Hn1.
  assert (Hn0 : (0 <= n)%Qc) by (eapply Qcle_trans; [|exact Hn1]; discriminate).
  assert (Hne0 : n <> 0%Qc).
  { intros E. rewrite E in Hn1. revert Hn1. vm_compute. intros Hc. now apply Hc. }
  pose proof (Qcinv_nonneg n Hn0) as Hinv.
  split.
  - pose proof (Qcmult_le_compat_r _ _ _ H0 Hinv) as Hm.
    now rewrite Qcmult_0_l in Hm.
  - pose proof (Qcmult_le_compat_r _ _ _ H1 Hinv) as Hm.
    now rewrite (Qcmult_inv_r n Hne0) in Hm.
Qed.

Lemma accuracy_values_unit_interval (results : list json) :
  Forall (fun r => evaluation_record r = true) results ->
  Forall (fun q => 0 <= q /\ q <= 1)%Qc (non_null_values "accuracy" results).
Proof.
  induction 1 as [|r results Hr _ IH]; [constructor|].
  cbn [non_null_values flat_map]. fold (non_null_values "accuracy" results).
  apply Forall_app. split; [|exact IH].
  destruct r as [| | | | | |d]; try discriminate Hr.
  cbn [evaluation_record] in Hr.
  repeat (apply andb_prop in Hr; destruct Hr as [Hr ?]).
  unfold null_or in Hr. cbn [field_number].
  destruct (dict_get d "accuracy") as [v|]; [|constructor].
  destruct v as [|b| | | | |]; try discriminate Hr; try constructor; [|constructor].
  destruct b; cbn; split; discriminate.
Qed.



(** Whatever the records, a summary that is returned counts them all. *)
Lemma calculate_run_summary_total (results : list json) (summary : dict) :
  calculate_run_summary results = Ok summary ->
  dict_get summary "total_prompts" = Some (JInt (Z.of_nat (List.length results))).
Proof.
  destruct results as [|r rs]; [now intros [= <-]|].
  unfold calculate_run_summary. cbv beta iota zeta. intros H.
  repeat (apply bind_Ok in H; destruct H as (? & _ & H)).
  injection H as <-. reflexivity.
Qed.

(* ================================================================== *)
(** ** Further properties: run details *)
(* ================================================================== *)

Section RunDetailsProperties.

Variable str : exn -> string.

Lemma run_details_no_results (run_dir : dir_entry) (meta : json) :
  is_dir run_dir = true ->
  meta_json run_dir = JsonFile meta ->
  results_jsonl run_dir = None ->
  get_run_details str (Some run_dir) =
  [("metadata", meta); ("results", JArr []); ("summary", JObj empty_summary)].
Proof.
  intros Hd Hm Hr. unfold get_run_details. rewrite Hd, Hm, Hr. reflexivity.
Qed.

(** The two read paths differ on a run directory without [results.jsonl]:
    its details carry no results and the summary of no records, while the
    run that the listing returns for it has no summary (its metadata
    having none). *)
Theorem run_details_without_results (run_dir : dir_entry) (meta run : dict) :
  is_dir run_dir = true ->
  meta_json run_dir = JsonFile (JObj meta) ->
  results_jsonl run_dir = None ->
  dict_has meta "summary" = false ->
  load_run run_dir = Ok run ->
  get_run_details str (Some run_dir) =
  [("metadata", JObj meta); ("results", JArr []); ("summary", JObj empty_summary)]
  /\ dict_has run "summary" = false.
Proof.
  intros Hd Hm Hr Hs Hl. split; [now apply run_details_no_results|].
  unfold load_run in Hl. rewrite Hm, Hr in Hl. cbn [bind py_setitem] in Hl.
  injection Hl as <-. unfold dict_has in *.
  now rewrite dict_get_set_other by discriminate.
Qed.

(** The details of a listed run with a results file carry the summary that
    the listing attaches to the run, computed from the same records, and
    its [total_prompts] is the number of results in the answer. *)
Theorem run_details_match_listing (run_dir : dir_entry) (run : dict)
    (lines : list jsonl_line) :
  is_dir run_dir = true ->
  results_jsonl run_dir = Some lines ->
  load_run run_dir = Ok run ->
  exists meta summary,
    get_run_details str (Some run_dir) =
    [("metadata", JObj meta);
     ("results", JArr (load_results lines));
     ("summary", JObj summary)]
    /\ dict_get run "summary" = Some (JObj summary)
    /\ dict_get summary "total_prompts"
       = Some (JInt (Z.of_nat (List.length (load_results lines)))).
Proof.
  intros Hd Hr Hl. unfold load_run in Hl. unfold get_run_details.
  rewrite Hd, Hr. rewrite Hr in Hl.
  destruct (meta_json run_dir) as [| |v]; try discriminate Hl.
  cbn [bind] in Hl |- *.
  destruct (calculate_run_summary (load_results lines)) as [s|] eqn:Es;
    [|discriminate Hl].
  cbn [bind] in Hl |- *.
  destruct v as [| | | | | |meta]; try discriminate Hl.
  cbn [py_setitem bind] in Hl. injection Hl as <-.
  exists meta, s. split; [reflexivity|]. split.
  - rewrite dict_get_set_other by discriminate. apply dict_get_set_same.
  - now apply calculate_run_summary_total.
Qed.

(** For a run directory whose [meta.json] is a JSON object, an iteration
    of the listing appends a run exactly when the details are not an
    error. *)
Lemma is_listed_iff_details (run_dir : dir_entry) (meta : dict) :
  is_dir run_dir = true ->
  meta_json run_dir = JsonFile (JObj meta) ->
  (is_listed run_dir = true
   <-> dict_has (get_run_details str (Some run_dir)) "error" = false).
Proof.
  intros Hd Hm. unfold is_listed, load_run, get_run_details.
  rewrite Hd, Hm. cbn [andb bind].
  destruct (results_jsonl run_dir) as [lines|].
  - destruct (calculate_run_summary (load_results lines)) as [s|e];
      cbn [bind py_setitem]; split; intros H; try reflexivity; discriminate H.
  - cbn [py_setitem calculate_run_summary bind]. split; reflexivity.
Qed.

Lemma same_name_same_entry (entries : list dir_entry) (a b : dir_entry) :
  NoDup (map entry_name entries) ->
  In a entries -> In b entries -> entry_name a = entry_name b -> a = b.
Proof.
  induction entries as [|e entries IH]; [intros _ []|].
  cbn [map]. intros Hn Ha Hb E. inversion Hn as [|? ? Hout Hn']. subst.
  destruct Ha as [<-|Ha], Hb as [<-|Hb].
  - reflexivity.
  - exfalso. apply Hout. rewrite E. now apply in_map.
  - exfalso. apply Hout. rewrite <- E. now apply in_map.
  - now apply IH.
Qed.

(** When the limit does not cut the listing, the limit covers every
    entry that an iteration appends a run for. *)
Lemma get_recent_runs_all (entries : list dir_entry) (limit : Z) :
  Z.of_nat (List.length (filter is_listed entries)) <= limit ->
  get_recent_runs (RunsDir entries) limit
  = Ok (listed_runs (sorted_reverse entries)).
Proof.
  intros H. rewrite get_recent_runs_take. f_equal. apply firstn_all2.
  unfold listed_runs. rewrite length_map.
  pose proof (PathSort.Permuted_sort entries) as Hp.
  fold (sorted_reverse entries) in Hp.
  apply (Permutation_filter_of is_listed), Permutation_length in Hp.
  lia.
Qed.

(** The listing and the details of a run agree wherever the limit does not
    cut the listing: in a runs directory whose loadable entries are at
    most [limit] (and whose names are distinct, as those of one directory
    are), a run directory whose [meta.json] is a JSON object has a run in
    the result of [get_recent_runs] exactly when its details are not an
    error. *)
Theorem run_listed_iff_details (entries : list dir_entry) (limit : Z)
    (run_dir : dir_entry) (meta : dict) :
  In run_dir entries ->
  NoDup (map entry_name entries) ->
  is_dir run_dir = true ->
  meta_json run_dir = JsonFile (JObj meta) ->
  Z.of_nat (List.length (filter is_listed entries)) <= limit ->
  ((exists runs run,
      get_recent_runs (RunsDir entries) limit = Ok runs
      /\ In run runs
      /\ dict_get run "run_id" = Some (JStr (entry_name run_dir)))
   <-> dict_has (get_run_details str (Some run_dir)) "error" = false).
Proof.
  intros Hin Hn Hd Hm Hlimit.
  rewrite <- (is_listed_iff_details run_dir meta Hd Hm).
  rewrite (get_recent_runs_all _ _ Hlimit).
  pose proof (PathSort.Permuted_sort entries) as Hp.
  fold (sorted_reverse entries) in Hp.
  split.
  - intros (runs & run & [= <-] & Hrun & Hid).
    unfold listed_runs in Hrun. apply in_map_iff in Hrun.
    destruct Hrun as (e & <- & He). apply filter_In in He.
    destruct He as [He Hl].
    destruct (is_listed_load _ Hl) as (_ & _ & Hload).
    rewrite (load_run_run_id _ _ Hload) in Hid. injection Hid as Hid.
    apply Permutation_sym in Hp.
    rewrite <- (same_name_same_entry entries e run_dir Hn
                  (Permutation_in _ Hp He) Hin Hid).
    exact Hl.
  - intros Hl. destruct (is_listed_load _ Hl) as (_ & _ & Hload).
    exists (listed_runs (sorted_reverse entries)), (run_of run_dir).
    split; [reflexivity|]. split.
    + unfold listed_runs. apply in_map. apply filter_In.
      split; [|exact Hl]. eapply Permutation_in; eassumption.
    + exact (load_run_run_id _ _ Hload).
Qed.

End RunDetailsProperties.

Lemma run_details_without_results_witness :
  get_run_details (fun _ => "error") (Some sample_run_2) =
  [("metadata", JObj [("model", JStr "llama3"); ("total_prompts", JInt 2)]);
   ("results", JArr []);
   ("summary", JObj empty_summary)].
Proof.
  apply (run_details_without_results (fun _ => "error") sample_run_2 _
           (run_of sample_run_2)); reflexivity.
Defined.

Lemma run_details_match_listing_witness :
  exists meta summary,
    get_run_details (fun _ => "error") (Some sample_run_1) =
    [("metadata", JObj meta);
     ("results", JArr sample_records);
     ("summary", JObj summary)]
    /\ dict_get summary "total_prompts" = Some (JInt 3).
Proof.
  destruct (run_details_match_listing (fun _ => "error") sample_run_1
              (run_of sample_run_1) (map JsonLine sample_records)
              eq_refl eq_refl eq_refl) as (meta & summary & H1 & _ & H3).
  exists meta, summary. split; [|exact H3].
  rewrite H1. now rewrite load_results_json_lines.
Defined.

Lemma run_listed_iff_details_witness :
  (exists runs run,
     get_recent_runs (RunsDir sample_entries) 10 = Ok runs
     /\ In run runs
     /\ dict_get run "run_id" = Some (JStr "20240101-000000"))
  <-> dict_has (get_run_details (fun _ => "error") (Some sample_run_1)) "error"
      = false.
Proof.
  apply (run_listed_iff_details (fun _ => "error") sample_entries 10 sample_run_1
           [("model", JStr "llama3"); ("total_prompts", JInt 3)]).
  - left. reflexivity.
  - repeat constructor; cbn; intuition discriminate.
  - reflexivity.
  - reflexivity.
  - vm_compute. discriminate.
Defined.

(* ================================================================== *)
(** ** Further properties: fleet statistics *)
(* ================================================================== *)

Lemma violation_test (r : dict) :
  well_formed_run r = true ->
  (if dict_has r "summary" then
     b <- summary_item r "blocked_count" ;;
     py_gt0 b
   else Ok false)
  = Ok (has_violation r).
Proof.
  intros Hr. unfold well_formed_run in Hr.
  apply andb_prop in Hr. destruct Hr as [_ Hs].
  unfold has_violation, run_blocked_count, summary_item, dict_has, dict_item.
  destruct (dict_get r "summary") as [s|]; [|reflexivity].
  unfold summary_ok in Hs. apply andb_prop in Hs. destruct Hs as [_ Hb].
  destruct s as [| | | | | |d]; try discriminate Hb.
  cbn [summary_has] in Hb. cbn [bind py_item]. unfold dict_item.
  destruct (dict_get d "blocked_count") as [v|]; [|discriminate Hb].
  destruct v as [| |z| | | |]; try discriminate Hb. reflexivity.
Qed.

Lemma violation_item (r : dict) :
  well_formed_run r = true ->
  has_violation r = true ->
  (run_id <- dict_item r "run_id" ;;
   b <- summary_item r "blocked_count" ;;
   Ok (JObj [("run_id", run_id);
             ("timestamp", dict_get_default r "start_time" JNull);
             ("blocked_count", b);
             ("total_prompts",
              dict_get_default r "total_prompts" (JInt 0))]))
  = Ok (violation_entry r).
Proof.
  intros Hr Hv. unfold well_formed_run in Hr.
  apply andb_prop in Hr. destruct Hr as [Hr Hs].
  apply andb_prop in Hr. destruct Hr as [Hid _].
  unfold has_violation in Hv.
  unfold violation_entry, run_blocked_count in *.
  unfold summary_item, dict_has, dict_item in *.
  unfold dict_get_default at 3.
  destruct (dict_get r "run_id") as [rid|]; [|discriminate Hid].
  destruct (dict_get r "summary") as [s|]; [|discriminate Hv].
  unfold summary_ok in Hs. apply andb_prop in Hs. destruct Hs as [_ Hb].
  destruct s as [| | | | | |d]; try discriminate Hb.
  cbn [summary_has] in Hb. cbn [bind py_item]. unfold dict_item.
  destruct (dict_get d "blocked_count") as [v|]; [|discriminate Hb].
  destruct v as [| |z| | | |]; try discriminate Hb. reflexivity.
Qed.

Lemma violations_comprehension (runs : list dict) :
  Forall (fun r => well_formed_run r = true) runs ->
  list_comp
    (fun run =>
       if dict_has run "summary" then
         b <- summary_item run "blocked_count" ;;
         py_gt0 b
       else Ok false)
    (fun run =>
       run_id <- dict_item run "run_id" ;;
       b <- summary_item run "blocked_count" ;;
       Ok (JObj [("run_id", run_id);
                 ("timestamp", dict_get_default run "start_time" JNull);
                 ("blocked_count", b);
                 ("total_prompts",
                  dict_get_default run "total_prompts" (JInt 0))]))
    runs
  = Ok (map violation_entry (filter has_violation runs)).
Proof.
  induction 1 as [|r runs Hr _ IH]; [reflexivity|].
  cbn [list_comp filter]. rewrite IH, (violation_test r Hr). cbn [bind].
  destruct (has_violation r) eqn:E; [|reflexivity].
  rewrite (violation_item r Hr E). reflexivity.
Qed.

(** What a returned [dashboard_stats] says about its input, whatever the
    runs are. *)
Lemma dashboard_stats_inv (runs : list dict) (stats : dict) :
  dashboard_stats runs = Ok stats ->
  dict_get stats "total_runs" = Some (JInt (Z.of_nat (List.length runs)))
  /\ exists violations,
       list_comp
         (fun run =>
            if dict_has run "summary" then
              b <- summary_item run "blocked_count" ;;
              py_gt0 b
            else Ok false)
         (fun run =>
            run_id <- dict_item run "run_id" ;;
            b <- summary_item run "blocked_count" ;;
            Ok (JObj [("run_id", run_id);
                      ("timestamp", dict_get_default run "start_time" JNull);
                      ("blocked_count", b);
                      ("total_prompts",
                       dict_get_default run "total_prompts" (JInt 0))]))
         (firstn 5 runs)
       = Ok violations
       /\ dict_get stats "recent_violations" = Some (JArr violations).
Proof.
  destruct runs as [|r rs].
  { intros [= <-]. split; [reflexivity|]. exists []. split; reflexivity. }
  unfold dashboard_stats. cbv beta iota zeta. intros H.
  apply bind_Ok in H. destruct H as (total & _ & H).
  apply bind_Ok in H. destruct H as (accs & _ & H).
  apply bind_Ok in H. destruct H as (lats & _ & H).
  apply bind_Ok in H. destruct H as (blocked & _ & H).
  apply bind_Ok in H. destruct H as (violations & Hv & H).
  apply bind_Ok in H. destruct H as (acc & _ & H).
  apply bind_Ok in H. destruct H as (lat & _ & H).
  apply bind_Ok in H. destruct H as (rate & _ & H).
  injection H as <-. split; [reflexivity|].
  exists violations. split; [exact Hv|reflexivity].
Qed.



Lemma sum_from_non_numeric (l : list json) (acc : num) :
  Exists (fun v => as_num v = None) l -> sum_from acc l = Raise TypeError.
Proof.
  intros H. revert acc. induction H as [v l Hv|v l _ IH]; intros acc; cbn [sum_from].
  - now rewrite Hv.
  - destruct (as_num v); [apply IH|reflexivity].
Qed.



Lemma filter_none {A : Type} (f : A -> bool) (l : list A) :
  Forall (fun x => f x = false) l -> filter f l = [].
Proof.
  induction 1 as [|x l Hx _ IH]; [reflexivity|].
  cbn [filter]. now rewrite Hx.
Qed.

(** The statistics cover the fifty newest runs at most: [total_runs] is
    the number of listed entries of the runs directory, capped at 50.
    When no entry is listed, and when the runs directory does not exist,
    the statistics are all zero, the two averages included. *)
Theorem stats_window (entries : list dir_entry) :
  (forall stats,
     get_dashboard_stats (RunsDir entries) = Ok stats ->
     dict_get stats "total_runs"
     = Some (JInt (Z.of_nat (Nat.min 50 (List.length (filter is_listed entries))))))
  /\ (Forall (fun e => is_listed e = false) entries ->
      get_dashboard_stats (RunsDir entries) = Ok zero_stats)
  /\ get_dashboard_stats NoRunsDir = Ok zero_stats.
Proof.
  pose proof (PathSort.Permuted_sort entries) as Hp.
  fold (sorted_reverse entries) in Hp.
  split; [|split].
  - intros stats H. unfold get_dashboard_stats in H.
    rewrite get_recent_runs_take in H. cbn [bind] in H.
    apply dashboard_stats_inv in H. destruct H as [H _]. rewrite H.
    do 3 f_equal. unfold listed_runs.
    rewrite length_firstn, length_map.
    rewrite (Permutation_length (Permutation_filter_of is_listed _ _ Hp)).
    reflexivity.
  - intros H. unfold get_dashboard_stats. rewrite get_recent_runs_take.
    unfold listed_runs. rewrite filter_none.
    + cbn [map]. rewrite firstn_nil. reflexivity.
    + rewrite Forall_forall in *. intros e He. apply H.
      eapply Permutation_in; [symmetry; exact Hp|exact He].
  - reflexivity.
Qed.

Lemma stats_window_witness :
  get_dashboard_stats (RunsDir [sample_run_3]) = Ok zero_stats.
Proof.
  apply (proj1 (proj2 (stats_window [sample_run_3]))).
  repeat constructor.
Defined.

(* ================================================================== *)
(** ** Further properties: run discovery and routing *)
(* ================================================================== *)

(** A smaller limit gives a prefix of what a larger limit gives: the runs
    of the runs page (limit 10) are the first ten of the runs that the
    statistics read (limit 50). *)
Theorem recent_runs_prefix (entries : list dir_entry) (n m : Z) :
  1 <= n <= m ->
  exists runs,
    get_recent_runs (RunsDir entries) m = Ok runs
    /\ get_recent_runs (RunsDir entries) n = Ok (firstn (Z.to_nat n) runs).
Proof.
  intros H. eexists. split; [apply get_recent_runs_take|].
  rewrite get_recent_runs_take, firstn_firstn.
  do 2 f_equal. lia.
Qed.

Lemma recent_runs_prefix_witness :
  exists runs,
    get_recent_runs (RunsDir sample_entries) 50 = Ok runs
    /\ get_recent_runs (RunsDir sample_entries) 10 = Ok (firstn 10 runs).
Proof. apply (recent_runs_prefix sample_entries 10 50). lia. Defined.

(** Two listings in descending order of distinct names that hold the same
    entries are the same listing. *)
Lemma name_after_sorted_unique (l1 l2 : list dir_entry) :
  StronglySorted name_after l1 ->
  StronglySorted name_after l2 ->
  Permutation l1 l2 ->
  NoDup (map entry_name l1) ->
  l1 = l2.
Proof.
  intros H1. revert l2. induction H1 as [|a l1 Hs1 IH Ha]; intros l2 H2 Hp Hn.
  - apply Permutation_nil in Hp. now subst.
  - destruct l2 as [|b l2]; [symmetry in Hp; apply Permutation_nil in Hp; discriminate|].
    apply StronglySorted_inv in H2. destruct H2 as [Hs2 Hb].
    cbn [map] in Hn. apply NoDup_cons_iff in Hn. destruct Hn as [Hna Hn].
    assert (Hab : a = b).
    { assert (Hin_a : In a (b :: l2)) by (eapply Permutation_in; [exact Hp|now left]).
      assert (Hin_b : In b (a :: l1))
        by (eapply Permutation_in; [symmetry; exact Hp|now left]).
      destruct Hin_a as [E|Hin_a]; [now symmetry|].
      destruct Hin_b as [E|Hin_b]; [exact E|].
      exfalso. apply Hna.
      rewrite Forall_forall in Ha, Hb.
      pose proof (Ha _ Hin_b) as Hab. pose proof (Hb _ Hin_a) as Hba.
      unfold name_after in Hab, Hba.
      rewrite (String.leb_antisym _ _ Hba Hab).
      now apply in_map. }
    subst b. f_equal. apply IH; [exact Hs2| |exact Hn].
    now apply Permutation_cons_inv in Hp.
Qed.

(** The listing does not depend on the order in which the file system
    yields the entries of the runs directory (their names being
    distinct, as the names of one directory are). *)
Theorem recent_runs_order_independent (entries entries' : list dir_entry)
    (limit : Z) :
  Permutation entries entries' ->
  NoDup (map entry_name entries) ->
  get_recent_runs (RunsDir entries) limit = get_recent_runs (RunsDir entries') limit.
Proof.
  intros Hp Hn. rewrite !get_recent_runs_take. do 3 f_equal.
  apply name_after_sorted_unique.
  - apply name_after_sorted.
  - apply name_after_sorted.
  - etransitivity; [symmetry; apply PathSort.Permuted_sort|].
    etransitivity; [exact Hp|]. apply PathSort.Permuted_sort.
  - eapply Permutation_NoDup; [|exact Hn].
    apply Permutation_map. apply PathSort.Permuted_sort.
Qed.

Lemma recent_runs_order_independent_witness :
  get_recent_runs (RunsDir sample_entries) 10
  = get_recent_runs (RunsDir (rev sample_entries)) 10.
Proof.
  apply recent_runs_order_independent.
  - apply Permutation_rev.
  - repeat constructor; cbn; intuition discriminate.
Defined.

Lemma py_split_nonempty (sep : ascii) (s : string) : py_split sep s <> [].
Proof.
  induction s as [|c s IH]; cbn [py_split]; [discriminate|].
  destruct (Ascii.eqb c sep); [discriminate|].
  destruct (py_split sep s); discriminate.
Qed.

Lemma last_py_split_no_sep (sep : ascii) (s : string) :
  contains_char sep (last (py_split sep s) EmptyString) = false.
Proof.
  induction s as [|c s IH]; [reflexivity|].
  cbn [py_split]. destruct (Ascii.eqb c sep) eqn:E.
  - pose proof (py_split_nonempty sep s) as Hne.
    destruct (py_split sep s) as [|p ps]; [contradiction|]. exact IH.
  - pose proof (py_split_nonempty sep s) as Hne.
    destruct (py_split sep s) as [|p ps]; [contradiction|].
    destruct ps as [|p' ps'].
    + cbn [last] in *. cbn [contains_char]. now rewrite E, IH.
    + exact IH.
Qed.

Lemma py_split_no_sep (sep : ascii) (s : string) :
  contains_char sep s = false -> py_split sep s = [s].
Proof.
  induction s as [|c s IH]; [reflexivity|].
  cbn [contains_char py_split]. intros H.
  apply orb_false_elim in H. destruct H as [Hc Hs].
  now rewrite Hc, (IH Hs).
Qed.

Lemma py_split_app (sep : ascii) (s t : string) :
  py_split sep (s ++ String sep t) = (py_split sep s ++ py_split sep t)%list.
Proof.
  induction s as [|c s IH].
  - cbn [append py_split app]. now rewrite Ascii.eqb_refl.
  - cbn [append py_split]. rewrite IH.
    pose proof (py_split_nonempty sep s) as Hne.
    destruct (Ascii.eqb c sep); [reflexivity|].
    destruct (py_split sep s) as [|p ps]; [contradiction|]. reflexivity.
Qed.

Lemma last_app_nonempty {A : Type} (l1 l2 : list A) (d : A) :
  l2 <> [] -> last (l1 ++ l2) d = last l2 d.
Proof.
  intros Hne. induction l1 as [|x l1 IH]; [reflexivity|].
  cbn [app last]. destruct (l1 ++ l2)%list eqn:E; [|exact IH].
  apply app_eq_nil in E. destruct E as [_ E]. contradiction.
Qed.

(** The run id that [do_GET] hands to the details is the last segment of
    the path: it never contains a slash, so it names an entry of the runs
    directory itself (or [..]), and a path [/api/run/<id>] with a
    slash-free id is routed to the details of that id. *)
Theorem run_details_route :
  (forall path run_id,
     do_GET path = serve_run_details run_id ->
     contains_char "/"%char run_id = false)
  /\ (forall run_id,
        contains_char "/"%char run_id = false ->
        do_GET ("/api/run/" ++ run_id) = serve_run_details run_id).
Proof.
  split.
  - intros path run_id. unfold do_GET.
    destruct (String.eqb path "/" || String.eqb path "/index.html");
      [discriminate|].
    destruct (String.eqb path "/api/runs"); [discriminate|].
    destruct (String.prefix "/api/run/" path).
    + intros [= <-]. apply last_py_split_no_sep.
    + destruct (String.eqb path "/api/stats"); discriminate.
  - intros run_id H.
    change ("/api/run/" ++ run_id)%string
      with ("/api/run" ++ String "/"%char run_id)%string.
    unfold do_GET.
    replace (String.eqb ("/api/run" ++ String "/" run_id) "/" ||
             String.eqb ("/api/run" ++ String "/" run_id) "/index.html")
      with false by reflexivity.
    replace (String.eqb ("/api/run" ++ String "/" run_id) "/api/runs")
      with false by reflexivity.
    replace (String.prefix "/api/run/" ("/api/run" ++ String "/" run_id))
      with true
      by (cbn; destruct run_id; reflexivity).
    rewrite py_split_app, last_app_nonempty by apply py_split_nonempty.
    now rewrite (py_split_no_sep _ _ H).
Qed.

Lemma run_details_route_witness :
  do_GET "/api/run/20240101-000000" = serve_run_details "20240101-000000".
Proof.
  apply (proj2 run_details_route "20240101-000000"). reflexivity.
Defined.

(* ================================================================== *)
(** ** Further properties: token estimates *)
(* ================================================================== *)

Lemma this_quarter (n : Z) : (this (Qc_of_Z n / Qc_of_Z 4)%Qc == n # 4)%Q.
Proof.
  unfold Qcdiv, Qcmult, Qcinv, Qc_of_Z. cbn [this Q2Qc].
  rewrite !Qred_correct. rewrite (Qmake_Qdiv n 4). reflexivity.
Qed.

(** Rounding a number of quarters: down below the half, up above it, and
    at the half to the even neighbour. *)
Lemma py_round_quarter (n : Z) :
  py_round (Qc_of_Z n / Qc_of_Z 4)%Qc =
  match Z.compare (n mod 4) 2 with
  | Lt => n / 4
  | Gt => n / 4 + 1
  | Eq => if Z.even (n / 4) then n / 4 else n / 4 + 1
  end.
Proof.
  unfold py_round. cbv zeta.
  assert (Hf : Qfloor (Qc_of_Z n / Qc_of_Z 4)%Qc = n / 4)
    by (rewrite (this_quarter n); reflexivity).
  rewrite Hf.
  assert (Hc : Qcompare ((Qc_of_Z n / Qc_of_Z 4)%Qc - inject_Z (n / 4)) (1 # 2)
               = Qcompare ((n # 4) - inject_Z (n / 4)) (1 # 2))
    by (rewrite (this_quarter n); reflexivity).
  rewrite Hc.
  replace (Qcompare ((n # 4) - inject_Z (n / 4)) (1 # 2))
    with (Z.compare (n mod 4) 2); [reflexivity|].
  unfold Qcompare, Qminus, Qplus, Qopp, inject_Z. cbn [Qnum Qden].
  pose proof (Z.div_mod n 4 ltac:(lia)) as Hdm.
  replace ((n * 1 + - (n / 4) * 4) * 2) with ((n mod 4) * 2) by lia.
  pose proof (Z.mod_pos_bound n 4 ltac:(lia)) as Hb.
  assert (Hr : n mod 4 = 0 \/ n mod 4 = 1 \/ n mod 4 = 2 \/ n mod 4 = 3) by lia.
  destruct Hr as [E|[E|[E|E]]]; rewrite E; reflexivity.
Qed.

(** The rounded quarter is within a half of the exact one, and even when
    exactly a half away. *)
Lemma py_round_quarter_near (n : Z) :
  let r := py_round (Qc_of_Z n / Qc_of_Z 4)%Qc in
  4 * r - 2 <= n <= 4 * r + 2
  /\ (n = 4 * r + 2 \/ n = 4 * r - 2 -> Z.even r = true).
Proof.
  cbv zeta. rewrite py_round_quarter.
  pose proof (Z.div_mod n 4 ltac:(lia)) as Hdm.
  pose proof (Z.mod_pos_bound n 4 ltac:(lia)) as Hb.
  destruct (Z.compare_spec (n mod 4) 2) as [E|L|G].
  - destruct (Z.even (n / 4)) eqn:Ev.
    + split; [lia|]. intros _. exact Ev.
    + split; [lia|]. intros _. rewrite Z.even_add, Ev. reflexivity.
  - split; [lia|]. intros [H|H]; lia.
  - split; [lia|]. intros [H|H]; lia.
Qed.

Lemma _estimate_tokens_string (text : string) :
  _estimate_tokens (JStr text) = Ok (estimated_tokens text).
Proof. reflexivity. Qed.

(** The token estimate of a text is at least 1 (it is 1 up to two
    characters), it is within half a token of a quarter of the length
    from two characters on, and a longer text never has a smaller
    estimate.  A value without a length has no estimate. *)
Theorem estimate_tokens_bounds :
  (forall text : string,
     let n := Z.of_nat (String.length text) in
     exists e,
       _estimate_tokens (JStr text) = Ok e
       /\ 1 <= e
       /\ (n <= 2 -> e = 1)
       /\ (2 <= n -> 4 * e - 2 <= n <= 4 * e + 2))
  /\ (forall text text' e e',
        (String.length text <= String.length text')%nat ->
        _estimate_tokens (JStr text) = Ok e ->
        _estimate_tokens (JStr text') = Ok e' ->
        e <= e')
  /\ _estimate_tokens JNull = Raise TypeError.
Proof.
  split; [|split].
  - intros text n. exists (estimated_tokens text).
    split; [apply _estimate_tokens_string|].
    unfold estimated_tokens. fold n.
    destruct (py_round_quarter_near n) as [Hb _].
    repeat split; lia.
  - intros text text' e e' Hlen. rewrite !_estimate_tokens_string.
    intros [= <-] [= <-]. unfold estimated_tokens.
    set (n := Z.of_nat (String.length text)).
    set (m := Z.of_nat (String.length text')).
    assert (Hnm : n <= m) by (unfold n, m; lia).
    destruct (py_round_quarter_near n) as [Hn En].
    destruct (py_round_quarter_near m) as [Hm Em].
    cbv zeta in *.
    set (rn := py_round (Qc_of_Z n / Qc_of_Z 4)%Qc) in *.
    set (rm := py_round (Qc_of_Z m / Qc_of_Z 4)%Qc) in *.
    assert (Hr : rn <= rm).
    { destruct (Z_le_gt_dec rn rm) as [Hle|Hgt]; [exact Hle|]. exfalso.
      assert (En' : Z.even rn = true) by (apply En; lia).
      assert (Em' : Z.even rm = true) by (apply Em; lia).
      assert (E1 : rn = rm + 1) by lia.
      rewrite E1, Z.even_add, Em' in En'. discriminate En'. }
    lia.
  - reflexivity.
Qed.

Lemma estimate_tokens_bounds_witness :
  exists e, _estimate_tokens (JStr "What is 2 + 2?") = Ok e /\ 4 * e - 2 <= 14 <= 4 * e + 2.
Proof.
  destruct (proj1 estimate_tokens_bounds "What is 2 + 2?") as (e & He & _ & _ & Hb).
  exists e. split; [exact He|]. apply Hb. cbn. lia.
Defined.

(* ================================================================== *)
(** ** Further properties: generation and model names *)
(* ================================================================== *)

Lemma substring_all (s : string) : String.substring 0 (String.length s) s = s.
Proof. induction s as [|c s IH]; [reflexivity|]. cbn. now rewrite IH. Qed.

Lemma strip_provider_prefix_app (model : string) :
  strip_provider_prefix ("ollama/" ++ model) = model.
Proof.
  unfold strip_provider_prefix.
  replace (String.prefix "ollama/" ("ollama/" ++ model)) with true
    by (cbn; destruct model; reflexivity).
  cbn. rewrite Nat.sub_0_r. apply substring_all.
Qed.

Lemma reported_or_estimate_string (data : dict) (k : string) (text : string) :
  reported_or_estimate (JObj data) k (JStr text) = Ok (token_count data k text).
Proof.
  unfold reported_or_estimate, token_count. cbn [py_get bind].
  unfold dict_get_default. destruct (dict_get data k) as [v|]; [|reflexivity].
  destruct v; reflexivity.
Qed.

Section GenerateProperties.

Variable post : dict -> Qc -> http_outcome.
Variables start_time end_time : Qc.

(** A backend failure reaches the caller of [generate] as a
    [RuntimeError]: when the request raises, when the status is 4xx or
    5xx, and when the body is not JSON.  No [RequestException] and no
    JSON decoding error leaves [generate] as such. *)
Theorem generate_wraps_backend_failures (model prompt : string)
    (temperature : option Qc) (timeout : Qc) :
  let outcome := post (generate_payload model prompt temperature) timeout in
  (outcome = RequestFailed ->
   generate post start_time end_time model prompt temperature timeout
   = GenerationRaised (RuntimeError RequestException))
  /\ (forall r, outcome = Responded r -> 400 <= status_code r < 600 ->
      generate post start_time end_time model prompt temperature timeout
      = GenerationRaised (RuntimeError RequestException))
  /\ (forall r, outcome = Responded r -> ~ 400 <= status_code r < 600 ->
      json_body r = Raise ValueError ->
      generate post start_time end_time model prompt temperature timeout
      = GenerationRaised (RuntimeError ValueError))
  /\ generate post start_time end_time model prompt temperature timeout
     <> GenerationRaised (Uncaught RequestException)
  /\ generate post start_time end_time model prompt temperature timeout
     <> GenerationRaised (Uncaught ValueError).
Proof.
  cbv zeta. unfold generate. repeat split.
  - intros ->. reflexivity.
  - intros r -> [Hlo Hhi]. cbn [requests_get bind]. unfold raise_for_status.
    apply Z.leb_le in Hlo. apply Z.ltb_lt in Hhi. now rewrite Hlo, Hhi.
  - intros r -> Hs Hb. cbn [requests_get bind]. unfold raise_for_status.
    destruct ((400 <=? status_code r) && (status_code r <? 600)) eqn:E.
    + exfalso. apply Hs. apply andb_prop in E.
      destruct E as [Hlo Hhi]. apply Z.leb_le in Hlo. apply Z.ltb_lt in Hhi. lia.
    + cbn [bind]. rewrite Hb. reflexivity.
  - match goal with |- context [match ?c with _ => _ end] => destruct c as [x|[]] end;
      discriminate.
  - match goal with |- context [match ?c with _ => _ end] => destruct c as [x|[]] end;
      discriminate.
Qed.


(** The provider prefix of the model is optional for [generate]: with and
    without a leading [ollama/] the same request is made and the same
    result returned.  Only one prefix is removed. *)
Theorem generate_prefix_optional (model prompt : string)
    (temperature : option Qc) (timeout : Qc) :
  String.prefix "ollama/" model = false ->
  generate post start_time end_time ("ollama/" ++ model) prompt temperature timeout
  = generate post start_time end_time model prompt temperature timeout.
Proof.
  intros H. unfold generate, generate_payload.
  rewrite strip_provider_prefix_app.
  unfold strip_provider_prefix. rewrite H. reflexivity.
Qed.

End GenerateProperties.

(** A backend that always gives the same answer. *)
Lemma generate_wraps_backend_failures_witness :
  generate (fun _ _ => Responded {| status_code := 500; json_body := Raise ValueError |})
           0%Qc 1%Qc "llama3" "What is 2 + 2?" None (Qc_of_Z 120)
  = GenerationRaised (RuntimeError RequestException).
Proof.
  refine (proj1 (proj2 (generate_wraps_backend_failures
            (fun _ _ => Responded {| status_code := 500; json_body := Raise ValueError |})
            0%Qc 1%Qc "llama3" "What is 2 + 2?" None (Qc_of_Z 120)))
          _ eq_refl _).
  cbn [status_code]. lia.
Defined.


Lemma generate_prefix_optional_witness :
  generate (fun _ _ => RequestFailed) 0%Qc 1%Qc ("ollama/" ++ "llama3")
           "What is 2 + 2?" None (Qc_of_Z 120)
  = generate (fun _ _ => RequestFailed) 0%Qc 1%Qc "llama3"
             "What is 2 + 2?" None (Qc_of_Z 120).
Proof. apply generate_prefix_optional. reflexivity. Defined.

Lemma before_colon_no_colon (s : string) :
  contains_char ":"%char (before_colon s) = false.
Proof.
  induction s as [|c s IH]; [reflexivity|].
  cbn [before_colon]. destruct (Ascii.eqb c ":") eqn:E; [reflexivity|].
  cbn [contains_char]. now rewrite E, IH.
Qed.

Lemma model_names_ok (items : list json) (names : list string) :
  model_names items = Ok names -> Forall model_name_ok names.
Proof.
  revert names. induction items as [|model rest IH]; intros names;
    cbn [model_names].
  - intros [= <-]. constructor.
  - intros H.
    apply bind_Ok in H. destruct H as (n & _ & H).
    apply bind_Ok in H. destruct H as (name & Hname & H).
    apply bind_Ok in H. destruct H as (tail & Htail & H).
    injection H as <-. specialize (IH _ Htail).
    destruct (String.eqb name "") eqn:E; [exact IH|].
    constructor; [|exact IH]. split.
    + now apply String.eqb_neq.
    + destruct n; try discriminate Hname. injection Hname as <-.
      apply before_colon_no_colon.
Qed.

Lemma list_models_inv (o : http_outcome) (names : list string) :
  list_models o = Ok names ->
  names = []
  \/ exists models, Forall model_name_ok models /\ names = StringSort.sort models.
Proof.
  unfold list_models.
  match goal with |- except_RequestException ?c _ = _ -> _ => destruct c as [x|e] eqn:E end.
  - cbn [except_RequestException]. intros [= <-]. right.
    apply bind_Ok in E. destruct E as (response & _ & E).
    apply bind_Ok in E. destruct E as (u & _ & E).
    apply bind_Ok in E. destruct E as (data & _ & E).
    apply bind_Ok in E. destruct E as (listed & _ & E).
    apply bind_Ok in E. destruct E as (items & _ & E).
    apply bind_Ok in E. destruct E as (models & Hm & E).
    injection E as <-. exists models. split; [|reflexivity].
    now apply model_names_ok in Hm.
  - destruct e; cbn [except_RequestException]; intros H; try discriminate H.
    injection H as <-. now left.
Qed.

(** What [list_models] returns is sorted, and every name in it is
    non-empty and has no tag (no colon): tags are cut off and nameless
    entries dropped before the sort. *)
Theorem list_models_sorted_untagged (o : http_outcome) (names : list string) :
  list_models o = Ok names ->
  Sorted (fun a b => String.leb a b = true) names
  /\ Forall model_name_ok names.
Proof.
  intros H. apply list_models_inv in H.
  destruct H as [->|(models & Hok & ->)].
  - split; constructor.
  - split.
    + apply StringSort.Sorted_sort.
    + rewrite Forall_forall in *. intros x Hx. apply Hok.
      eapply Permutation_in; [|exact Hx].
      symmetry. apply StringSort.Permuted_sort.
Qed.

Lemma list_models_sorted_untagged_witness :
  Sorted (fun a b => String.leb a b = true) ["llama3"; "mistral"]
  /\ Forall model_name_ok ["llama3"; "mistral"].
Proof.
  apply (list_models_sorted_untagged
           (Responded
              {| status_code := 200;
                 json_body :=
                   Ok (JObj [("models",
                              JArr [JObj [("name", JStr "mistral:7b")];
                                    JObj [("name", JStr "llama3:latest")];
                                    JObj [("size", JInt 4)]])]) |})).
  reflexivity.
Defined.

Lemma existsb_eqb_absent (model : string) (names : list string) :
  ~ In model names -> existsb (String.eqb model) names = false.
Proof.
  intros H. destruct (existsb (String.eqb model) names) eqn:E; [|reflexivity].
  exfalso. apply H. apply existsb_exists in E. destruct E as (x & Hx & Heq).
  apply String.eqb_eq in Heq. now subst.
Qed.

(** [model_exists] answers [False] when the listing request fails, and
    also, whatever is installed, for a model given with a tag (a colon
    after the provider prefix is removed): the listed names have their
    tags cut off.  The provider prefix itself is optional. *)
Theorem model_exists_edges :
  (forall model, model_exists RequestFailed model = Ok false)
  /\ (forall o names model,
        list_models o = Ok names ->
        contains_char ":"%char (strip_provider_prefix model) = true ->
        model_exists o model = Ok false)
  /\ (forall o model,
        String.prefix "ollama/" model = false ->
        model_exists o ("ollama/" ++ model) = model_exists o model).
Proof.
  split; [|split].
  - reflexivity.
  - intros o names model Hl Hc. unfold model_exists. rewrite Hl. cbn [bind].
    apply list_models_inv in Hl. f_equal. apply existsb_eqb_absent. intros Hin.
    assert (Hok : model_name_ok (strip_provider_prefix model)).
    { destruct Hl as [->|(models & Hok & ->)]; [contradiction|].
      rewrite Forall_forall in Hok. apply Hok.
      eapply Permutation_in; [|exact Hin].
      symmetry. apply StringSort.Permuted_sort. }
    destruct Hok as [_ Hno]. rewrite Hno in Hc. discriminate Hc.
  - intros o model H. unfold model_exists.
    rewrite strip_provider_prefix_app. unfold strip_provider_prefix.
    now rewrite H.
Qed.

Lemma model_exists_edges_witness :
  model_exists
    (Responded
       {| status_code := 200;
          json_body :=
            Ok (JObj [("models", JArr [JObj [("name", JStr "llama3:latest")]])]) |})
    "llama3:latest"
  = Ok false.
Proof.
  eapply (proj1 (proj2 model_exists_edges)); reflexivity.
Defined.

(* ================================================================== *)
(** ** Further properties: model strings and providers *)
(* ================================================================== *)

Lemma split_once_spec (sep : ascii) (s : string) :
  contains_char sep s = true ->
  s = (fst (split_once sep s) ++ String sep (snd (split_once sep s)))%string
  /\ contains_char sep (fst (split_once sep s)) = false.
Proof.
  induction s as [|c s IH]; cbn [contains_char split_once]; [discriminate|].
  destruct (Ascii.eqb c sep) eqn:E; cbn [orb].
  - intros _. apply Ascii.eqb_eq in E. subst c. split; reflexivity.
  - intros H. destruct (IH H) as [Hs Hc].
    destruct (split_once sep s) as [before after]. cbn [fst snd] in *.
    split.
    + cbn [append]. now rewrite <- Hs.
    + cbn [contains_char]. now rewrite E, Hc.
Qed.

Lemma prefix_app_inv (p s : string) :
  String.prefix p s = true -> exists rest, s = (p ++ rest)%string.
Proof.
  revert s. induction p as [|c p IH]; intros s.
  - intros _. exists s. reflexivity.
  - destruct s as [|c' s]; simpl; [intros H; discriminate H|].
    destruct (ascii_dec c c') as [->|]; [|intros H; discriminate H].
    intros H. destruct (IH _ H) as (rest & ->). exists rest. reflexivity.
Qed.

(** A model string without a slash is a model of the provider [ollama];
    one with a slash is cut at its first slash, so the provider part has
    no slash and provider, slash and model name give the string back. *)
Theorem parse_model_string_parts :
  (forall model,
     contains_char "/"%char model = false ->
     parse_model_string model = ("ollama", model))
  /\ (forall model provider name,
        contains_char "/"%char model = true ->
        parse_model_string model = (provider, name) ->
        model = (provider ++ "/" ++ name)%string
        /\ contains_char "/"%char provider = false).
Proof.
  split.
  - intros model H. unfold parse_model_string. now rewrite H.
  - intros model provider name H Hp. unfold parse_model_string in Hp.
    rewrite H in Hp. destruct (split_once_spec _ _ H) as [Hs Hc].
    rewrite Hp in Hs, Hc. cbn [fst snd] in *. split; assumption.
Qed.

Lemma parse_model_string_parts_witness :
  "library/llama3/chat" = ("library" ++ "/" ++ "llama3/chat")%string
  /\ contains_char "/"%char "library" = false.
Proof.
  apply (proj2 parse_model_string_parts "library/llama3/chat"); reflexivity.
Defined.

(** For every model string whose provider part [get_provider] accepts,
    the model name that [generate] puts in the request (the string
    without its [ollama/] prefix) is the model name of
    [parse_model_string]; any other provider part is a [ValueError]. *)
Theorem accepted_model_name (model : string) :
  (forall provider,
     get_provider (fst (parse_model_string model)) = Ok provider ->
     strip_provider_prefix model = snd (parse_model_string model))
  /\ (fst (parse_model_string model) <> "ollama" ->
      get_provider (fst (parse_model_string model)) = Raise ValueError).
Proof.
  split.
  - intros provider H. unfold get_provider in H.
    destruct (String.eqb (fst (parse_model_string model)) "ollama") eqn:E;
      [|discriminate H].
    apply String.eqb_eq in E. clear H.
    destruct (contains_char "/"%char model) eqn:Hc.
    + unfold parse_model_string in *. rewrite Hc in *.
      destruct (split_once_spec _ _ Hc) as [Hs _].
      destruct (split_once "/"%char model) as [p name].
      cbn [fst snd] in *. subst p. rewrite Hs.
      apply strip_provider_prefix_app.
    + unfold parse_model_string. rewrite Hc. cbn [snd].
      unfold strip_provider_prefix.
      destruct (String.prefix "ollama/" model) eqn:Hpre; [|reflexivity].
      apply prefix_app_inv in Hpre. destruct Hpre as (rest & ->).
      cbn in Hc. discriminate Hc.
  - intros H. unfold get_provider. apply String.eqb_neq in H. now rewrite H.
Qed.

Lemma accepted_model_name_witness :
  strip_provider_prefix "ollama/llama3" = snd (parse_model_string "ollama/llama3").
Proof.
  apply (proj1 (accepted_model_name "ollama/llama3")
           (OllamaProvider_init "http://localhost:11434")).
  reflexivity.
Defined.

(** The base address of a provider is the given address without its
    trailing slashes: it does not end with a slash, what was cut off is
    slashes only, and an address without a trailing slash is kept as it
    is.  So the request addresses, base address followed by [/api/...],
    have one slash at the joint. *)
Theorem base_url_stripped (url : string) :
  ends_with_slash (base_url (OllamaProvider_init url)) = false
  /\ (exists tail,
        only_slashes tail = true
        /\ url = (base_url (OllamaProvider_init url) ++ tail)%string)
  /\ (ends_with_slash url = false ->
      base_url (OllamaProvider_init url) = url).
Proof.
  cbn [OllamaProvider_init base_url].
  induction url as [|c s (IH1 & (tail & Ht & Hs) & IH3)].
  - split; [reflexivity|]. split; [|reflexivity].
    exists EmptyString. split; reflexivity.
  - cbn [rstrip_slash].
    destruct (rstrip_slash s) as [|c' rest] eqn:E.
    + cbn [append] in Hs. subst tail.
      destruct (Ascii.eqb c "/"%char) eqn:Ec.
      * split; [reflexivity|]. split.
        -- exists (String c s). split; [|reflexivity].
           cbn [only_slashes]. now rewrite Ec, Ht.
        -- destruct s; cbn [ends_with_slash].
           ++ rewrite Ec. intros H; discriminate H.
           ++ intros H. specialize (IH3 H). discriminate IH3.
      * split; [cbn [ends_with_slash]; exact Ec|]. split.
        -- exists s. split; [exact Ht|reflexivity].
        -- destruct s; cbn [ends_with_slash]; [reflexivity|].
           intros H. specialize (IH3 H). discriminate IH3.
    + split; [exact IH1|]. split.
      * exists tail. split; [exact Ht|]. cbn [append]. f_equal. exact Hs.
      * destruct s; [discriminate E|]. cbn [ends_with_slash].
        intros H. now rewrite (IH3 H).
Qed.

Lemma base_url_stripped_witness :
  base_url (OllamaProvider_init "http://localhost:11434")
  = "http://localhost:11434".
Proof.
  apply (proj2 (proj2 (base_url_stripped "http://localhost:11434"))).
  reflexivity.
Defined.

(* ================================================================== *)
(** ** Further properties: policies *)
(* ================================================================== *)

(** Dumping a policy and loading the dump gives the policy back: every
    policy is the content of a policy file. *)
Theorem policy_round_trip {V : FieldValidators} (policy : EvaluationPolicy) :
  load_policy (JsonFile (JObj (policy_to_dict policy))) = Ok policy.
Proof.
  destruct policy as [l a t th p].
  unfold load_policy, EvaluationPolicy_init, field, policy_to_dict.
  cbn [dict_get String.eqb Ascii.eqb Bool.eqb
       max_latency_ms require_accuracy enable_toxicity toxicity_threshold
       enable_pii].
  rewrite validate_int_exact, !validate_bool_exact, validate_float_exact.
  reflexivity.
Qed.

(* ================================================================== *)
(** ** Further properties: run directory names *)
(* ================================================================== *)

Lemma two_digits_table :
  forallb (fun a =>
    forallb (fun b =>
      comparison_eqb
        (String.compare (two_digits (Z.of_nat a)) (two_digits (Z.of_nat b)))
        (Z.compare (Z.of_nat a) (Z.of_nat b)))
      (seq 0 100))
    (seq 0 100) = true.
Proof. vm_compute. reflexivity. Qed.

Lemma comparison_eqb_eq (c c' : comparison) : comparison_eqb c c' = true -> c = c'.
Proof. destruct c, c'; simpl; intros H; try reflexivity; discriminate H. Qed.

Lemma two_digits_compare (a b : Z) :
  0 <= a < 100 -> 0 <= b < 100 ->
  String.compare (two_digits a) (two_digits b) = Z.compare a b.
Proof.
  intros Ha Hb. pose proof two_digits_table as T.
  rewrite forallb_forall in T.
  assert (Hia : In (Z.to_nat a) (seq 0 100)) by (apply in_seq; lia).
  specialize (T _ Hia). rewrite forallb_forall in T.
  assert (Hib : In (Z.to_nat b) (seq 0 100)) by (apply in_seq; lia).
  specialize (T _ Hib). apply comparison_eqb_eq in T.
  now rewrite !Z2Nat.id in T by lia.
Qed.

Lemma string_compare_app (x x' y y' : string) :
  String.length x = String.length x' ->
  String.compare (x ++ y) (x' ++ y') =
  match String.compare x x' with
  | Eq => String.compare y y'
  | c => c
  end.
Proof.
  revert x'. induction x as [|c x IH]; intros [|c' x'] H; try discriminate H.
  - reflexivity.
  - cbn [append String.compare]. injection H as H.
    destruct (Ascii.compare c c'); try reflexivity. now apply IH.
Qed.

Lemma four_digits_compare (a b : Z) :
  0 <= a < 10000 -> 0 <= b < 10000 ->
  String.compare (four_digits a) (four_digits b) = Z.compare a b.
Proof.
  intros Ha Hb. unfold four_digits.
  rewrite string_compare_app by reflexivity.
  rewrite !two_digits_compare by (Z.div_mod_to_equations; lia).
  destruct (Z.compare_spec (a / 100) (b / 100));
    destruct (Z.compare_spec (a mod 100) (b mod 100));
    destruct (Z.compare_spec a b); try reflexivity; exfalso;
    Z.div_mod_to_equations; lia.
Qed.

Lemma format_timestamp_compare (a b : datetime) :
  valid_datetime a -> valid_datetime b ->
  String.compare (format_timestamp a) (format_timestamp b) = datetime_compare a b.
Proof.
  intros (Hy & Hm & Hd & Hh & Hmi & Hs) (Hy' & Hm' & Hd' & Hh' & Hmi' & Hs').
  unfold format_timestamp, datetime_compare. cbn [lex_compare].
  rewrite string_compare_app by reflexivity.
  rewrite four_digits_compare by lia.
  destruct (year a ?= year b); try reflexivity.
  rewrite string_compare_app, two_digits_compare by (reflexivity || lia).
  destruct (month a ?= month b); try reflexivity.
  rewrite string_compare_app, two_digits_compare by (reflexivity || lia).
  destruct (day a ?= day b); try reflexivity.
  rewrite (string_compare_app "-" "-") by reflexivity.
  change (String.compare "-" "-") with Eq. cbv iota.
  rewrite string_compare_app, two_digits_compare by (reflexivity || lia).
  destruct (hour a ?= hour b); try reflexivity.
  rewrite string_compare_app, two_digits_compare by (reflexivity || lia).
  destruct (minute a ?= minute b); try reflexivity.
  rewrite two_digits_compare by lia.
  destruct (second a ?= second b); reflexivity.
Qed.

Lemma datetime_compare_eq (a b : datetime) : datetime_compare a b = Eq -> a = b.
Proof.
  destruct a as [y m d h mi s], b as [y' m' d' h' mi' s'].
  unfold datetime_compare. cbn [lex_compare year month day hour minute second].
  destruct (Z.compare_spec y y'); try discriminate.
  destruct (Z.compare_spec m m'); try discriminate.
  destruct (Z.compare_spec d d'); try discriminate.
  destruct (Z.compare_spec h h'); try discriminate.
  destruct (Z.compare_spec mi mi'); try discriminate.
  destruct (Z.compare_spec s s'); try discriminate.
  intros _. now subst.
Qed.

(** The names that [format_timestamp] gives to run directories compare as
    strings the way their times compare: the lexicographic order that the
    dashboard sorts by is the chronological order.  Two runs get the same
    name only when they start in the same second. *)
Theorem format_timestamp_chronological (a b : datetime) :
  valid_datetime a -> valid_datetime b ->
  String.compare (format_timestamp a) (format_timestamp b) = datetime_compare a b
  /\ (format_timestamp a = format_timestamp b -> a = b).
Proof.
  intros Ha Hb. pose proof (format_timestamp_compare a b Ha Hb) as Hc.
  split; [exact Hc|].
  intros E. apply datetime_compare_eq. rewrite <- Hc, E.
  destruct (String.compare (format_timestamp b) (format_timestamp b)) eqn:Ec;
    [reflexivity| |]; exfalso.
  - exact (string_lt_irrefl _ Ec).
  - rewrite String.compare_antisym in Ec.
    destruct (String.compare (format_timestamp b) (format_timestamp b)) eqn:Ec';
      try discriminate Ec.
    exact (string_lt_irrefl _ Ec').
Qed.

Lemma format_timestamp_chronological_witness :
  String.compare
    (format_timestamp {| year := 2024; month := 1; day := 5;
                         hour := 13; minute := 7; second := 9 |})
    (format_timestamp {| year := 2024; month := 1; day := 5;
                         hour := 13; minute := 10; second := 0 |})
  = Lt.
Proof.
  refine (proj1 (format_timestamp_chronological
            {| year := 2024; month := 1; day := 5;
               hour := 13; minute := 7; second := 9 |}
            {| year := 2024; month := 1; day := 5;
               hour := 13; minute := 10; second := 0 |} _ _));
    unfold valid_datetime; cbn; lia.
Defined.

Lemma StronglySorted_impl_in {A : Type} (R R' : A -> A -> Prop) (l : list A) :
  (forall a b, In a l -> In b l -> R a b -> R' a b) ->
  StronglySorted R l -> StronglySorted R' l.
Proof.
  intros H Hs. induction Hs as [|a l Hs IH Ha]; constructor.
  - apply IH. intros x y Hx Hy. apply H; now right.
  - rewrite Forall_forall in *. intros x Hx.
    apply H; [now left|now right|]. now apply Ha.
Qed.

(** The listing is newest first: when the run directories are named by
    [format_timestamp] from their start times, the runs come out of
    [get_recent_runs] in an order in which no run precedes a run that
    started later. *)
Theorem listing_newest_first (started : dir_entry -> datetime)
    (entries : list dir_entry) (limit : Z) :
  (forall e, In e entries ->
     valid_datetime (started e)
     /\ entry_name e = format_timestamp (started e)) ->
  exists listing,
    get_recent_runs (RunsDir entries) limit = Ok (map run_of listing)
    /\ (forall e, In e listing -> In e entries /\ load_run e = Ok (run_of e))
    /\ StronglySorted
         (fun a b => datetime_compare (started b) (started a) <> Gt) listing.
Proof.
  intros Hnames.
  exists (firstn (Z.to_nat (Z.max 1 limit))
            (filter is_listed (sorted_reverse entries))).
  assert (Hin : forall e,
            In e (firstn (Z.to_nat (Z.max 1 limit))
                    (filter is_listed (sorted_reverse entries))) ->
            In e entries /\ is_listed e = true).
  { intros e He. apply In_firstn_of in He. apply filter_In in He.
    destruct He as [He Hl]. split; [|exact Hl].
    eapply Permutation_in; [|exact He].
    symmetry. apply PathSort.Permuted_sort. }
  split; [|split].
  - rewrite get_recent_runs_take. unfold listed_runs. now rewrite firstn_map.
  - intros e He. destruct (Hin e He) as [H1 H2]. split; [exact H1|].
    now apply is_listed_load in H2.
  - apply (StronglySorted_impl_in name_after).
    + intros a b Ha Hb Hab.
      destruct (Hnames a (proj1 (Hin a Ha))) as [Hva Hna].
      destruct (Hnames b (proj1 (Hin b Hb))) as [Hvb Hnb].
      rewrite <- (format_timestamp_compare _ _ Hvb Hva), <- Hna, <- Hnb.
      unfold name_after, String.leb in Hab.
      destruct (String.compare (entry_name b) (entry_name a));
        discriminate.
    + apply StronglySorted_firstn, StronglySorted_filter, name_after_sorted.
Qed.

Lemma listing_newest_first_witness :
  exists listing,
    get_recent_runs (RunsDir [sample_run_1; sample_run_2]) 10
    = Ok (map run_of listing)
    /\ (forall e, In e listing -> In e [sample_run_1; sample_run_2]).
Proof.
  destruct (listing_newest_first
              (fun e =>
                 if String.eqb (entry_name e) "20240101-000000"
                 then {| year := 2024; month := 1; day := 1;
                         hour := 0; minute := 0; second := 0 |}
                 else {| year := 2024; month := 1; day := 2;
                         hour := 0; minute := 0; second := 0 |})
              [sample_run_1; sample_run_2] 10)
    as (listing & H & Hin & _).
  - intros e [<-|[<-|[]]]; (split; [unfold valid_datetime; cbn; lia|reflexivity]).
  - exists listing. split; [exact H|]. intros e He. exact (proj1 (Hin e He)).
Defined.
